(** * MOBIPAY: fee schedule, fee split, gateway client and settlement routes

    A shallow embedding of the payment backend:
    - [utils/validation]  ([schemas], [validate], [businessRules], [sanitize]),
    - [utils/money-split] ([MoneySplitter.calculateSplit]),
    - [services/mpesa-service] ([MpesaService]),
    - the routes of [server2.js] that quote, poll and settle a transaction,
    - the rest of the payment path: the account and settings lookups of the
      splitter ([moneySplitter]), the whole of [POST /api/payment/initiate]
      and the USSD menu ([app]), and the query that the dashboard builds for
      its listing of transactions ([dashboard]).

    Numbers.  Every JavaScript number is a binary64 double.  Quantities that
    the program keeps integral (amounts, charges, shares, result codes) are
    modelled in [Z]: they are exact in binary64 below 2^53.  The two products
    with a percentage, [amount * (percentage / 100)], are modelled in exact
    rational arithmetic ([Q]) followed by [Math.round] in [businessRules] and
    [MoneySplitter]: these serve the statements that do not depend on how a
    product is rounded (sums, signs, order, which error is raised).  Where a
    statement gives the rounded value itself, the product is the one of the
    program: module [Binary64] evaluates both products with the kernel's
    binary64 floats, over the ranges the service accepts, and module [Double]
    has [calculateSplit] on exact rationals rounded to the nearest double
    after every operation ([round64]), for all charges and percentages.

    Effects.  Methods and routes run in a state-and-exception monad over the
    tables, the gateway client's token cache, the console and the requests
    sent; the network and the clock are a parameter ([World]).  Reads and
    writes of the tables always succeed: the driver's error callbacks (I/O
    faults) are outside the model, and so is the interleaving of requests.
    The one statement that can fail on its data, the INSERT of a transaction
    (NOT NULL and UNIQUE), fails in the model as well. *)

From Stdlib Require Import ZArith QArith Qround Qpower Lia List String Ascii.
From Stdlib Require Import Bool DecimalString Floats Uint63.
From Stdlib Require DecimalZ Qcanon.
Import ListNotations.

Set Warnings "-inexact-float,-register-all".

Local Open Scope string_scope.
Local Open Scope Z_scope.

(* ================================================================== *)
(** ** JavaScript values and built-ins used by the sources            *)
(* ================================================================== *)

Module JS.

(** JSON-borne values.  [JNum] carries integral numbers only.  A string is
    the sequence of the bytes of its UTF-8 encoding. *)
Inductive jsval : Type :=
| JUndefined
| JNull
| JBool (b : bool)
| JNum (n : Z)
| JStr (s : string)
| JArr (items : list jsval)
| JObj (props : list (string * jsval)).

(** ToBoolean, as used by [!x], [x && y], [x || y]. *)
Definition truthy (v : jsval) : bool :=
  match v with
  | JUndefined | JNull => false
  | JBool b => b
  | JNum n => negb (n =? 0)
  | JStr s => negb (s =? "")%string
  | JArr _ | JObj _ => true
  end.

(** [a === b].  Arrays and objects are compared by identity; the sources
    compare against literals only, which no array or object is identical to. *)
Definition strict_eq (a b : jsval) : bool :=
  match a, b with
  | JUndefined, JUndefined => true
  | JNull, JNull => true
  | JBool x, JBool y => Bool.eqb x y
  | JNum x, JNum y => x =? y
  | JStr x, JStr y => (x =? y)%string
  | _, _ => false
  end.

(** [a || b] on values. *)
Definition or_else (a b : jsval) : jsval := if truthy a then a else b.

(** Decimal text of an integer, as ToString gives it for |n| < 10^21. *)
Definition decimal (n : Z) : string := NilZero.string_of_int (Z.to_int n).

(** ToString: template literals, and [parseInt] on a non-string. *)
Fixpoint ToString (v : jsval) : string :=
  match v with
  | JUndefined => "undefined"
  | JNull => "null"
  | JBool true => "true"
  | JBool false => "false"
  | JNum n => decimal n
  | JStr s => s
  | JArr items =>
      (fix join (l : list jsval) : string :=
         match l with
         | [] => ""
         | x :: r =>
             let e := match x with
                      | JUndefined | JNull => ""
                      | _ => ToString x
                      end in
             match r with
             | [] => e
             | _ => e ++ "," ++ join r
             end
         end) items
  | JObj _ => "[object Object]"
  end.

Fixpoint lookup (o : list (string * jsval)) (k : string) : jsval :=
  match o with
  | [] => JUndefined
  | (k', v) :: o' => if (k' =? k)%string then v else lookup o' k
  end.

(** What a [throw] carries: an [Error] object with its message and, for a
    failed HTTP exchange, the [response] the client attached to it. *)
Record Error : Type := mkError {
  message : string;
  response : jsval
}.

(** [new Error(msg)] *)
Definition new_Error (msg : string) : Error := mkError msg JUndefined.

Definition TypeError (msg : string) : Error :=
  mkError ("TypeError: " ++ msg) JUndefined.

(** Completion of a computation that may throw. *)
Inductive outcome (A : Type) : Type :=
| Return (a : A)
| Throw (e : Error).

Arguments Return {A} a.
Arguments Throw {A} e.

Definition obind {A B : Type} (c : outcome A) (k : A -> outcome B) : outcome B :=
  match c with
  | Return a => k a
  | Throw e => Throw e
  end.

(** [v.k] on a value that is neither null nor undefined: an own property of
    an object literal, [undefined] on anything else. *)
Definition prop (v : jsval) (k : string) : jsval :=
  match v with
  | JObj o => lookup o k
  | _ => JUndefined
  end.

(** [v.k], and [const { k } = v]. *)
Definition member (v : jsval) (k : string) : outcome jsval :=
  match v with
  | JUndefined | JNull =>
      Throw (TypeError ("Cannot read properties of " ++ ToString v
                        ++ " (reading '" ++ k ++ "')"))
  | _ => Return (prop v k)
  end.

(** [v?.k] *)
Definition opt_member (v : jsval) (k : string) : jsval :=
  match v with
  | JUndefined | JNull => JUndefined
  | _ => prop v k
  end.

(** The receiver of a call [v.method(...)] of a String method: the string,
    or the TypeError raised when [v] is anything else. *)
Definition string_receiver (v : jsval) (method : string) : outcome string :=
  match v with
  | JStr s => Return s
  | JUndefined | JNull =>
      Throw (TypeError ("Cannot read properties of " ++ ToString v
                        ++ " (reading '" ++ method ++ "')"))
  | _ => Throw (TypeError (method ++ " is not a function"))
  end.

(** [{ k1: v.f1, k2: v.f2, ... }] *)
Fixpoint pick (v : jsval) (fields : list (string * string))
  : outcome (list (string * jsval)) :=
  match fields with
  | [] => Return []
  | (k, f) :: rest =>
      obind (member v f) (fun x =>
      obind (pick v rest) (fun o => Return ((k, x) :: o)))
  end.

(** [s.startsWith(p)] *)
Definition startsWith (s p : string) : bool := String.prefix p s.

(** [s.substring(1)] *)
Definition substring1 (s : string) : string :=
  match s with
  | EmptyString => EmptyString
  | String _ r => r
  end.

(** [\d] *)
Definition is_digit (c : ascii) : bool :=
  ((48 <=? nat_of_ascii c) && (nat_of_ascii c <=? 57))%nat.

(** [s.replace(/\D/g, '')] *)
Fixpoint strip_non_digits (s : string) : string :=
  match s with
  | EmptyString => EmptyString
  | String c r =>
      if is_digit c then String c (strip_non_digits r) else strip_non_digits r
  end.

(** [/^\d*$/] *)
Fixpoint all_digits (s : string) : bool :=
  match s with
  | EmptyString => true
  | String c r => is_digit c && all_digits r
  end.

(** The white space of one byte: TAB, LF, VT, FF, CR, SP. *)
Definition is_space (c : ascii) : bool :=
  let n := nat_of_ascii c in
  ((n =? 32) || ((9 <=? n) && (n <=? 13)))%nat.

(** The first byte of the white space that takes more than one byte. *)
Definition space_lead (c : ascii) : bool :=
  let n := nat_of_ascii c in
  ((n =? 194) || (n =? 225) || (n =? 226) || (n =? 227) || (n =? 239))%nat.

(** U+00A0, the no-break space. *)
Definition is_space2 (a b : ascii) : bool :=
  ((nat_of_ascii a =? 194) && (nat_of_ascii b =? 160))%nat.

(** U+1680; U+2000 to U+200A, U+2028, U+2029 and U+202F; U+205F; U+3000;
    U+FEFF: with the no-break space and the six above, the white space and
    the line terminators of the language. *)
Definition is_space3 (a b c : ascii) : bool :=
  let x := nat_of_ascii a in
  let y := nat_of_ascii b in
  let z := nat_of_ascii c in
  (((x =? 225) && (y =? 154) && (z =? 128))
   || ((x =? 226) && (y =? 128)
       && (((128 <=? z) && (z <=? 138))
           || (z =? 168) || (z =? 169) || (z =? 175)))
   || ((x =? 226) && (y =? 129) && (z =? 159))
   || ((x =? 227) && (y =? 128) && (z =? 128))
   || ((x =? 239) && (y =? 187) && (z =? 191)))%nat.

(** The string without the white space it starts with, as [parseInt] and
    [parseFloat] skip it. *)
Fixpoint trim_start (s : string) : string :=
  match s with
  | EmptyString => EmptyString
  | String c r =>
      if is_space c then trim_start r
      else if space_lead c then
        match r with
        | String c1 r1 =>
            if is_space2 c c1 then trim_start r1
            else
              match r1 with
              | String c2 r2 => if is_space3 c c1 c2 then trim_start r2 else s
              | EmptyString => s
              end
        | EmptyString => s
        end
      else s
  end.

(** Value of a character as a digit of the given radix. *)
Definition digit_value (radix : Z) (c : ascii) : option Z :=
  let n := Z.of_nat (nat_of_ascii c) in
  let d := if (48 <=? n) && (n <=? 57) then n - 48
           else if (97 <=? n) && (n <=? 122) then n - 87
           else if (65 <=? n) && (n <=? 90) then n - 55
           else radix in
  if d <? radix then Some d else None.

(** Longest prefix of digits, read left to right; [None] when it is empty. *)
Fixpoint parse_digits (radix : Z) (s : string) (acc : option Z) : option Z :=
  match s with
  | EmptyString => acc
  | String c r =>
      match digit_value radix c with
      | Some d =>
          parse_digits radix r
            (Some (radix * match acc with Some a => a | None => 0 end + d))
      | None => acc
      end
  end.

(** [parseInt(s)]; [None] is NaN.  The integer is the exact one: it is the
    number the program gets when its magnitude is at most 2^53, and the
    statements that depend on its value carry that bound. *)
Definition parseInt (s : string) : option Z :=
  let s := trim_start s in
  let '(neg, s) :=
    match s with
    | String "-" r => (true, r)
    | String "+" r => (false, r)
    | _ => (false, s)
    end in
  let '(radix, s) :=
    match s with
    | String "0" (String "x" r) => (16, r)
    | String "0" (String "X" r) => (16, r)
    | _ => (10, s)
    end in
  match parse_digits radix s None with
  | Some n => Some (if neg then - n else n)
  | None => None
  end.

(** [Math.round(x)]: the integer nearest to [x], a tie going up. *)
Definition Math_round (x : Q) : Z := Qfloor (x + (1 # 2))%Q.

(** Base64 alphabet. *)
Definition base64_char (i : N) : ascii :=
  ascii_of_N (if (i <? 26)%N then 65 + i
              else if (i <? 52)%N then 97 + (i - 26)
              else if (i <? 62)%N then 48 + (i - 52)
              else if (i =? 62)%N then 43 else 47).

(** [Buffer.from(s).toString('base64')] *)
Fixpoint base64 (s : string) : string :=
  match s with
  | EmptyString => EmptyString
  | String a EmptyString =>
      let n := (N_of_ascii a * 65536)%N in
      String (base64_char (n / 262144))
        (String (base64_char ((n / 4096) mod 64)) "==")
  | String a (String b EmptyString) =>
      let n := (N_of_ascii a * 65536 + N_of_ascii b * 256)%N in
      String (base64_char (n / 262144))
        (String (base64_char ((n / 4096) mod 64))
           (String (base64_char ((n / 64) mod 64)) "="))
  | String a (String b (String c r)) =>
      let n := (N_of_ascii a * 65536 + N_of_ascii b * 256 + N_of_ascii c)%N in
      String (base64_char (n / 262144))
        (String (base64_char ((n / 4096) mod 64))
           (String (base64_char ((n / 64) mod 64))
              (String (base64_char (n mod 64)) (base64 r))))
  end.

End JS.

Import JS.

Notation "x <~ c ;; k" := (obind c (fun x => k))
  (at level 61, c at next level, right associativity).

(* ================================================================== *)
(** ** utils/validation                                                *)
(* ================================================================== *)

(** One entry of a validation report: the offending key and the rule. *)
Record JoiError : Type := mkJoiError {
  field : string;
  rule : string
}.

Module schemas.

(** [/^\d{1,4}$/] *)
Definition matatuCode_pattern (s : string) : bool :=
  all_digits s && (1 <=? String.length s)%nat && (String.length s <=? 4)%nat.

(** [/^254[17]\d{8}$/] *)
Definition phoneNumber_pattern (s : string) : bool :=
  match s with
  | String "2" (String "5" (String "4" (String c r))) =>
      ((c =? "1")%char || (c =? "7")%char)
      && all_digits r && (String.length r =? 8)%nat
  | _ => false
  end.

(** [Joi.string().pattern(p).required()] *)
Definition string_rule (p : string -> bool) (key : string) (v : jsval)
  : option JoiError :=
  match v with
  | JUndefined => Some (mkJoiError key "any.required")
  | JStr s =>
      if (s =? "")%string then Some (mkJoiError key "string.empty")
      else if p s then None
      else Some (mkJoiError key "string.pattern.base")
  | _ => Some (mkJoiError key "string.base")
  end.

Definition matatuCode := string_rule matatuCode_pattern.
Definition phoneNumber := string_rule phoneNumber_pattern.

Definition MAX_SAFE_INTEGER : Z := 9007199254740991.

(** [Joi.number().integer().min(50).max(100000).required()] on a number:
    an integer, or NaN ([None]). *)
Definition amount (key : string) (v : option Z) : option JoiError :=
  match v with
  | None => Some (mkJoiError key "number.base")
  | Some n =>
      if MAX_SAFE_INTEGER <? Z.abs n then Some (mkJoiError key "number.unsafe")
      else if n <? 50 then Some (mkJoiError key "number.min")
      else if 100000 <? n then Some (mkJoiError key "number.max")
      else None
  end.

End schemas.

(** The object handed to [validatePaymentRequest]. *)
Record PaymentRequest : Type := mkPaymentRequest {
  matatu_code : jsval;
  phone_number : jsval;
  amount : option Z
}.

Record Validation : Type := mkValidation {
  isValid : bool;
  errors : list JoiError
}.

Module validate.

Definition report (e : option JoiError) : Validation :=
  match e with
  | None => mkValidation true []
  | Some err => mkValidation false [err]
  end.

Definition validateMatatuCode (code : jsval) : Validation :=
  report (schemas.matatuCode "value" code).

Definition validatePhoneNumber (phone : jsval) : Validation :=
  report (schemas.phoneNumber "value" phone).

Definition validateAmount (a : option Z) : Validation :=
  report (schemas.amount "value" a).

(** Keys are checked in the order the schema lists them; the first failure
    ends the validation. *)
Definition validatePaymentRequest (data : PaymentRequest) : Validation :=
  match schemas.matatuCode "matatu_code" (matatu_code data) with
  | Some e => report (Some e)
  | None =>
      match schemas.phoneNumber "phone_number" (phone_number data) with
      | Some e => report (Some e)
      | None => report (schemas.amount "amount" (amount data))
      end
  end.

End validate.

Module businessRules.

Definition percentage (amount : Z) : Q :=
  if amount <=? 500 then 15 # 10
  else if amount <=? 1000 then 12 # 10
  else if amount <=? 2000 then 1
  else 8 # 10.

Definition calculateTransactionCharge (amount : Z) : Z :=
  Math_round (inject_Z amount * (percentage amount / 100))%Q.

End businessRules.

Module sanitize.

Definition cleanPhoneNumber (phone : jsval) : outcome jsval :=
  if negb (truthy phone) then Return JNull
  else
    p <~ string_receiver phone "replace" ;;
    let cleaned := strip_non_digits p in
    Return (JStr (if startsWith cleaned "0" then "254" ++ substring1 cleaned
                  else if startsWith cleaned "7" || startsWith cleaned "1"
                       then "254" ++ cleaned
                  else cleaned)).

Definition cleanMatatuCode (code : jsval) : outcome jsval :=
  if negb (truthy code) then Return JNull
  else
    c <~ string_receiver code "replace" ;;
    Return (JStr (strip_non_digits c)).

Definition cleanAmount (amount : jsval) : option Z :=
  match amount with
  | JStr s => parseInt (strip_non_digits s)
  | v => parseInt (ToString v)
  end.

End sanitize.

(* ================================================================== *)
(** ** utils/money-split                                               *)
(* ================================================================== *)

Record Split : Type := mkSplit {
  transactionCharge : Z;
  developerShare : Z;
  ownerShare : Z;
  developerPercentage : Q;   (* the number [toFixed(2)] then prints *)
  ownerPercentage : Q;       (* the number [toFixed(2)] then prints *)
  splitRatio : string;
  splitIsValid : bool        (* [isValid] *)
}.

Module MoneySplitter.

Definition charge_error : Error :=
  new_Error "Transaction charge must be at least KSh 1".

Definition percentage_error : Error :=
  new_Error "Developer percentage must be between 0 and 100".

Definition calculateSplit (transactionCharge : Z) (developerPercentage : Q)
  : outcome Split :=
  if transactionCharge <? 1 then Throw charge_error
  else if Qlt_le_dec developerPercentage 0 then Throw percentage_error
  else if Qlt_le_dec 100 developerPercentage then Throw percentage_error
  else
    let developerShare :=
      Math_round (inject_Z transactionCharge * (developerPercentage / 100))%Q in
    let ownerShare := transactionCharge - developerShare in
    let finalDeveloperShare :=
      if (ownerShare <? 1) && (1 <? transactionCharge)
      then developerShare - 1 else developerShare in
    let finalOwnerShare := transactionCharge - finalDeveloperShare in
    Return
      {| transactionCharge := transactionCharge;
         developerShare := finalDeveloperShare;
         ownerShare := finalOwnerShare;
         developerPercentage :=
           (inject_Z finalDeveloperShare / inject_Z transactionCharge * 100)%Q;
         ownerPercentage :=
           (inject_Z finalOwnerShare / inject_Z transactionCharge * 100)%Q;
         splitRatio := decimal finalOwnerShare ++ ":" ++ decimal finalDeveloperShare;
         splitIsValid := (0 <=? finalDeveloperShare) && (0 <=? finalOwnerShare) |}.

End MoneySplitter.

(* ================================================================== *)
(** ** database: the tables the routes read and write                  *)
(* ================================================================== *)

Inductive Status : Type := PENDING | COMPLETED | FAILED.

Definition Status_text (s : Status) : string :=
  match s with
  | PENDING => "PENDING"
  | COMPLETED => "COMPLETED"
  | FAILED => "FAILED"
  end.

Definition Status_eqb (a b : Status) : bool :=
  match a, b with
  | PENDING, PENDING | COMPLETED, COMPLETED | FAILED, FAILED => true
  | _, _ => false
  end.

(** Table [transactions]; a nullable column is an [option]. *)
Module transactions.

Record row : Type := mkRow {
  transaction_id : string;
  matatu_code : string;
  phone_number : string;
  amount : Z;
  transaction_charge : Z;
  total_amount : Z;
  mpesa_receipt_number : option string;
  status : Status;
  mpesa_request_id : option string;
  checkout_request_id : option string;
  owner_share : Z;
  developer_share : Z;
  created_at : string;
  updated_at : string
}.

Definition set_status (s : Status) (now : string) (r : row) : row :=
  {| transaction_id := transaction_id r;
     matatu_code := matatu_code r;
     phone_number := phone_number r;
     amount := amount r;
     transaction_charge := transaction_charge r;
     total_amount := total_amount r;
     mpesa_receipt_number := mpesa_receipt_number r;
     status := s;
     mpesa_request_id := mpesa_request_id r;
     checkout_request_id := checkout_request_id r;
     owner_share := owner_share r;
     developer_share := developer_share r;
     created_at := created_at r;
     updated_at := now |}.

Definition set_status_receipt (s : Status) (receipt : option string)
  (now : string) (r : row) : row :=
  {| transaction_id := transaction_id r;
     matatu_code := matatu_code r;
     phone_number := phone_number r;
     amount := amount r;
     transaction_charge := transaction_charge r;
     total_amount := total_amount r;
     mpesa_receipt_number := receipt;
     status := s;
     mpesa_request_id := mpesa_request_id r;
     checkout_request_id := checkout_request_id r;
     owner_share := owner_share r;
     developer_share := developer_share r;
     created_at := created_at r;
     updated_at := now |}.

End transactions.

(** Table [matatus]. *)
Module matatus.

Record row : Type := mkRow {
  matatu_code : string;
  route_name : string;
  owner_account : string;
  is_active : bool
}.

End matatus.

Module SQL.

(** A bound parameter as the text a TEXT column stores or is compared with;
    [None] is NULL ([null], and [undefined], which is left unbound). *)
Definition text (v : jsval) : option string :=
  match v with
  | JUndefined | JNull => None
  | JBool true => Some "1"
  | JBool false => Some "0"
  | v => Some (ToString v)
  end.

(** [column = ?]: NULL on either side matches nothing. *)
Definition eq_text (column : option string) (param : option string) : bool :=
  match column, param with
  | Some c, Some p => (c =? p)%string
  | _, _ => false
  end.

(** [SELECT t.*, m.route_name, m.owner_account FROM transactions t
     LEFT JOIN matatus m ON t.matatu_code = m.matatu_code
     WHERE t.transaction_id = ?] through [db.get]: the first row. *)
Definition transaction_with_matatu (ts : list transactions.row)
  (ms : list matatus.row) (transactionId : string)
  : option (transactions.row * option matatus.row) :=
  match find (fun t => (transactions.transaction_id t =? transactionId)%string) ts with
  | None => None
  | Some t =>
      Some (t, find (fun m => (matatus.matatu_code m
                               =? transactions.matatu_code t)%string) ms)
  end.

(** [SELECT transaction_id FROM transactions WHERE checkout_request_id = ?]
    through [db.get]: the first row. *)
Definition transaction_id_by_checkout (ts : list transactions.row)
  (checkoutRequestId : jsval) : option string :=
  match find (fun t => eq_text (transactions.checkout_request_id t)
                         (text checkoutRequestId)) ts with
  | None => None
  | Some t => Some (transactions.transaction_id t)
  end.

(** [UPDATE transactions SET status = ?, updated_at = CURRENT_TIMESTAMP
     WHERE transaction_id = ?] *)
Definition update_status (newStatus : Status) (now : string)
  (transactionId : string) (ts : list transactions.row)
  : list transactions.row :=
  map (fun t => if (transactions.transaction_id t =? transactionId)%string
                then transactions.set_status newStatus now t else t) ts.

(** [UPDATE transactions SET status = ?, mpesa_receipt_number = ?,
     updated_at = CURRENT_TIMESTAMP WHERE transaction_id = ?] *)
Definition update_status_receipt (status : Status) (receipt : jsval)
  (now : string) (transactionId : string) (ts : list transactions.row)
  : list transactions.row :=
  map (fun t => if (transactions.transaction_id t =? transactionId)%string
                then transactions.set_status_receipt status (text receipt) now t
                else t) ts.

(** [SELECT ... FROM matatus WHERE matatu_code = ? AND is_active = 1] *)
Definition active_matatu (ms : list matatus.row) (matatuCode : jsval)
  : option matatus.row :=
  find (fun m => eq_text (Some (matatus.matatu_code m)) (text matatuCode)
                 && matatus.is_active m) ms.

End SQL.

(* ================================================================== *)
(** ** Run time: the world outside, the state inside                   *)
(* ================================================================== *)

(** An HTTP request handed to [axios]. *)
Record Request : Type := mkRequest {
  req_method : string;
  req_url : string;
  req_headers : list (string * string);
  req_data : jsval
}.

(** What one handler run sees of the outside: the clock, and the provider's
    answer to each request ([response.data], or the rejection). *)
Record World : Type := mkWorld {
  now : Z;                       (* [moment()], in milliseconds *)
  timestamp : string;            (* [moment().format('YYYYMMDDHHmmss')] *)
  CURRENT_TIMESTAMP : string;
  axios : Request -> outcome jsval
}.

(** The [MpesaService] instance. *)
Record MpesaService : Type := mkMpesaService {
  consumerKey : string;
  consumerSecret : string;
  shortcode : string;
  passkey : string;
  callbackUrl : string;
  environment : string;
  baseURL : string;
  accessToken : jsval;
  tokenExpiry : option Z
}.

Record System : Type := mkSystem {
  db_transactions : list transactions.row;
  db_matatus : list matatus.row;
  mpesaService : MpesaService;
  console : list string;         (* lines written, oldest first *)
  sent : list Request            (* requests issued, oldest first *)
}.

(** Computations that read and write the [System] and may throw. *)
Definition M (A : Type) : Type := System -> outcome A * System.

Definition ret {A : Type} (a : A) : M A := fun s => (Return a, s).

Definition throw {A : Type} (e : Error) : M A := fun s => (Throw e, s).

Definition bind {A B : Type} (c : M A) (k : A -> M B) : M B :=
  fun s =>
    match c s with
    | (Return a, s') => k a s'
    | (Throw e, s') => (Throw e, s')
    end.

(** [try { c } catch (error) { h error }] *)
Definition try_catch {A : Type} (c : M A) (h : Error -> M A) : M A :=
  fun s =>
    match c s with
    | (Return a, s') => (Return a, s')
    | (Throw e, s') => h e s'
    end.

Definition lift {A : Type} (o : outcome A) : M A := fun s => (o, s).

Definition get_system : M System := fun s => (Return s, s).

Definition this : M MpesaService := fun s => (Return (mpesaService s), s).

Definition set_this (m : MpesaService) : M unit :=
  fun s => (Return tt,
            {| db_transactions := db_transactions s;
               db_matatus := db_matatus s;
               mpesaService := m;
               console := console s;
               sent := sent s |}).

Definition set_transactions (ts : list transactions.row) : M unit :=
  fun s => (Return tt,
            {| db_transactions := ts;
               db_matatus := db_matatus s;
               mpesaService := mpesaService s;
               console := console s;
               sent := sent s |}).

(** [console.log] and [console.error]: the line's fixed text, followed by
    the text of the value printed after it. *)
Definition console_write (line : string) : M unit :=
  fun s => (Return tt,
            {| db_transactions := db_transactions s;
               db_matatus := db_matatus s;
               mpesaService := mpesaService s;
               console := console s ++ [line];
               sent := sent s |}).

(** [await axios.get(...)], [await axios.post(...)] *)
Definition await_axios (w : World) (req : Request) : M jsval :=
  fun s => (axios w req,
            {| db_transactions := db_transactions s;
               db_matatus := db_matatus s;
               mpesaService := mpesaService s;
               console := console s;
               sent := sent s ++ [req] |}).

Notation "x <- c ;; k" := (bind c (fun x => k))
  (at level 61, c at next level, right associativity).
Notation "c ;;; k" := (bind c (fun _ => k))
  (at level 61, right associativity).

(* ================================================================== *)
(** ** services/mpesa-service                                          *)
(* ================================================================== *)

(** What [stkPush] and [stkPushQuery] resolve to. *)
Inductive GatewayResult : Type :=
| Success (data : jsval)               (* [{ success: true, data }] *)
| Failure (error errorCode : jsval).   (* [{ success: false, error, errorCode }] *)

Definition success (r : GatewayResult) : bool :=
  match r with
  | Success _ => true
  | Failure _ _ => false
  end.

(** What [validateCallback] returns. *)
Record CallbackValidation : Type := mkCallbackValidation {
  callbackIsValid : bool;        (* [isValid] *)
  callbackError : string         (* [error], when not valid *)
}.

(** What [processCallback] returns; a property never assigned is
    [undefined]. *)
Record CallbackResult : Type := mkCallbackResult {
  merchantRequestId : jsval;
  checkoutRequestId : jsval;
  resultCode : jsval;
  resultDesc : jsval;
  callbackSuccess : bool;        (* [success] *)
  callbackAmount : jsval;        (* [amount] *)
  mpesaReceiptNumber : jsval;
  transactionDate : jsval;
  callbackPhoneNumber : jsval;   (* [phoneNumber] *)
  balance : jsval;
  processingError : jsval        (* [error] *)
}.

Module MpesaService.

(** [new MpesaService(config)] *)
Definition new (consumerKey consumerSecret shortcode passkey callbackUrl
                environment : string) : MpesaService :=
  let environment := if (environment =? "")%string then "sandbox" else environment in
  {| consumerKey := consumerKey;
     consumerSecret := consumerSecret;
     shortcode := shortcode;
     passkey := passkey;
     callbackUrl := callbackUrl;
     environment := environment;
     baseURL := if (environment =? "production")%string
                then "https://api.safaricom.co.ke"
                else "https://sandbox.safaricom.co.ke";
     accessToken := JNull;
     tokenExpiry := None |}.

(** The instance after [this.accessToken = token; this.tokenExpiry = expiry]. *)
Definition with_token (self : MpesaService) (token : jsval) (expiry : Z)
  : MpesaService :=
  {| consumerKey := consumerKey self;
     consumerSecret := consumerSecret self;
     shortcode := shortcode self;
     passkey := passkey self;
     callbackUrl := callbackUrl self;
     environment := environment self;
     baseURL := baseURL self;
     accessToken := token;
     tokenExpiry := Some expiry |}.

(** [error.response?.data || error.message], as the console prints it. *)
Definition error_text (error : Error) : string :=
  ToString (or_else (opt_member (response error) "data") (JStr (message error))).

Definition generateAccessToken (w : World) : M jsval :=
  try_catch
    (self <- this ;;
     if truthy (accessToken self)
        && match tokenExpiry self with
           | Some expiry => now w <? expiry
           | None => false
           end
     then ret (accessToken self)
     else
       let credentials :=
         base64 (consumerKey self ++ ":" ++ consumerSecret self) in
       data <- await_axios w
         {| req_method := "GET";
            req_url := baseURL self
                       ++ "/oauth/v1/generate?grant_type=client_credentials";
            req_headers := [("Authorization", "Basic " ++ credentials);
                            ("Content-Type", "application/json")];
            req_data := JUndefined |} ;;
       access_token <- lift (member data "access_token") ;;
       set_this (with_token self access_token (now w + 55 * 60 * 1000)) ;;;
       ret access_token)
    (fun error =>
       console_write ("Error generating access token: " ++ error_text error) ;;;
       throw (new_Error "Failed to generate M-Pesa access token")).

Definition generatePassword (w : World) (self : MpesaService)
  : string * string :=
  let timestamp := timestamp w in
  let password := base64 (shortcode self ++ passkey self ++ timestamp) in
  (password, timestamp).

(** The object both methods return from their [catch]. *)
Definition failure (generic : string) (error : Error) : GatewayResult :=
  Failure
    (or_else (opt_member (opt_member (response error) "data") "errorMessage")
             (JStr generic))
    (or_else (opt_member (opt_member (response error) "data") "errorCode")
             (JStr "UNKNOWN_ERROR")).

Definition stkPush (w : World) (phoneNumber : jsval) (amount : Z)
  (accountReference transactionDesc : string) : M GatewayResult :=
  try_catch
    (accessToken <- generateAccessToken w ;;
     self <- this ;;
     let '(password, timestamp) := generatePassword w self in
     phone <- lift (string_receiver phoneNumber "startsWith") ;;
     let cleanPhone :=
       if startsWith phone "254" then phone else "254" ++ substring1 phone in
     let requestPayload :=
       JObj [("BusinessShortCode", JStr (shortcode self));
             ("Password", JStr password);
             ("Timestamp", JStr timestamp);
             ("TransactionType", JStr "CustomerPayBillOnline");
             ("Amount", JNum amount);
             ("PartyA", JStr cleanPhone);
             ("PartyB", JStr (shortcode self));
             ("PhoneNumber", JStr cleanPhone);
             ("CallBackURL", JStr (callbackUrl self));
             ("AccountReference", JStr accountReference);
             ("TransactionDesc",
              JStr (if (transactionDesc =? "")%string
                    then "MOBIPAY Payment" else transactionDesc))] in
     data <- await_axios w
       {| req_method := "POST";
          req_url := baseURL self ++ "/mpesa/stkpush/v1/processrequest";
          req_headers := [("Authorization", "Bearer " ++ ToString accessToken);
                          ("Content-Type", "application/json")];
          req_data := requestPayload |} ;;
     fields <- lift (pick data
       [("merchantRequestId", "MerchantRequestID");
        ("checkoutRequestId", "CheckoutRequestID");
        ("responseCode", "ResponseCode");
        ("responseDescription", "ResponseDescription");
        ("customerMessage", "CustomerMessage")]) ;;
     ret (Success (JObj fields)))
    (fun error =>
       console_write ("STK Push error: " ++ error_text error) ;;;
       ret (failure "STK Push request failed" error)).

Definition stkPushQuery (w : World) (checkoutRequestId : string)
  : M GatewayResult :=
  try_catch
    (accessToken <- generateAccessToken w ;;
     self <- this ;;
     let '(password, timestamp) := generatePassword w self in
     let requestPayload :=
       JObj [("BusinessShortCode", JStr (shortcode self));
             ("Password", JStr password);
             ("Timestamp", JStr timestamp);
             ("CheckoutRequestID", JStr checkoutRequestId)] in
     data <- await_axios w
       {| req_method := "POST";
          req_url := baseURL self ++ "/mpesa/stkpushquery/v1/query";
          req_headers := [("Authorization", "Bearer " ++ ToString accessToken);
                          ("Content-Type", "application/json")];
          req_data := requestPayload |} ;;
     fields <- lift (pick data
       [("merchantRequestId", "MerchantRequestID");
        ("checkoutRequestId", "CheckoutRequestID");
        ("responseCode", "ResponseCode");
        ("responseDescription", "ResponseDescription");
        ("resultCode", "ResultCode");
        ("resultDesc", "ResultDesc")]) ;;
     ret (Success (JObj fields)))
    (fun error =>
       console_write ("STK Push query error: " ++ error_text error) ;;;
       ret (failure "STK Push query failed" error)).

(** [items.find(item => item.Name === name)] *)
Fixpoint find_Name (items : list jsval) (name : string)
  : outcome (option jsval) :=
  match items with
  | [] => Return None
  | item :: rest =>
      n <~ member item "Name" ;;
      if strict_eq n (JStr name) then Return (Some item)
      else find_Name rest name
  end.

(** [metadata.find(item => item.Name === name)?.Value] *)
Definition metadata_Value (metadata : jsval) (name : string) : outcome jsval :=
  match metadata with
  | JArr items =>
      found <~ find_Name items name ;;
      Return match found with
             | Some item => prop item "Value"
             | None => JUndefined
             end
  | JUndefined | JNull =>
      Throw (TypeError ("Cannot read properties of " ++ ToString metadata
                        ++ " (reading 'find')"))
  | _ => Throw (TypeError "metadata.find is not a function")
  end.

Definition processCallback (callbackData : jsval) : M CallbackResult :=
  try_catch
    (Body <- lift (member callbackData "Body") ;;
     stkCallback <- lift (member Body "stkCallback") ;;
     MerchantRequestID <- lift (member stkCallback "MerchantRequestID") ;;
     let result :=
       {| merchantRequestId := MerchantRequestID;
          checkoutRequestId := prop stkCallback "CheckoutRequestID";
          resultCode := prop stkCallback "ResultCode";
          resultDesc := prop stkCallback "ResultDesc";
          callbackSuccess := strict_eq (prop stkCallback "ResultCode") (JNum 0);
          callbackAmount := JUndefined;
          mpesaReceiptNumber := JUndefined;
          transactionDate := JUndefined;
          callbackPhoneNumber := JUndefined;
          balance := JUndefined;
          processingError := JUndefined |} in
     if callbackSuccess result && truthy (prop stkCallback "CallbackMetadata")
     then
       let metadata := prop (prop stkCallback "CallbackMetadata") "Item" in
       amount <- lift (metadata_Value metadata "Amount") ;;
       receipt <- lift (metadata_Value metadata "MpesaReceiptNumber") ;;
       date <- lift (metadata_Value metadata "TransactionDate") ;;
       phone <- lift (metadata_Value metadata "PhoneNumber") ;;
       bal <- lift (metadata_Value metadata "Balance") ;;
       ret {| merchantRequestId := merchantRequestId result;
              checkoutRequestId := checkoutRequestId result;
              resultCode := resultCode result;
              resultDesc := resultDesc result;
              callbackSuccess := callbackSuccess result;
              callbackAmount := amount;
              mpesaReceiptNumber := receipt;
              transactionDate := date;
              callbackPhoneNumber := phone;
              balance := bal;
              processingError := JUndefined |}
     else ret result)
    (fun error =>
       console_write ("Error processing callback: " ++ message error) ;;;
       ret {| merchantRequestId := JUndefined;
              checkoutRequestId := JUndefined;
              resultCode := JUndefined;
              resultDesc := JUndefined;
              callbackSuccess := false;
              callbackAmount := JUndefined;
              mpesaReceiptNumber := JUndefined;
              transactionDate := JUndefined;
              callbackPhoneNumber := JUndefined;
              balance := JUndefined;
              processingError := JStr "Invalid callback data format" |}).

Definition requiredFields : list string :=
  ["MerchantRequestID"; "CheckoutRequestID"; "ResultCode"; "ResultDesc"].

(** The first required field that is missing: falsy, and not the number 0. *)
Definition missing_field (stkCallback : jsval) : option string :=
  find (fun field =>
          negb (truthy (prop stkCallback field))
          && negb (strict_eq (prop stkCallback field) (JNum 0)))
       requiredFields.

(** No step of the body can throw (every property is read from a truthy
    value), so the [catch] of the source is never entered. *)
Definition validateCallback (callbackData : jsval) : CallbackValidation :=
  if negb (truthy callbackData)
     || negb (truthy (prop callbackData "Body"))
     || negb (truthy (prop (prop callbackData "Body") "stkCallback"))
  then mkCallbackValidation false "Invalid callback structure"
  else
    let stkCallback := prop (prop callbackData "Body") "stkCallback" in
    match missing_field stkCallback with
    | Some field =>
        mkCallbackValidation false ("Missing required field: " ++ field)
    | None => mkCallbackValidation true ""
    end.

Definition formatPhoneNumber (phoneNumber : jsval) : outcome jsval :=
  if negb (truthy phoneNumber) then Return JNull
  else
    p <~ string_receiver phoneNumber "replace" ;;
    let cleaned := strip_non_digits p in
    let formatted :=
      if startsWith cleaned "0" then Some ("254" ++ substring1 cleaned)
      else if startsWith cleaned "7" || startsWith cleaned "1"
           then Some ("254" ++ cleaned)
      else if negb (startsWith cleaned "254") then None
      else Some cleaned in
    match formatted with
    | None => Return JNull
    | Some cleaned =>
        if negb (String.length cleaned =? 12)%nat then Return JNull
        else Return (JStr cleaned)
    end.

End MpesaService.

(* ================================================================== *)
(** ** server2.js: routes                                              *)
(* ================================================================== *)

(** [res.status(code).json(body)] *)
Record Response : Type := mkResponse {
  http_status : Z;
  body : jsval
}.

Definition nullable (o : option string) : jsval :=
  match o with
  | Some s => JStr s
  | None => JNull
  end.

Module server.

(** The [data] of the status route's answer. *)
Definition summary (transaction : transactions.row)
  (m : option matatus.row) : jsval :=
  JObj [("transactionId", JStr (transactions.transaction_id transaction));
        ("matatuCode", JStr (transactions.matatu_code transaction));
        ("route", nullable (option_map matatus.route_name m));
        ("phoneNumber", JStr (transactions.phone_number transaction));
        ("amount", JNum (transactions.amount transaction));
        ("transactionCharge", JNum (transactions.transaction_charge transaction));
        ("totalAmount", JNum (transactions.total_amount transaction));
        ("status", JStr (Status_text (transactions.status transaction)));
        ("mpesaReceiptNumber",
         nullable (transactions.mpesa_receipt_number transaction));
        ("ownerShare", JNum (transactions.owner_share transaction));
        ("developerShare", JNum (transactions.developer_share transaction));
        ("createdAt", JStr (transactions.created_at transaction));
        ("updatedAt", JStr (transactions.updated_at transaction))].

(** [transaction.status = newStatus]: the row in hand, not the table. *)
Definition assign_status (transaction : transactions.row) (s : Status)
  : transactions.row :=
  transactions.set_status s (transactions.updated_at transaction) transaction.

(** [GET /api/payment/status/:transactionId] *)
Definition payment_status (w : World) (transactionId : string) : M Response :=
  s <- get_system ;;
  match SQL.transaction_with_matatu (db_transactions s) (db_matatus s)
          transactionId with
  | None =>
      ret {| http_status := 404;
             body := JObj [("success", JBool false);
                           ("error", JStr "Transaction not found")] |}
  | Some (transaction, m) =>
      transaction <-
        (if Status_eqb (transactions.status transaction) PENDING
            && truthy (nullable (transactions.checkout_request_id transaction))
         then
           queryResult <- MpesaService.stkPushQuery w
             (match transactions.checkout_request_id transaction with
              | Some c => c
              | None => ""
              end) ;;
           match queryResult with
           | Success data =>
               if negb (strict_eq (prop data "resultCode") JUndefined)
               then
                 let newStatus :=
                   if strict_eq (prop data "resultCode") (JNum 0)
                   then COMPLETED else FAILED in
                 s' <- get_system ;;
                 set_transactions
                   (SQL.update_status newStatus (CURRENT_TIMESTAMP w)
                      transactionId (db_transactions s')) ;;;
                 ret (assign_status transaction newStatus)
               else ret transaction
           | Failure _ _ => ret transaction
           end
         else ret transaction) ;;
      ret {| http_status := 200;
             body := JObj [("success", JBool true);
                           ("data", summary transaction m)] |}
  end.

(** [POST /api/mpesa/callback] *)
Definition mpesa_callback (w : World) (req_body : jsval) : M Response :=
  try_catch
    (console_write "M-Pesa Callback received:" ;;;
     let validation := MpesaService.validateCallback req_body in
     if negb (callbackIsValid validation)
     then
       console_write ("Invalid callback: " ++ callbackError validation) ;;;
       ret {| http_status := 400;
              body := JObj [("error", JStr (callbackError validation))] |}
     else
       callbackResult <- MpesaService.processCallback req_body ;;
       s <- get_system ;;
       match SQL.transaction_id_by_checkout (db_transactions s)
               (checkoutRequestId callbackResult) with
       | None =>
           console_write ("Transaction not found for checkout ID: "
                          ++ ToString (checkoutRequestId callbackResult)) ;;;
           ret {| http_status := 404;
                  body := JObj [("error", JStr "Transaction not found")] |}
       | Some transaction_id =>
           let status :=
             if callbackSuccess callbackResult then COMPLETED else FAILED in
           set_transactions
             (SQL.update_status_receipt status
                (mpesaReceiptNumber callbackResult) (CURRENT_TIMESTAMP w)
                transaction_id (db_transactions s)) ;;;
           console_write ("Transaction " ++ transaction_id ++ " updated to "
                          ++ Status_text status) ;;;
           ret {| http_status := 200;
                  body := JObj [("success", JBool true);
                                ("message",
                                 JStr "Callback processed successfully")] |}
       end)
    (fun error =>
       console_write ("Callback processing error: " ++ message error) ;;;
       ret {| http_status := 500;
              body := JObj [("error", JStr "Callback processing failed")] |}).

(** What the initiate route has in hand once the charge is computed; a
    number is an integer or NaN ([None]). *)
Record Quote : Type := mkQuote {
  cleanMatatuCode : jsval;
  cleanPhoneNumber : jsval;
  cleanAmount : option Z;
  transactionCharge : option Z;
  totalAmount : option Z
}.

(** [a + b] on numbers: NaN when either is. *)
Definition plus (a b : option Z) : option Z :=
  match a, b with
  | Some x, Some y => Some (x + y)
  | _, _ => None
  end.

(** [{ field, message }] for each entry; the rule that failed stands for
    the text of its message. *)
Definition joi_errors (es : list JoiError) : jsval :=
  JArr (map (fun e => JObj [("field", JStr (field e));
                            ("message", JStr (rule e))]) es).

(** [POST /api/payment/initiate], from the request body to the charge:
    either the answer that ends the request, or the values the rest of the
    route (the split, the STK push, the insert into [transactions]) works
    with. *)
Definition payment_initiate_quote (req_body : jsval) : M (Response + Quote) :=
  try_catch
    (matatu_code <- lift (member req_body "matatu_code") ;;
     let phone_number := prop req_body "phone_number" in
     let amount := prop req_body "amount" in
     cleanMatatuCode <- lift (sanitize.cleanMatatuCode matatu_code) ;;
     cleanPhoneNumber <- lift (sanitize.cleanPhoneNumber phone_number) ;;
     let cleanAmount := sanitize.cleanAmount amount in
     let validation :=
       validate.validatePaymentRequest
         (mkPaymentRequest cleanMatatuCode cleanPhoneNumber cleanAmount) in
     if negb (isValid validation)
     then ret (inl {| http_status := 400;
                      body := JObj [("success", JBool false);
                                    ("errors", joi_errors (errors validation))] |})
     else
       s <- get_system ;;
       match SQL.active_matatu (db_matatus s) cleanMatatuCode with
       | None =>
           ret (inl {| http_status := 400;
                       body := JObj [("success", JBool false);
                                     ("error",
                                      JStr "Invalid matatu code or matatu is not active")] |})
       | Some _ =>
           let transactionCharge :=
             option_map businessRules.calculateTransactionCharge cleanAmount in
           let totalAmount := plus cleanAmount transactionCharge in
           ret (inr (mkQuote cleanMatatuCode cleanPhoneNumber cleanAmount
                       transactionCharge totalAmount))
       end)
    (fun error =>
       console_write ("Payment initiation error: " ++ message error) ;;;
       ret (inl {| http_status := 500;
                   body := JObj [("success", JBool false);
                                 ("error", JStr "Internal server error")] |})).

End server.

(* ================================================================== *)
(** ** The percentage products in binary64                             *)
(* ================================================================== *)

Module Binary64.

(** The double of an integer; exact for 0 <= n < 2^53. *)
Definition of_Z (n : Z) : float := PrimFloat.of_uint63 (Uint63.of_Z n).

(** [Math.round] on a double: the exact value [n * 2^e], plus one half,
    rounded down, that is [(2 * n + 2^(-e)) / 2^(1 - e)] when [e < 0];
    [None] on NaN and the infinities. *)
Definition Math_round (x : float) : option Z :=
  match Prim2SF x with
  | S754_zero _ => Some 0
  | S754_finite s m e =>
      let n := if s then Z.neg m else Z.pos m in
      Some (if 0 <=? e then Z.shiftl n e
            else Z.shiftr (2 * n + Z.shiftl 1 (- e)) (1 - e))
  | S754_infinity _ | S754_nan => None
  end.

Definition percentage (amount : Z) : float :=
  if amount <=? 500 then 1.5%float
  else if amount <=? 1000 then 1.2%float
  else if amount <=? 2000 then 1.0%float
  else 0.8%float.

(** [Math.round(amount * (percentage / 100))] *)
Definition calculateTransactionCharge (amount : Z) : option Z :=
  Math_round (of_Z amount * (percentage amount / 100))%float.

(** [Math.round(transactionCharge * (developerPercentage / 100))] at an
    integral percentage. *)
Definition developerShare (transactionCharge developerPercentage : Z)
  : option Z :=
  Math_round (of_Z transactionCharge * (of_Z developerPercentage / 100))%float.

(** A check over [n, n + 1, ..., n + k - 1]. *)
Fixpoint for_range (k : nat) (n : Z) (check : Z -> bool) : bool :=
  match k with
  | O => true
  | S k' => check n && for_range k' (n + 1) check
  end.

End Binary64.

(* ================================================================== *)
(** ** More built-ins: parseFloat, split, substr, toUpperCase          *)
(* ================================================================== *)

Module Builtin.

(** A number that [parseFloat] can give. *)
Inductive number : Type :=
| NaN
| Infinity (negative : bool)
| Num (q : Q).

(** The digits a string starts with, and what follows them. *)
Fixpoint span_digits (s : string) : string * string :=
  match s with
  | EmptyString => (EmptyString, EmptyString)
  | String c r =>
      if is_digit c
      then let '(d, rest) := span_digits r in (String c d, rest)
      else (EmptyString, s)
  end.

(** [floor (log2 q)] for [q > 0]. *)
Definition Qlog2 (q : Q) : Z :=
  let e := Z.log2 (Qnum q) - Z.log2 (Z.pos (Qden q)) in
  if Qle_bool (Qpower 2 e) q then e else e - 1.

(** The integer nearest to [x >= 0], a tie going to the even one. *)
Definition round_half_even (x : Q) : Z :=
  let f := Qfloor x in
  let r := (x - inject_Z f)%Q in
  match Qcompare r (1 # 2) with
  | Lt => f
  | Gt => f + 1
  | Eq => if Z.even f then f else f + 1
  end.

(** The double nearest to [q] (53 bits of precision, exponents from -1022
    to 1023, gradual underflow, a tie going to the even significand), as an
    exact rational in lowest terms; beyond the largest double, the
    infinity. *)
Definition round64 (q : Q) : number :=
  if Qeq_bool q 0 then Num 0
  else
    let a := (if Qnum q <? 0 then - q else q)%Q in
    let e := Z.max (Qlog2 a) (-1022) in
    let m := round_half_even (a * Qpower 2 (52 - e))%Q in
    let r := (inject_Z m * Qpower 2 (e - 52))%Q in
    if Qle_bool (Qpower 2 1024) r then Infinity (Qnum q <? 0)
    else Num (Qred (if Qnum q <? 0 then - r else r))%Q.

(** [parseFloat(s)]: white space is skipped, then the longest prefix that is
    a decimal literal (sign, [Infinity] or digits with an optional fraction
    and an optional exponent) is read. *)
Definition parseFloat (input : string) : number :=
  let s := trim_start input in
  let '(negative, s) :=
    match s with
    | String "-" r => (true, r)
    | String "+" r => (false, r)
    | _ => (false, s)
    end in
  if String.prefix "Infinity" s then Infinity negative
  else
    let '(int, s) := span_digits s in
    let '(frac, s) :=
      match s with
      | String "." r => span_digits r
      | _ => (EmptyString, s)
      end in
    if (int ++ frac =? "")%string then NaN
    else
      let exponent :=
        match s with
        | String c r =>
            if ((c =? "e") || (c =? "E"))%char
            then
              let '(minus, r) :=
                match r with
                | String "-" r' => (true, r')
                | String "+" r' => (false, r')
                | _ => (false, r)
                end in
              match parse_digits 10 r None with
              | Some n => if minus then - n else n
              | None => 0
              end
            else 0
        | EmptyString => 0
        end in
      let digits :=
        match parse_digits 10 (int ++ frac) None with
        | Some n => n
        | None => 0
        end in
      let magnitude :=
        (inject_Z digits
         * Qpower 10 (exponent - Z.of_nat (String.length frac)))%Q in
      round64 (if negative then - magnitude else magnitude)%Q.

(** [s.split(c)] for a separator of one character. *)
Fixpoint split (c : ascii) (s : string) : list string :=
  match s with
  | EmptyString => [EmptyString]
  | String a r =>
      if (a =? c)%char then EmptyString :: split c r
      else match split c r with
           | piece :: pieces => String a piece :: pieces
           | [] => [String a EmptyString]
           end
  end.

(** [s.substr(start, length)] *)
Definition substr (s : string) (start length : nat) : string :=
  String.substring start length s.

(** [s.toUpperCase()] on ASCII. *)
Fixpoint toUpperCase (s : string) : string :=
  match s with
  | EmptyString => EmptyString
  | String c r =>
      let n := nat_of_ascii c in
      String (if ((97 <=? n) && (n <=? 122))%nat then ascii_of_nat (n - 32) else c)
             (toUpperCase r)
  end.

(** A number in a template literal: an integer, or NaN ([None]). *)
Definition number_text (n : option Z) : string :=
  match n with
  | Some n => decimal n
  | None => "NaN"
  end.

End Builtin.

Import Builtin.

(* ================================================================== *)
(** ** services/mpesa-service and utils/validation, the other members  *)
(* ================================================================== *)

Module Mpesa.

(** The numeric keys of [statusMessages]; the key [SFC_IC0003] is the text
    of no number. *)
Definition statusMessages : list (string * string) :=
  [("0", "Success");
   ("1", "Insufficient Funds");
   ("17", "User cancelled transaction");
   ("26", "Invalid business number");
   ("2001", "Invalid Pin Entered");
   ("1001", "Unable to lock subscriber, a transaction is already in process for the current subscriber");
   ("1019", "Transaction expired");
   ("1032", "Request cancelled by user");
   ("1037", "DS timeout user cannot be reached");
   ("SFC_IC0003", "Invalid Paybill Number");
   ("2006", "Transaction failed")].

(** [getTransactionStatusMessage(resultCode)] on a number. *)
Definition getTransactionStatusMessage (resultCode : Z) : string :=
  match find (fun entry => (fst entry =? decimal resultCode)%string)
             statusMessages with
  | Some (_, text) =>
      if (text =? "")%string
      then "Transaction failed with code " ++ decimal resultCode
      else text
  | None => "Transaction failed with code " ++ decimal resultCode
  end.

End Mpesa.

(** What [businessRules.validateTransactionCharge] returns. *)
Module ChargeValidation.

Record t : Type := mk {
  isValid : bool;
  expectedCharge : Z;
  providedCharge : jsval
}.

End ChargeValidation.

(** [businessRules.validateTransactionCharge(amount, providedCharge)] *)
Definition validateTransactionCharge (amount : Z) (providedCharge : jsval)
  : ChargeValidation.t :=
  let expectedCharge := businessRules.calculateTransactionCharge amount in
  {| ChargeValidation.isValid := strict_eq (JNum expectedCharge) providedCharge;
     ChargeValidation.expectedCharge := expectedCharge;
     ChargeValidation.providedCharge := providedCharge |}.

(** The text of a validation error of [schemas.matatuCode] validated on its
    own: the two messages the schema sets, and the library's own for the
    other rules, which name the value ["value"]. *)
Definition matatuCode_message (e : JoiError) : string :=
  let label := String (ascii_of_nat 34) "value" ++ String (ascii_of_nat 34) "" in
  if (rule e =? "string.pattern.base")%string
  then "Matatu code must be 1-4 digits only"
  else if (rule e =? "any.required")%string then "Matatu code is required"
  else if (rule e =? "string.empty")%string
       then label ++ " is not allowed to be empty"
  else label ++ " must be a string".

(* ================================================================== *)
(** ** database: accounts and system settings                          *)
(* ================================================================== *)

(** Table [accounts]. *)
Module accounts.

Record row : Type := mkRow {
  account_number : string;
  account_type : string;
  account_name : string;
  is_active : bool
}.

End accounts.

(** Table [system_settings]. *)
Module system_settings.

Record row : Type := mkRow {
  setting_key : string;
  setting_value : string
}.

End system_settings.

(** The two tables that the payment routes read and never write. *)
Record Directory : Type := mkDirectory {
  db_accounts : list accounts.row;
  db_system_settings : list system_settings.row
}.

(** What the initiate route takes from the process besides the [World]. *)
Record Host : Type := mkHost {
  Date_now : Z;                  (* [Date.now()] *)
  Math_random : string;          (* [Math.random().toString(36)] *)
  toISOString : string           (* [new Date().toISOString()] *)
}.

(* ================================================================== *)
(** ** utils/money-split: the methods that read the database           *)
(* ================================================================== *)

(** The developer percentage of the settings: [parseFloat(...) || 10] is
    never NaN and never zero. *)
Inductive Percentage : Type :=
| Percent (q : Q)
| Unbounded (negative : bool).     (* [Infinity], [-Infinity] *)

Module Settings.

Record t : Type := mk {
  developerPercentage : Percentage;
  minAmount : Z
}.

End Settings.

Module Account.

Record t : Type := mk {
  accountNumber : string;
  accountName : string
}.

End Account.

(** One side of [splitExecution.accounts]. *)
Module Share.

Record t : Type := mk {
  accountNumber : string;
  accountName : string;
  shareAmount : Z;
  percentage : Q                 (* the number [toFixed(2)] has printed *)
}.

End Share.

(** [splitExecution] *)
Module SplitExecution.

Record t : Type := mk {
  matatuCode : jsval;            (* [transactionDetails] *)
  fareAmount : Z;
  transactionCharge : Z;
  totalAmount : Z;
  splitCalculation : Split;
  owner : Share.t;               (* [accounts] *)
  developer : Share.t;
  totalSplit : Z;                (* [splitSummary] *)
  ownerReceives : Z;
  developerReceives : Z;
  splitRatio : string;
  executedAt : string
}.

End SplitExecution.

(** What [executeSplit] resolves to. *)
Inductive SplitResult : Type :=
| Executed (data : SplitExecution.t)   (* [{ success: true, data }] *)
| NotExecuted (error : string).        (* [{ success: false, error, data: null }] *)

Module moneySplitter.

(** [settings[row.setting_key] = row.setting_value] over the rows selected,
    then [settings[key]]: the last row of the key, if any. *)
Definition setting (rows : list system_settings.row) (key : string) : jsval :=
  match find (fun r => (system_settings.setting_key r =? key)%string)
             (rev rows) with
  | Some r => JStr (system_settings.setting_value r)
  | None => JUndefined
  end.

Definition getSystemSettings (d : Directory) : Settings.t :=
  let rows :=
    filter (fun r =>
              (system_settings.setting_key r =? "developer_percentage")%string
              || (system_settings.setting_key r =? "min_amount")%string)
           (db_system_settings d) in
  {| Settings.developerPercentage :=
       match parseFloat (ToString (setting rows "developer_percentage")) with
       | NaN => Percent 10
       | Num q => if Qeq_bool q 0 then Percent 10 else Percent q
       | Infinity negative => Unbounded negative
       end;
     Settings.minAmount :=
       match parseInt (ToString (setting rows "min_amount")) with
       | None => 50
       | Some n => if n =? 0 then 50 else n
       end |}.

(** [SELECT m.owner_account, a.account_name FROM matatus m
     JOIN accounts a ON m.owner_account = a.account_number
     WHERE m.matatu_code = ? AND m.is_active = 1 AND a.is_active = 1]
    through [db.get]: the first row. *)
Definition owner_account_row (ms : list matatus.row) (acs : list accounts.row)
  (matatuCode : jsval) : option (matatus.row * accounts.row) :=
  find (fun r =>
          (matatus.owner_account (fst r) =? accounts.account_number (snd r))%string
          && SQL.eq_text (Some (matatus.matatu_code (fst r))) (SQL.text matatuCode)
          && matatus.is_active (fst r)
          && accounts.is_active (snd r))
       (list_prod ms acs).

Definition getMatatuOwnerAccount (d : Directory) (matatuCode : jsval)
  : M Account.t :=
  s <- get_system ;;
  match owner_account_row (db_matatus s) (db_accounts d) matatuCode with
  | None => throw (new_Error "Matatu owner account not found or inactive")
  | Some (m, a) =>
      ret {| Account.accountNumber := matatus.owner_account m;
             Account.accountName := accounts.account_name a |}
  end.

(** [SELECT account_number, account_name FROM accounts
     WHERE account_type = 'DEVELOPER' AND is_active = 1 LIMIT 1] *)
Definition getDeveloperAccount (d : Directory) : M Account.t :=
  match find (fun a => (accounts.account_type a =? "DEVELOPER")%string
                       && accounts.is_active a) (db_accounts d) with
  | None => throw (new_Error "Developer account not found or inactive")
  | Some a =>
      ret {| Account.accountNumber := accounts.account_number a;
             Account.accountName := accounts.account_name a |}
  end.

(** [this.calculateSplit(transactionCharge, settings.developerPercentage)]:
    an infinite percentage gets past the charge guard only. *)
Definition calculateSplit (transactionCharge : Z) (developerPercentage : Percentage)
  : outcome Split :=
  match developerPercentage with
  | Percent q => MoneySplitter.calculateSplit transactionCharge q
  | Unbounded _ =>
      if transactionCharge <? 1 then Throw MoneySplitter.charge_error
      else Throw MoneySplitter.percentage_error
  end.

(** [splitCalculation.transactionCharge] *)
Definition totalSplit (splitCalculation : Split) : Z :=
  transactionCharge splitCalculation.

(** The two account lookups are started together and both awaited; when
    both fail, the error is that of the first to fail, taken here to be the
    first one issued. *)
Definition executeSplit (h : Host) (d : Directory) (matatuCode : jsval)
  (fareAmount transactionCharge : Z) : M SplitResult :=
  try_catch
    (let settings := getSystemSettings d in
     ownerAccount <- getMatatuOwnerAccount d matatuCode ;;
     developerAccount <- getDeveloperAccount d ;;
     splitCalculation <-
       lift (calculateSplit transactionCharge
               (Settings.developerPercentage settings)) ;;
     ret (Executed
            {| SplitExecution.matatuCode := matatuCode;
               SplitExecution.fareAmount := fareAmount;
               SplitExecution.transactionCharge := transactionCharge;
               SplitExecution.totalAmount := fareAmount + transactionCharge;
               SplitExecution.splitCalculation := splitCalculation;
               SplitExecution.owner :=
                 {| Share.accountNumber := Account.accountNumber ownerAccount;
                    Share.accountName := Account.accountName ownerAccount;
                    Share.shareAmount := ownerShare splitCalculation;
                    Share.percentage := ownerPercentage splitCalculation |};
               SplitExecution.developer :=
                 {| Share.accountNumber := Account.accountNumber developerAccount;
                    Share.accountName := Account.accountName developerAccount;
                    Share.shareAmount := developerShare splitCalculation;
                    Share.percentage := developerPercentage splitCalculation |};
               SplitExecution.totalSplit := totalSplit splitCalculation;
               SplitExecution.ownerReceives := ownerShare splitCalculation;
               SplitExecution.developerReceives := developerShare splitCalculation;
               SplitExecution.splitRatio := splitRatio splitCalculation;
               SplitExecution.executedAt := toISOString h |}))
    (fun error => ret (NotExecuted (message error))).

(** [UPDATE transactions SET owner_share = ?, developer_share = ?,
     updated_at = CURRENT_TIMESTAMP WHERE transaction_id = ?] *)
Definition update_shares (owner_share developer_share : Z) (now : string)
  (transactionId : string) (ts : list transactions.row)
  : list transactions.row :=
  map (fun t =>
         if (transactions.transaction_id t =? transactionId)%string
         then {| transactions.transaction_id := transactions.transaction_id t;
                 transactions.matatu_code := transactions.matatu_code t;
                 transactions.phone_number := transactions.phone_number t;
                 transactions.amount := transactions.amount t;
                 transactions.transaction_charge := transactions.transaction_charge t;
                 transactions.total_amount := transactions.total_amount t;
                 transactions.mpesa_receipt_number :=
                   transactions.mpesa_receipt_number t;
                 transactions.status := transactions.status t;
                 transactions.mpesa_request_id := transactions.mpesa_request_id t;
                 transactions.checkout_request_id :=
                   transactions.checkout_request_id t;
                 transactions.owner_share := owner_share;
                 transactions.developer_share := developer_share;
                 transactions.created_at := transactions.created_at t;
                 transactions.updated_at := now |}
         else t) ts.

(** [logSplitExecution(transactionId, splitData)]; the result is
    [rowsAffected]. *)
Definition logSplitExecution (w : World) (transactionId : string)
  (splitData : SplitExecution.t) : M Z :=
  s <- get_system ;;
  set_transactions
    (update_shares (Share.shareAmount (SplitExecution.owner splitData))
       (Share.shareAmount (SplitExecution.developer splitData))
       (CURRENT_TIMESTAMP w) transactionId (db_transactions s)) ;;;
  ret (Z.of_nat
         (List.length
            (filter (fun t => (transactions.transaction_id t =? transactionId)%string)
                    (db_transactions s)))).

End moneySplitter.

(* ================================================================== *)
(** ** server2.js: the initiate route to its end, and the USSD route   *)
(* ================================================================== *)

(** The object handed to [logTransaction]. *)
Module TransactionData.

Record t : Type := mk {
  transactionId : string;
  matatuCode : jsval;
  phoneNumber : jsval;
  amount : Z;
  transactionCharge : Z;
  totalAmount : Z;
  ownerShare : Z;
  developerShare : Z;
  status : Status;
  mpesaRequestId : jsval;
  checkoutRequestId : jsval
}.

End TransactionData.

Module app.

Definition constraint_failed (what : string) : Error :=
  new_Error ("SQLITE_CONSTRAINT: " ++ what).

(** [INSERT INTO transactions (...) VALUES (?, ..., ?)]: the NOT NULL
    columns, then the UNIQUE [transaction_id]; the receipt is NULL and both
    times are [CURRENT_TIMESTAMP]. *)
Definition insert_transaction (now : string) (p : TransactionData.t)
  (ts : list transactions.row) : outcome (list transactions.row) :=
  match SQL.text (TransactionData.matatuCode p),
        SQL.text (TransactionData.phoneNumber p) with
  | None, _ =>
      Throw (constraint_failed "NOT NULL constraint failed: transactions.matatu_code")
  | _, None =>
      Throw (constraint_failed "NOT NULL constraint failed: transactions.phone_number")
  | Some matatu_code, Some phone_number =>
      if existsb (fun t => (transactions.transaction_id t
                            =? TransactionData.transactionId p)%string) ts
      then
        Throw (constraint_failed "UNIQUE constraint failed: transactions.transaction_id")
      else
        Return
          (ts ++ [{| transactions.transaction_id := TransactionData.transactionId p;
                     transactions.matatu_code := matatu_code;
                     transactions.phone_number := phone_number;
                     transactions.amount := TransactionData.amount p;
                     transactions.transaction_charge :=
                       TransactionData.transactionCharge p;
                     transactions.total_amount := TransactionData.totalAmount p;
                     transactions.mpesa_receipt_number := None;
                     transactions.status := TransactionData.status p;
                     transactions.mpesa_request_id :=
                       SQL.text (or_else (TransactionData.mpesaRequestId p) JNull);
                     transactions.checkout_request_id :=
                       SQL.text (or_else (TransactionData.checkoutRequestId p) JNull);
                     transactions.owner_share := TransactionData.ownerShare p;
                     transactions.developer_share :=
                       TransactionData.developerShare p;
                     transactions.created_at := now;
                     transactions.updated_at := now |}])%list
  end.

(** [logTransaction(transactionData)]; of what it resolves to, the
    [transactionId] (the tables carry no row id). *)
Definition logTransaction (w : World) (transactionData : TransactionData.t)
  : M string :=
  s <- get_system ;;
  ts <- lift (insert_transaction (CURRENT_TIMESTAMP w) transactionData
                (db_transactions s)) ;;
  set_transactions ts ;;;
  ret (TransactionData.transactionId transactionData).

(** [`MOBI${Date.now()}${Math.random().toString(36).substr(2, 5).toUpperCase()}`] *)
Definition new_transactionId (h : Host) : string :=
  "MOBI" ++ decimal (Date_now h) ++ toUpperCase (substr (Math_random h) 2 5).

Definition internal_server_error : Response :=
  {| http_status := 500;
     body := JObj [("success", JBool false);
                   ("error", JStr "Internal server error")] |}.

(** [POST /api/payment/initiate], from the charge on. *)
Definition payment_initiate_charged (w : World) (h : Host) (d : Directory)
  (cleanMatatuCode cleanPhoneNumber : jsval)
  (cleanAmount transactionCharge totalAmount : Z) : M Response :=
  try_catch
    (splitResult <-
       moneySplitter.executeSplit h d cleanMatatuCode cleanAmount
         transactionCharge ;;
     match splitResult with
     | NotExecuted error =>
         ret {| http_status := 500;
                body := JObj [("success", JBool false);
                              ("error", JStr error)] |}
     | Executed data =>
         let transactionId := new_transactionId h in
         stkPushResult <-
           MpesaService.stkPush w cleanPhoneNumber totalAmount transactionId
             ("MOBIPAY Payment - Matatu " ++ ToString cleanMatatuCode) ;;
         match stkPushResult with
         | Failure error _ =>
             ret {| http_status := 500;
                    body := JObj [("success", JBool false);
                                  ("error", JStr "Failed to initiate payment");
                                  ("details", error)] |}
         | Success pushed =>
             let transactionData :=
               {| TransactionData.transactionId := transactionId;
                  TransactionData.matatuCode := cleanMatatuCode;
                  TransactionData.phoneNumber := cleanPhoneNumber;
                  TransactionData.amount := cleanAmount;
                  TransactionData.transactionCharge := transactionCharge;
                  TransactionData.totalAmount := totalAmount;
                  TransactionData.ownerShare :=
                    Share.shareAmount (SplitExecution.owner data);
                  TransactionData.developerShare :=
                    Share.shareAmount (SplitExecution.developer data);
                  TransactionData.status := PENDING;
                  TransactionData.mpesaRequestId := prop pushed "merchantRequestId";
                  TransactionData.checkoutRequestId :=
                    prop pushed "checkoutRequestId" |} in
             logTransaction w transactionData ;;;
             moneySplitter.logSplitExecution w transactionId data ;;;
             ret {| http_status := 200;
                    body :=
                      JObj [("success", JBool true);
                            ("message", JStr "Payment initiated successfully");
                            ("data",
                             JObj [("transactionId", JStr transactionId);
                                   ("amount", JNum cleanAmount);
                                   ("transactionCharge", JNum transactionCharge);
                                   ("totalAmount", JNum totalAmount);
                                   ("phoneNumber", cleanPhoneNumber);
                                   ("matatuCode", cleanMatatuCode);
                                   ("checkoutRequestId",
                                    prop pushed "checkoutRequestId");
                                   ("customerMessage",
                                    prop pushed "customerMessage");
                                   ("split",
                                    JObj [("ownerShare",
                                           JNum (Share.shareAmount
                                                   (SplitExecution.owner data)));
                                          ("developerShare",
                                           JNum (Share.shareAmount
                                                   (SplitExecution.developer data)))])])] |}
         end
     end)
    (fun error =>
       console_write ("Payment initiation error: " ++ message error) ;;;
       ret internal_server_error).

(** [POST /api/payment/initiate]: the route up to the charge, then the rest
    under the same handler.  Once the validation has passed, the amount, the
    charge and the total are numbers, so the last case is never taken. *)
Definition payment_initiate (w : World) (h : Host) (d : Directory)
  (req_body : jsval) : M Response :=
  quote <- server.payment_initiate_quote req_body ;;
  match quote with
  | inl response => ret response
  | inr (server.mkQuote cleanMatatuCode cleanPhoneNumber
           (Some cleanAmount) (Some transactionCharge) (Some totalAmount)) =>
      payment_initiate_charged w h d cleanMatatuCode cleanPhoneNumber
        cleanAmount transactionCharge totalAmount
  | inr _ => ret internal_server_error
  end.

Definition main_menu : string :=
  "CON Welcome to MOBIPAY - Lipa Matatu na Code
1. Make Payment
2. Check Transaction Status
3. Help".

Definition help : string :=
  "END MOBIPAY Help:
- Dial this code to pay matatu fare
- Enter matatu code (4 digits max)
- Enter amount (min KSh 50)
- Complete payment via M-Pesa
For support call: 0700000000".

(** The answer to [1*code*amount]. *)
Definition payment_request_sent (amount transactionCharge totalAmount : option Z)
  : string :=
  "END Payment request sent!
Fare: KSh " ++ number_text amount ++ "
Service Fee: KSh " ++ number_text transactionCharge ++ "
Total: KSh " ++ number_text totalAmount ++ "
You will receive STK push shortly.".

(** [POST /api/ussd]; the result is the text sent. *)
Definition ussd (req_body : jsval) : M string :=
  try_catch
    (sessionId <- lift (member req_body "sessionId") ;;
     let phoneNumber := prop req_body "phoneNumber" in
     let text := prop req_body "text" in
     cleanPhone <- lift (sanitize.cleanPhoneNumber phoneNumber) ;;
     if strict_eq text (JStr "") then ret main_menu
     else if strict_eq text (JStr "1")
     then ret "CON Enter Matatu Code (1-4 digits):"
     else
       t <- lift (string_receiver text "startsWith") ;;
       if startsWith t "1*" then
         let inputs := split "*" t in
         if (List.length inputs =? 2)%nat then
           let matatuCode := nth 1 inputs "" in
           let validation := validate.validateMatatuCode (JStr matatuCode) in
           if negb (isValid validation)
           then ret ("END " ++ match errors validation with
                               | e :: _ => matatuCode_message e
                               | [] => "undefined"
                               end)
           else ret "CON Enter amount (Min KSh 50):"
         else if (List.length inputs =? 3)%nat then
           let amount := parseInt (nth 2 inputs "") in
           let transactionCharge :=
             option_map businessRules.calculateTransactionCharge amount in
           let totalAmount := server.plus amount transactionCharge in
           ret (payment_request_sent amount transactionCharge totalAmount)
         else ret ""
       else if strict_eq text (JStr "2")
       then ret "CON Enter Transaction ID to check status:"
       else if strict_eq text (JStr "3") then ret help
       else ret "END Invalid option. Please try again.")
    (fun error =>
       console_write ("USSD error: " ++ message error) ;;;
       ret "END Service temporarily unavailable. Please try again later.").

End app.

(* ================================================================== *)
(** ** routes/dashboard: the listing of transactions                   *)
(* ================================================================== *)

(** What [GET /transactions] hands to the driver: the WHERE clause spliced
    into both statements, the parameters of the SELECT and those of the
    COUNT, and the numbers of the pagination. *)
Module Listing.

Record t : Type := mk {
  page : Z;
  limit : Z;
  offset : Z;
  whereClause : string;
  params : list jsval;
  countParams : list jsval       (* [params.slice(0, -2)] *)
}.

End Listing.

Module dashboard.

(** [parseInt(v) || fallback] *)
Definition parseInt_or (v : jsval) (fallback : Z) : Z :=
  match parseInt (ToString v) with
  | None => fallback
  | Some n => if n =? 0 then fallback else n
  end.

(** [GET /transactions], up to the two queries. *)
Definition transactions_listing (query : jsval) : Listing.t :=
  let page := parseInt_or (prop query "page") 1 in
  let limit := parseInt_or (prop query "limit") 50 in
  let offset := (page - 1) * limit in
  let status := prop query "status" in
  let matatuCode := prop query "matatu_code" in
  let search := prop query "search" in
  let whereClause := "" in
  let params : list jsval := [] in
  let '(whereClause, params) :=
    if truthy status
    then (whereClause ++ " WHERE t.status = ?", (params ++ [status])%list)
    else (whereClause, params) in
  let '(whereClause, params) :=
    if truthy matatuCode
    then (whereClause
          ++ (if truthy (JStr whereClause) then " AND" else " WHERE")
          ++ " t.matatu_code = ?",
          (params ++ [matatuCode])%list)
    else (whereClause, params) in
  let '(whereClause, params) :=
    if truthy search
    then
      let pattern := JStr ("%" ++ ToString search ++ "%") in
      (whereClause
       ++ (if truthy (JStr whereClause) then " AND" else " WHERE")
       ++ " (t.transaction_id LIKE ? OR t.phone_number LIKE ? OR t.mpesa_receipt_number LIKE ?)",
       (params ++ [pattern; pattern; pattern])%list)
    else (whereClause, params) in
  let params := (params ++ [JNum limit; JNum offset])%list in
  {| Listing.page := page;
     Listing.limit := limit;
     Listing.offset := offset;
     Listing.whereClause := whereClause;
     Listing.params := params;
     Listing.countParams := firstn (List.length params - 2) params |}.

End dashboard.

(* ================================================================== *)
(** ** utils/money-split in binary64                                   *)
(* ================================================================== *)

(** [calculateSplit] with the arithmetic the program runs on: a number is
    NaN, an infinity or the exact value of a finite double, and every
    operation gives the double nearest to its exact result ([round64]).
    Zero has no sign here; no zero is divided by in [calculateSplit]. *)
Module Double.

Definition negative (q : Q) : bool := Qnum q <? 0.

(** [a * b] *)
Definition mul (a b : number) : number :=
  match a, b with
  | NaN, _ | _, NaN => NaN
  | Num x, Num y => round64 (x * y)
  | Infinity s, Num y | Num y, Infinity s =>
      if Qeq_bool y 0 then NaN else Infinity (xorb s (negative y))
  | Infinity s, Infinity t => Infinity (xorb s t)
  end.

(** [a / b] *)
Definition div (a b : number) : number :=
  match a, b with
  | NaN, _ | _, NaN => NaN
  | Num x, Num y =>
      if Qeq_bool y 0
      then if Qeq_bool x 0 then NaN else Infinity (negative x)
      else round64 (x / y)
  | Infinity s, Num y => Infinity (xorb s (negative y))
  | Num _, Infinity _ => Num 0
  | Infinity _, Infinity _ => NaN
  end.

(** [a - b] *)
Definition sub (a b : number) : number :=
  match a, b with
  | NaN, _ | _, NaN => NaN
  | Num x, Num y => round64 (x - y)
  | Infinity s, Num _ => Infinity s
  | Num _, Infinity s => Infinity (negb s)
  | Infinity s, Infinity t => if Bool.eqb s t then NaN else Infinity s
  end.

(** [a < b] *)
Definition lt (a b : number) : bool :=
  match a, b with
  | NaN, _ | _, NaN => false
  | Num x, Num y => negb (Qle_bool y x)
  | Num _, Infinity s => negb s
  | Infinity s, Num _ => s
  | Infinity s, Infinity t => s && negb t
  end.

(** [a >= b] *)
Definition ge (a b : number) : bool :=
  match a, b with
  | NaN, _ | _, NaN => false
  | Num x, Num y => Qle_bool y x
  | Num _, Infinity s => s
  | Infinity s, Num _ => negb s
  | Infinity s, Infinity t => negb s || t
  end.

(** [Math.round(x)]: the integer nearest to [x], a tie going up. *)
Definition Math_round (x : number) : number :=
  match x with
  | Num q => Num (inject_Z (JS.Math_round q))
  | _ => x
  end.

(** A number in a template literal, for an integral number below 10^21 in
    magnitude, NaN and the infinities (a share is always one of these). *)
Definition text (x : number) : string :=
  match x with
  | NaN => "NaN"
  | Infinity s => if s then "-Infinity" else "Infinity"
  | Num q => decimal (Qfloor q)
  end.

(** [x.toFixed(2)] below 10^21 in magnitude: the nearest multiple of one
    hundredth of the exact value, the larger one at a tie, with two digits
    after the point. *)
Definition toFixed2 (x : number) : string :=
  match x with
  | NaN => "NaN"
  | Infinity s => if s then "-Infinity" else "Infinity"
  | Num q =>
      let a := (if negative q then - q else q)%Q in
      let n := Qfloor (a * 100 + (1 # 2))%Q in
      (if negative q then "-" else "")
      ++ decimal (n / 100) ++ "."
      ++ (if n mod 100 <? 10 then "0" else "") ++ decimal (n mod 100)
  end.

(** What [calculateSplit] returns. *)
Record Split : Type := mkSplit {
  transactionCharge : Z;
  developerShare : number;
  ownerShare : number;
  developerPercentage : string;
  ownerPercentage : string;
  splitRatio : string;
  isValid : bool
}.

(** [calculateSplit(transactionCharge, developerPercentage)] for an integral
    charge of magnitude at most 2^53, which is then a double itself. *)
Definition calculateSplit (transactionCharge : Z) (developerPercentage : number)
  : outcome Split :=
  let charge := Num (inject_Z transactionCharge) in
  if lt charge (Num 1) then Throw MoneySplitter.charge_error
  else if lt developerPercentage (Num 0) || lt (Num 100) developerPercentage
  then Throw MoneySplitter.percentage_error
  else
    let developerShare :=
      Math_round (mul charge (div developerPercentage (Num 100))) in
    let ownerShare := sub charge developerShare in
    let finalDeveloperShare :=
      if lt ownerShare (Num 1) && lt (Num 1) charge
      then sub developerShare (Num 1) else developerShare in
    let finalOwnerShare := sub charge finalDeveloperShare in
    Return
      {| transactionCharge := transactionCharge;
         developerShare := finalDeveloperShare;
         ownerShare := finalOwnerShare;
         developerPercentage :=
           toFixed2 (mul (div finalDeveloperShare charge) (Num 100));
         ownerPercentage :=
           toFixed2 (mul (div finalOwnerShare charge) (Num 100));
         splitRatio := text finalOwnerShare ++ ":" ++ text finalDeveloperShare;
         isValid := ge finalDeveloperShare (Num 0)
                    && ge finalOwnerShare (Num 0) |}.

End Double.

(* ================================================================== *)
(** ** Vocabulary of the statements                                 *)
(* ================================================================== *)

(** [r] is [x] rounded to the nearest integer, a tie going up. *)
Definition round_half_up (x : Q) (r : Z) : Prop :=
  (inject_Z r - (1 # 2) <= x /\ x < inject_Z r + (1 # 2))%Q.

(** The schedule as the specification tabulates it. *)
Definition tier_rate (fareAmount : Z) : Q :=
  if fareAmount <=? 500 then 15 # 1000
  else if fareAmount <=? 1000 then 12 # 1000
  else if fareAmount <=? 2000 then 10 # 1000
  else 8 # 1000.

(** The developer share before the owner-minimum correction. *)
Definition uncorrected_developerShare (charge : Z) (percent : Q) : Z :=
  Math_round (inject_Z charge * (percent / 100))%Q.

(** Normalisation as the specification words it: strip the non-digits; a
    leading 0 is replaced by the country code; a leading 7 or 1 gets the
    country code prepended; a number that already starts with the country
    code passes through; anything else is rejected; and only 12 characters
    are accepted. *)
Definition normalize_phone (input : string) : option string :=
  let digits := strip_non_digits input in
  let candidate :=
    match digits with
    | String "0" rest => Some ("254" ++ rest)
    | String "7" _ => Some ("254" ++ digits)
    | String "1" _ => Some ("254" ++ digits)
    | _ => if String.prefix "254" digits then Some digits else None
    end in
  match candidate with
  | Some c => if (String.length c =? 12)%nat then Some c else None
  | None => None
  end.

Definition phone_result (r : option string) : jsval :=
  match r with
  | Some p => JStr p
  | None => JNull
  end.



(** What the provider said about a failure, if the error carries it. *)
Definition provider_says (cause : Error) (key : string) : jsval :=
  opt_member (opt_member (response cause) "data") key.

(** [{ success: false, error, errorCode }] with the provider's message and
    code when the error carries them, and the generic ones otherwise. *)
Definition structured_failure (generic : string) (cause : Error)
  (r : GatewayResult) : Prop :=
  exists error errorCode : jsval,
    r = Failure error errorCode
    /\ (truthy (provider_says cause "errorMessage") = true ->
        error = provider_says cause "errorMessage")
    /\ (truthy (provider_says cause "errorMessage") = false ->
        error = JStr generic)
    /\ (truthy (provider_says cause "errorCode") = true ->
        errorCode = provider_says cause "errorCode")
    /\ (truthy (provider_says cause "errorCode") = false ->
        errorCode = JStr "UNKNOWN_ERROR").

(** The tables are not touched. *)
Definition keeps_tables {A : Type} (c : M A) : Prop :=
  forall s o s', c s = (o, s') ->
    db_transactions s' = db_transactions s /\ db_matatus s' = db_matatus s.

(** The row [db.get] finds for a transaction id. *)
Definition stored (ts : list transactions.row) (transactionId : string)
  : option transactions.row :=
  find (fun t => (transactions.transaction_id t =? transactionId)%string) ts.

(** The answer of the status route for a transaction. *)
Definition status_answer (transaction : transactions.row)
  (m : option matatus.row) : Response :=
  {| http_status := 200;
     body := JObj [("success", JBool true);
                   ("data", server.summary transaction m)] |}.

(** The system after the status update the poll path makes. *)
Definition with_status_update (w : World) (transactionId : string)
  (newStatus : Status) (s : System) : System :=
  {| db_transactions :=
       SQL.update_status newStatus (CURRENT_TIMESTAMP w) transactionId
         (db_transactions s);
     db_matatus := db_matatus s;
     mpesaService := mpesaService s;
     console := console s;
     sent := sent s |}.

(** [s'] is [s] with the table of transactions replaced by [ts] and [lines]
    added to the console. *)
Definition evolves (s s' : System) (ts : list transactions.row)
  (lines : list string) : Prop :=
  db_transactions s' = ts
  /\ db_matatus s' = db_matatus s
  /\ mpesaService s' = mpesaService s
  /\ sent s' = sent s
  /\ console s' = (console s ++ lines)%list.

(** The [stkCallback] object of a request body. *)
Definition stkCallback_of (req_body : jsval) : jsval :=
  prop (prop req_body "Body") "stkCallback".

(** What [processCallback] returns from its [catch]. *)
Definition invalid_format : CallbackResult :=
  {| merchantRequestId := JUndefined;
     checkoutRequestId := JUndefined;
     resultCode := JUndefined;
     resultDesc := JUndefined;
     callbackSuccess := false;
     callbackAmount := JUndefined;
     mpesaReceiptNumber := JUndefined;
     transactionDate := JUndefined;
     callbackPhoneNumber := JUndefined;
     balance := JUndefined;
     processingError := JStr "Invalid callback data format" |}.

Definition bad_request (validation : CallbackValidation) : Response :=
  {| http_status := 400;
     body := JObj [("error", JStr (callbackError validation))] |}.

Definition not_found : Response :=
  {| http_status := 404;
     body := JObj [("error", JStr "Transaction not found")] |}.

(** [{ success: true, message: 'Callback processed successfully' }] *)
Definition acknowledged : Response :=
  {| http_status := 200;
     body := JObj [("success", JBool true);
                   ("message", JStr "Callback processed successfully")] |}.

Definition callback_status (r : CallbackResult) : Status :=
  if callbackSuccess r then COMPLETED else FAILED.

Definition demo_world : World :=
  {| now := 1704103200000;
     timestamp := "20240101100000";
     CURRENT_TIMESTAMP := "2024-01-01 10:01:00";
     axios := fun req =>
       if (req_method req =? "GET")%string
       then Return (JObj [("access_token", JStr "token-1");
                          ("expires_in", JStr "3599")])
       else Return (JObj [("ResponseCode", JStr "0");
                          ("MerchantRequestID", JStr "29115-34620561-1");
                          ("CheckoutRequestID", JStr "ws_CO_123456789");
                          ("ResultCode", JNum 0);
                          ("ResultDesc",
                           JStr "The service request is processed successfully.")])
  |}.

(** The same clock, with a provider that rejects every request. *)
Definition demo_rejection : Error :=
  {| message := "Request failed with status code 400";
     response :=
       JObj [("status", JNum 400);
             ("data", JObj [("requestId", JStr "1234-5678-1");
                            ("errorCode", JStr "400.002.02");
                            ("errorMessage",
                             JStr "Bad Request - Invalid PhoneNumber")])] |}.

Definition demo_world_rejecting : World :=
  {| now := now demo_world;
     timestamp := timestamp demo_world;
     CURRENT_TIMESTAMP := CURRENT_TIMESTAMP demo_world;
     axios := fun _ => Throw demo_rejection |}.

Definition demo_transaction (status : Status) (receipt : option string)
  : transactions.row :=
  {| transactions.transaction_id := "MOBI1703012345ABCD";
     transactions.matatu_code := "3025";
     transactions.phone_number := "254712345678";
     transactions.amount := 100;
     transactions.transaction_charge := 2;
     transactions.total_amount := 102;
     transactions.mpesa_receipt_number := receipt;
     transactions.status := status;
     transactions.mpesa_request_id := Some "29115-34620561-1";
     transactions.checkout_request_id := Some "ws_CO_123456789";
     transactions.owner_share := 2;
     transactions.developer_share := 0;
     transactions.created_at := "2024-01-01 10:00:00";
     transactions.updated_at := "2024-01-01 10:00:00" |}.

Definition demo_matatu : matatus.row :=
  {| matatus.matatu_code := "3025";
     matatus.route_name := "Default Route";
     matatus.owner_account := "254717564238";
     matatus.is_active := true |}.

Definition demo_system (t : transactions.row) : System :=
  {| db_transactions := [t];
     db_matatus := [demo_matatu];
     mpesaService :=
       MpesaService.new "key" "secret" "174379" "passkey"
         "https://mobipay.example/api/mpesa/callback" "sandbox";
     console := [];
     sent := [] |}.

(** The same system with an access token in the cache. *)
Definition demo_system_with_token (t : transactions.row) : System :=
  {| db_transactions := db_transactions (demo_system t);
     db_matatus := db_matatus (demo_system t);
     mpesaService :=
       MpesaService.with_token (mpesaService (demo_system t))
         (JStr "token-0") (now demo_world + 1000);
     console := [];
     sent := [] |}.

(** A callback envelope for a checkout id and a result code; a successful
    one carries the receipt in its metadata. *)
Definition demo_callback (checkout : string) (code : Z) : jsval :=
  JObj [("Body", JObj [("stkCallback",
     JObj ([("MerchantRequestID", JStr "29115-34620561-1");
            ("CheckoutRequestID", JStr checkout);
            ("ResultCode", JNum code);
            ("ResultDesc", JStr (if code =? 0
                                 then "The service request is processed successfully."
                                 else "Request cancelled by user"))]
           ++ (if code =? 0
               then [("CallbackMetadata",
                      JObj [("Item",
                             JArr [JObj [("Name", JStr "Amount");
                                         ("Value", JNum 102)];
                                   JObj [("Name", JStr "MpesaReceiptNumber");
                                         ("Value", JStr "OKL1A2B3C4")];
                                   JObj [("Name", JStr "PhoneNumber");
                                         ("Value", JNum 254712345678)]])])]
               else []))%list)])].

(** What is fixed when a transaction is created: everything but the status,
    the receipt and the time of the last update. *)
Definition terms (t : transactions.row) :=
  (transactions.transaction_id t, transactions.matatu_code t,
   transactions.phone_number t, transactions.amount t,
   transactions.transaction_charge t, transactions.total_amount t,
   transactions.owner_share t, transactions.developer_share t,
   transactions.mpesa_request_id t, transactions.checkout_request_id t,
   transactions.created_at t).

(** How a transaction stands: its status, its receipt and its shares. *)
Definition settlement (t : transactions.row) :=
  (transactions.transaction_id t, transactions.status t,
   transactions.mpesa_receipt_number t,
   transactions.owner_share t, transactions.developer_share t).

(** The rate of the schedule in thousandths. *)
Definition per_mille (amount : Z) : Z :=
  if amount <=? 500 then 15
  else if amount <=? 1000 then 12
  else if amount <=? 2000 then 10
  else 8.

Definition charge_agrees (amount : Z) : bool :=
  match Binary64.calculateTransactionCharge amount with
  | Some c => c =? (2 * (amount * per_mille amount) + 1000) / 2000
  | None => false
  end.

Definition share_in_range (charge percent : Z) : bool :=
  match Binary64.developerShare charge percent with
  | Some d =>
      (0 <=? d) && (d <=? charge)
      && (negb (percent =? 10) || (d =? (2 * (charge * percent) + 100) / 200))
  | None => false
  end.

(** The codes that have a message of their own. *)
Definition known_codes : list Z :=
  [0; 1; 17; 26; 2001; 1001; 1019; 1032; 1037; 2006].

(** The request for a token. *)
Definition token_request (self : MpesaService) : Request :=
  {| req_method := "GET";
     req_url := baseURL self ++ "/oauth/v1/generate?grant_type=client_credentials";
     req_headers :=
       [("Authorization",
         "Basic " ++ base64 (consumerKey self ++ ":" ++ consumerSecret self));
        ("Content-Type", "application/json")];
     req_data := JUndefined |}.

(** [s'] is [s] after the requests [reqs] and the console lines [lines],
    with whatever token cache; the tables are those of [s]. *)
Definition after_requests (s s' : System) (reqs : list Request)
  (lines : list string) : Prop :=
  db_transactions s' = db_transactions s
  /\ db_matatus s' = db_matatus s
  /\ sent s' = (sent s ++ reqs)%list
  /\ console s' = (console s ++ lines)%list
  /\ consumerKey (mpesaService s') = consumerKey (mpesaService s)
  /\ consumerSecret (mpesaService s') = consumerSecret (mpesaService s)
  /\ shortcode (mpesaService s') = shortcode (mpesaService s)
  /\ passkey (mpesaService s') = passkey (mpesaService s)
  /\ callbackUrl (mpesaService s') = callbackUrl (mpesaService s)
  /\ baseURL (mpesaService s') = baseURL (mpesaService s).

(** What an STK push for an amount and an account reference looks like:
    a POST to the process-request end point, with the amount, the reference,
    the short code as receiver, and one phone number starting with 254 as
    both payer and phone. *)
Definition is_stk_push (self : MpesaService) (amount : Z)
  (accountReference : string) (req : Request) : Prop :=
  req_method req = "POST"
  /\ req_url req = baseURL self ++ "/mpesa/stkpush/v1/processrequest"
  /\ prop (req_data req) "Amount" = JNum amount
  /\ prop (req_data req) "AccountReference" = JStr accountReference
  /\ prop (req_data req) "BusinessShortCode" = JStr (shortcode self)
  /\ prop (req_data req) "PartyB" = JStr (shortcode self)
  /\ exists phone : string,
       prop (req_data req) "PartyA" = JStr phone
       /\ prop (req_data req) "PhoneNumber" = JStr phone
       /\ String.prefix "254" phone = true.

(** The text stored under a key of [system_settings], if any. *)
Definition configured (d : Directory) (key : string) : jsval :=
  moneySplitter.setting (db_system_settings d) key.

(** A percentage that is a number other than zero, or an infinity. *)
Definition nonzero_percentage (p : Percentage) : Prop :=
  match p with
  | Percent q => ~ (q == 0)%Q
  | Unbounded _ => True
  end.

(** A percentage that [calculateSplit] accepts. *)
Definition in_range (p : Percentage) : Prop :=
  match p with
  | Percent q => (0 <= q)%Q /\ (q <= 100)%Q
  | Unbounded _ => False
  end.

(** The whole percentages from 1 to 100 are read as written. *)
Definition whole_percentage_read (n : Z) : bool :=
  match parseFloat (decimal n) with
  | Num q => negb (Qeq_bool q 0) && (Qnum q =? n) && (Z.pos (Qden q) =? 1)
  | _ => false
  end.

(** The account of the developer that [getDeveloperAccount] selects. *)
Definition developer_account (d : Directory) : option accounts.row :=
  find (fun a => (accounts.account_type a =? "DEVELOPER")%string
                 && accounts.is_active a) (db_accounts d).

(** The matatu and the account of its owner that [getMatatuOwnerAccount]
    selects. *)
Definition owner_account (d : Directory) (s : System) (matatuCode : jsval)
  : option (matatus.row * accounts.row) :=
  moneySplitter.owner_account_row (db_matatus s) (db_accounts d) matatuCode.

(** The data of a split that was executed. *)
Definition split_execution (h : Host) (matatuCode : jsval)
  (fareAmount transactionCharge : Z) (m : matatus.row) (a dev : accounts.row)
  (split : Split) : SplitExecution.t :=
  {| SplitExecution.matatuCode := matatuCode;
     SplitExecution.fareAmount := fareAmount;
     SplitExecution.transactionCharge := transactionCharge;
     SplitExecution.totalAmount := fareAmount + transactionCharge;
     SplitExecution.splitCalculation := split;
     SplitExecution.owner :=
       {| Share.accountNumber := matatus.owner_account m;
          Share.accountName := accounts.account_name a;
          Share.shareAmount := ownerShare split;
          Share.percentage := ownerPercentage split |};
     SplitExecution.developer :=
       {| Share.accountNumber := accounts.account_number dev;
          Share.accountName := accounts.account_name dev;
          Share.shareAmount := developerShare split;
          Share.percentage := developerPercentage split |};
     SplitExecution.totalSplit := transactionCharge;
     SplitExecution.ownerReceives := ownerShare split;
     SplitExecution.developerReceives := developerShare split;
     SplitExecution.splitRatio := splitRatio split;
     SplitExecution.executedAt := toISOString h |}.

(** The row that the route inserts. *)
Definition pending_row (w : World) (h : Host) (code phone : string)
  (amount charge total : Z) (data : SplitExecution.t) (pushed : jsval)
  : transactions.row :=
  {| transactions.transaction_id := app.new_transactionId h;
     transactions.matatu_code := code;
     transactions.phone_number := phone;
     transactions.amount := amount;
     transactions.transaction_charge := charge;
     transactions.total_amount := total;
     transactions.mpesa_receipt_number := None;
     transactions.status := PENDING;
     transactions.mpesa_request_id :=
       SQL.text (or_else (prop pushed "merchantRequestId") JNull);
     transactions.checkout_request_id :=
       SQL.text (or_else (prop pushed "checkoutRequestId") JNull);
     transactions.owner_share := Share.shareAmount (SplitExecution.owner data);
     transactions.developer_share :=
       Share.shareAmount (SplitExecution.developer data);
     transactions.created_at := CURRENT_TIMESTAMP w;
     transactions.updated_at := CURRENT_TIMESTAMP w |}.

(** [data] of the answer to a payment that was initiated. *)
Definition initiated (h : Host) (code phone : string)
  (amount charge total : Z) (data : SplitExecution.t) (pushed : jsval) : jsval :=
  JObj [("transactionId", JStr (app.new_transactionId h));
        ("amount", JNum amount);
        ("transactionCharge", JNum charge);
        ("totalAmount", JNum total);
        ("phoneNumber", JStr phone);
        ("matatuCode", JStr code);
        ("checkoutRequestId", prop pushed "checkoutRequestId");
        ("customerMessage", prop pushed "customerMessage");
        ("split",
         JObj [("ownerShare",
                JNum (Share.shareAmount (SplitExecution.owner data)));
               ("developerShare",
                JNum (Share.shareAmount (SplitExecution.developer data)))])].

(** No character of [s] is [c]. *)
Fixpoint free_of (c : ascii) (s : string) : bool :=
  match s with
  | EmptyString => true
  | String a r => negb (a =? c)%char && free_of c r
  end.

(** The route on a request whose body is there and whose phone number can
    be cleaned: what it answers to each text. *)
Definition ussd_answer (text : jsval) : outcome string :=
  if strict_eq text (JStr "") then Return app.main_menu
  else if strict_eq text (JStr "1")
  then Return "CON Enter Matatu Code (1-4 digits):"
  else
    t <~ string_receiver text "startsWith" ;;
    if startsWith t "1*" then
      match split "*" t with
      | [_; matatuCode] =>
          match schemas.matatuCode "value" (JStr matatuCode) with
          | Some e => Return ("END " ++ matatuCode_message e)
          | None => Return "CON Enter amount (Min KSh 50):"
          end
      | [_; _; amount] =>
          Return (app.payment_request_sent (parseInt amount)
                    (option_map businessRules.calculateTransactionCharge
                       (parseInt amount))
                    (server.plus (parseInt amount)
                       (option_map businessRules.calculateTransactionCharge
                          (parseInt amount))))
      | _ => Return ""
      end
    else if strict_eq text (JStr "2")
    then Return "CON Enter Transaction ID to check status:"
    else if strict_eq text (JStr "3") then Return app.help
    else Return "END Invalid option. Please try again.".

Definition unavailable : string :=
  "END Service temporarily unavailable. Please try again later.".

(** The [Value] of the first item of the list that has the name given,
    [undefined] when there is none. *)
Definition named_value (items : list jsval) (name : string) : jsval :=
  match find (fun item => strict_eq (prop item "Name") (JStr name)) items with
  | Some item => prop item "Value"
  | None => JUndefined
  end.

(** Neither [null] nor [undefined]. *)
Definition is_value (v : jsval) : Prop := v <> JNull /\ v <> JUndefined.

(** The accounts and the settings that the initialisation of the database
    inserts. *)
Definition demo_directory : Directory :=
  {| db_accounts :=
       [ {| accounts.account_number := "254717564238";
            accounts.account_type := "OWNER";
            accounts.account_name := "Matatu Owner Account";
            accounts.is_active := true |};
         {| accounts.account_number := "254112331196";
            accounts.account_type := "DEVELOPER";
            accounts.account_name := "Developer Account";
            accounts.is_active := true |} ];
     db_system_settings :=
       [ {| system_settings.setting_key := "developer_percentage";
            system_settings.setting_value := "10" |};
         {| system_settings.setting_key := "min_amount";
            system_settings.setting_value := "50" |};
         {| system_settings.setting_key := "mpesa_consumer_key";
            system_settings.setting_value := "" |};
         {| system_settings.setting_key := "mpesa_consumer_secret";
            system_settings.setting_value := "" |};
         {| system_settings.setting_key := "mpesa_shortcode";
            system_settings.setting_value := "" |};
         {| system_settings.setting_key := "mpesa_passkey";
            system_settings.setting_value := "" |};
         {| system_settings.setting_key := "callback_url";
            system_settings.setting_value := "" |} ] |}.

(** The same directory after the developer percentage was set to 150. *)
Definition demo_directory_150 : Directory :=
  {| db_accounts := db_accounts demo_directory;
     db_system_settings :=
       [ {| system_settings.setting_key := "developer_percentage";
            system_settings.setting_value := "150" |} ] |}.

Definition demo_host : Host :=
  {| Date_now := 1704103200000;
     Math_random := "0.4fzyo82mvyr";
     toISOString := "2024-01-01T10:00:00.000Z" |}.

(** A fresh service: the default matatu and no transaction yet. *)
Definition demo_fresh_system : System :=
  {| db_transactions := [];
     db_matatus := [demo_matatu];
     mpesaService :=
       MpesaService.new "key" "secret" "174379" "passkey"
         "https://mobipay.example/api/mpesa/callback" "sandbox";
     console := [];
     sent := [] |}.

(** A fare of 2000 shillings, the charge being 20. *)
Definition demo_request : jsval :=
  JObj [("matatu_code", JStr "3025");
        ("phone_number", JStr "0712 345 678");
        ("amount", JNum 2000)].

Definition demo_ussd_request (text : string) : jsval :=
  JObj [("sessionId", JStr "ATUid_1");
        ("serviceCode", JStr "*384*25#");
        ("phoneNumber", JStr "+254712345678");
        ("text", JStr text)].

(** U+00A0, a no-break space, in UTF-8. *)
Definition no_break_space : string :=
  String (ascii_of_nat 194) (String (ascii_of_nat 160) EmptyString).

(** A callback that reports success but carries no list of items. *)
Definition demo_callback_without_items : jsval :=
  JObj [("Body", JObj [("stkCallback",
     JObj [("MerchantRequestID", JStr "29115-34620561-1");
           ("CheckoutRequestID", JStr "ws_CO_123456789");
           ("ResultCode", JNum 0);
           ("ResultDesc", JStr "The service request is processed successfully.");
           ("CallbackMetadata", JObj [])])])].

(** How often a character occurs in a string. *)
Fixpoint occurrences (c : ascii) (s : string) : nat :=
  match s with
  | EmptyString => O
  | String a r => ((if (a =? c)%char then 1 else 0) + occurrences c r)%nat
  end.

(** The WHERE clauses that the listing can produce. *)
Definition where_clauses : list string :=
  [""; " WHERE t.status = ?"; " WHERE t.matatu_code = ?";
   " WHERE t.status = ? AND t.matatu_code = ?";
   " WHERE (t.transaction_id LIKE ? OR t.phone_number LIKE ? OR t.mpesa_receipt_number LIKE ?)";
   " WHERE t.status = ? AND (t.transaction_id LIKE ? OR t.phone_number LIKE ? OR t.mpesa_receipt_number LIKE ?)";
   " WHERE t.matatu_code = ? AND (t.transaction_id LIKE ? OR t.phone_number LIKE ? OR t.mpesa_receipt_number LIKE ?)";
   " WHERE t.status = ? AND t.matatu_code = ? AND (t.transaction_id LIKE ? OR t.phone_number LIKE ? OR t.mpesa_receipt_number LIKE ?)"].

(** The exact value of a finite double, in lowest terms. *)
Definition float_value (x : float) : option Q :=
  match Prim2SF x with
  | S754_zero _ => Some 0%Q
  | S754_finite s m e =>
      Some (Qred (inject_Z (if s then Z.neg m else Z.pos m) * Qpower 2 e))
  | S754_infinity _ | S754_nan => None
  end.

(** [round64] gives the quotient that the processor gives. *)
Definition quotient_agrees (d n : Z) : bool :=
  match round64 (n # Z.to_pos d),
        float_value (Binary64.of_Z n / Binary64.of_Z d)%float with
  | Num q, Some v => (Qnum q =? Qnum v) && (Z.pos (Qden q) =? Z.pos (Qden v))
  | _, _ => false
  end.

(** [Math.round(transactionCharge * (developerPercentage / 100))], as the
    program computes it. *)
Definition rounded_developerShare (transactionCharge : Z)
  (developerPercentage : Q) : number :=
  Double.Math_round
    (Double.mul (Num (inject_Z transactionCharge))
       (Double.div (Num developerPercentage) (Num 100))).

Definition share_agrees (charge percent : Z) : bool :=
  match rounded_developerShare charge (inject_Z percent),
        Binary64.developerShare charge percent with
  | Num q, Some d => (Qnum q =? d) && (Z.pos (Qden q) =? 1)
  | _, _ => false
  end.

(** [{ success: false, error: <generic>, errorCode: 'UNKNOWN_ERROR' }] *)
Definition generic_failure (generic : string) : GatewayResult :=
  Failure (JStr generic) (JStr "UNKNOWN_ERROR").

(** The test [generateAccessToken] makes before it answers from its cache. *)
Definition cached_token (w : World) (self : MpesaService) : bool :=
  truthy (accessToken self)
  && match tokenExpiry self with
     | Some expiry => now w <? expiry
     | None => false
     end.

(** How a call of the gateway client can end: with a success object; with
    the generic failure; or with the failure built from the rejection of
    the last request sent, a POST. *)
Definition gateway_outcome (w : World) (generic : string) (sys' : System)
  (r : GatewayResult) : Prop :=
  (exists data : jsval, r = Success data)
  \/ r = generic_failure generic
  \/ exists (earlier : list Request) (request : Request) (rejection : Error),
       sent sys' = (earlier ++ [request])%list
       /\ req_method request = "POST"
       /\ axios w request = Throw rejection
       /\ r = MpesaService.failure generic rejection.

(** A provider that rejects the request for a token with a message. *)
Definition demo_token_rejection : Error :=
  {| message := "Request failed with status code 400";
     response :=
       JObj [("status", JNum 400);
             ("data", JObj [("requestId", JStr "1234-5678-2");
                            ("errorCode", JStr "400.008.01");
                            ("errorMessage",
                             JStr "Invalid Authentication passed")])] |}.

Definition demo_world_without_token : World :=
  {| now := now demo_world;
     timestamp := timestamp demo_world;
     CURRENT_TIMESTAMP := CURRENT_TIMESTAMP demo_world;
     axios := fun _ => Throw demo_token_rejection |}.

(** The status a callback reports: COMPLETED for the result code 0, FAILED
    for any other. *)
Definition reported_status (req_body : jsval) : Status :=
  if strict_eq (prop (stkCallback_of req_body) "ResultCode") (JNum 0)
  then COMPLETED else FAILED.

(** Whether [processCallback] looks into the metadata: the result code is 0
    and the callback has metadata. *)
Definition reads_metadata (req_body : jsval) : bool :=
  strict_eq (prop (stkCallback_of req_body) "ResultCode") (JNum 0)
  && truthy (prop (stkCallback_of req_body) "CallbackMetadata").

(** The receipt a callback carries: that of its metadata when they are
    looked into, none otherwise. *)
Definition reported_receipt (req_body : jsval) : jsval :=
  if reads_metadata req_body
  then
    match prop (prop (stkCallback_of req_body) "CallbackMetadata") "Item" with
    | JArr items => named_value items "MpesaReceiptNumber"
    | _ => JUndefined
    end
  else JUndefined.

(** The metadata can be read: when they are looked into, they hold a list
    of items none of which is [null] or [undefined]. *)
Definition metadata_readable (req_body : jsval) : Prop :=
  reads_metadata req_body = true ->
  exists items : list jsval,
    prop (prop (stkCallback_of req_body) "CallbackMetadata") "Item" = JArr items
    /\ Forall is_value items.

(* ================================================================== *)
(** ** Properties                                                   *)
(* ================================================================== *)

(** *** Rounding *)

Lemma Math_round_spec (x : Q) : round_half_up x (Math_round x).
Proof.
  unfold round_half_up, Math_round.
  pose proof (Qfloor_le (x + (1 # 2))) as Hlo.
  pose proof (Qlt_floor (x + (1 # 2))) as Hhi.
  rewrite inject_Z_plus in Hhi.
  split.
  - apply Qplus_le_l with (z := 1 # 2). ring_simplify.
    ring_simplify in Hlo. exact Hlo.
  - apply Qplus_lt_l with (z := 1 # 2).
    setoid_replace (inject_Z (Qfloor (x + (1 # 2))) + (1 # 2) + (1 # 2))%Q
      with (inject_Z (Qfloor (x + (1 # 2))) + inject_Z 1)%Q by ring.
    exact Hhi.
Qed.

Lemma round_half_up_compat (x y : Q) (r : Z) :
  (x == y)%Q -> round_half_up x r -> round_half_up y r.
Proof.
  unfold round_half_up. intros E [H1 H2]. split.
  - rewrite <- E. exact H1.
  - rewrite <- E. exact H2.
Qed.

Lemma round_half_up_unique (x : Q) (r s : Z) :
  round_half_up x r -> round_half_up x s -> r = s.
Proof.
  unfold round_half_up. intros [Hr1 Hr2] [Hs1 Hs2].
  assert (Hrs : (inject_Z r - (1 # 2) < inject_Z s + (1 # 2))%Q)
    by (eapply Qle_lt_trans; eauto).
  assert (Hsr : (inject_Z s - (1 # 2) < inject_Z r + (1 # 2))%Q)
    by (eapply Qle_lt_trans; eauto).
  unfold Qlt, Qminus, Qplus, Qopp, inject_Z in Hrs, Hsr. simpl in Hrs, Hsr. lia.
Qed.

Lemma Math_round_inject_Z (n : Z) : Math_round (inject_Z n) = n.
Proof.
  apply (round_half_up_unique (inject_Z n)); [apply Math_round_spec|].
  unfold round_half_up, Qle, Qlt, Qminus, Qplus, Qopp, inject_Z. simpl. lia.
Qed.

Lemma Math_round_mono (x y : Q) : (x <= y)%Q -> Math_round x <= Math_round y.
Proof.
  intros H. unfold Math_round. apply Qfloor_resp_le.
  apply Qplus_le_l. exact H.
Qed.

Lemma Math_round_bounds (x : Q) (n : Z) :
  (0 <= x)%Q -> (x <= inject_Z n)%Q -> 0 <= Math_round x <= n.
Proof.
  intros H0 Hn. split.
  - apply (Math_round_mono 0 x H0).
  - pose proof (Math_round_mono _ _ Hn) as H.
    rewrite Math_round_inject_Z in H. exact H.
Qed.

(** *** Fee calculator *)

Lemma percentage_tier_rate (a : Z) :
  (businessRules.percentage a / 100 == tier_rate a)%Q.
Proof.
  unfold businessRules.percentage, tier_rate.
  repeat match goal with |- context [if ?b then _ else _] => destruct b end;
    reflexivity.
Qed.

(** In exact arithmetic the charge is the tier's rate times the amount,
    rounded to the nearest integer with ties going up. *)
Lemma exact_charge_tiers (fareAmount : Z) :
  round_half_up (inject_Z fareAmount * tier_rate fareAmount)
    (businessRules.calculateTransactionCharge fareAmount).
Proof.
  unfold businessRules.calculateTransactionCharge.
  eapply round_half_up_compat; [|apply Math_round_spec].
  rewrite (percentage_tier_rate fareAmount). reflexivity.
Qed.

(** *** Split calculator *)

Lemma uncorrected_developerShare_bounds (charge : Z) (percent : Q) :
  0 <= charge -> (0 <= percent)%Q -> (percent <= 100)%Q ->
  0 <= uncorrected_developerShare charge percent <= charge.
Proof.
  intros Hc H0 H100.
  assert (H : (0 <= inject_Z charge * (percent / 100))%Q
              /\ (inject_Z charge * (percent / 100) <= inject_Z charge)%Q).
  { destruct percent as [pn pd].
    unfold Qle in *. cbn [Qnum Qden inject_Z] in H0, H100.
    change ((pn # pd) / 100)%Q with ((pn # pd) * (1 # 100))%Q.
    unfold Qmult, inject_Z. cbn [Qnum Qden].
    rewrite ?Pos2Z.inj_mul. split; nia. }
  apply Math_round_bounds; tauto.
Qed.

(** Closes a goal whose context bounds a rational both ways. *)
Ltac q_absurd :=
  match goal with
  | Hlt : (?a < ?b)%Q, Hle : (?b <= ?a)%Q |- _ =>
      exfalso; exact (Qlt_not_le _ _ Hlt Hle)
  end.

Lemma charge_error_neq_percentage_error :
  MoneySplitter.charge_error <> MoneySplitter.percentage_error.
Proof. discriminate. Qed.

(** What [calculateSplit] does on each of its three paths. *)
Lemma calculateSplit_cases (charge : Z) (percent : Q) :
  (charge < 1
   /\ MoneySplitter.calculateSplit charge percent
      = Throw MoneySplitter.charge_error)
  \/ (1 <= charge /\ ((percent < 0)%Q \/ (100 < percent)%Q)
      /\ MoneySplitter.calculateSplit charge percent
         = Throw MoneySplitter.percentage_error)
  \/ (1 <= charge /\ (0 <= percent)%Q /\ (percent <= 100)%Q
      /\ exists r, MoneySplitter.calculateSplit charge percent = Return r
         /\ transactionCharge r = charge
         /\ developerShare r =
              (if (charge - uncorrected_developerShare charge percent <? 1)
                  && (1 <? charge)
               then uncorrected_developerShare charge percent - 1
               else uncorrected_developerShare charge percent)
         /\ ownerShare r = charge - developerShare r).
Proof.
  unfold MoneySplitter.calculateSplit.
  destruct (charge <? 1) eqn:Hc.
  - left. apply Z.ltb_lt in Hc. auto.
  - apply Z.ltb_ge in Hc. right.
    destruct (Qlt_le_dec percent 0) as [Hn | Hn]; [left; auto|].
    destruct (Qlt_le_dec 100 percent) as [Hp | Hp]; [left; auto|].
    right. repeat (split; [assumption|]).
    eexists. split; [reflexivity|]. cbn [transactionCharge developerShare ownerShare].
    fold (uncorrected_developerShare charge percent). auto.
Qed.



(** C6, as stated, fails: with a charge below 1 the charge error is raised
    whatever the percentage, so an out-of-range percentage does not by itself
    raise the percentage error. *)
Lemma calculateSplit_percentage_error_not_iff :
  ~ (MoneySplitter.calculateSplit 0 150 = Throw MoneySplitter.percentage_error
     <-> ((150 < 0)%Q \/ (100 < 150)%Q)).
Proof.
  intros [_ H].
  assert (E : MoneySplitter.calculateSplit 0 150
              = Throw MoneySplitter.percentage_error)
    by (apply H; right; reflexivity).
  discriminate E.
Qed.

(** C6, amended.  The charge is checked first: [calculateSplit] raises the
    charge error exactly when the charge is below 1, raises the percentage
    error exactly when the charge is at least 1 and the percentage lies outside
    [0, 100], and returns a split exactly when both preconditions hold. *)
Theorem calculateSplit_errors (serviceCharge : Z) (platformPercent : Q) :
  (MoneySplitter.calculateSplit serviceCharge platformPercent
     = Throw MoneySplitter.charge_error
   <-> serviceCharge < 1)
  /\ (MoneySplitter.calculateSplit serviceCharge platformPercent
        = Throw MoneySplitter.percentage_error
      <-> 1 <= serviceCharge
          /\ ((platformPercent < 0)%Q \/ (100 < platformPercent)%Q))
  /\ ((exists r,
         MoneySplitter.calculateSplit serviceCharge platformPercent = Return r)
      <-> 1 <= serviceCharge
          /\ (0 <= platformPercent)%Q /\ (platformPercent <= 100)%Q).
Proof.
  pose proof charge_error_neq_percentage_error as Hneq.
  destruct (calculateSplit_cases serviceCharge platformPercent)
    as [[Hlt E] | [(Hc & Hout & E) | (Hc & H0 & H100 & r & E & _)]];
    rewrite E; (split; [|split]); split; intros Hx.
  (* the charge is below 1 *)
  - exact Hlt.
  - reflexivity.
  - congruence.
  - lia.
  - destruct Hx as [r Hx]. discriminate Hx.
  - lia.
  (* the percentage is out of range *)
  - congruence.
  - lia.
  - split; assumption.
  - reflexivity.
  - destruct Hx as [r Hx]. discriminate Hx.
  - destruct Hx as (_ & H0 & H100). destruct Hout; q_absurd.
  (* both preconditions hold *)
  - discriminate Hx.
  - lia.
  - discriminate Hx.
  - destruct Hx as (_ & [Hn | Hp]); q_absurd.
  - auto.
  - exists r. reflexivity.
Qed.

(** *** Strings of digits *)

Lemma is_digit_cases (c : ascii) :
  is_digit c = true ->
  c = "0"%char \/ c = "1"%char \/ c = "2"%char \/ c = "3"%char \/ c = "4"%char
  \/ c = "5"%char \/ c = "6"%char \/ c = "7"%char \/ c = "8"%char \/ c = "9"%char.
Proof.
  destruct c as [b0 b1 b2 b3 b4 b5 b6 b7].
  destruct b0, b1, b2, b3, b4, b5, b6, b7; cbv; intros H;
    first [discriminate H | tauto].
Qed.

Lemma all_digits_strip (s : string) : all_digits (strip_non_digits s) = true.
Proof.
  induction s as [|c s IH]; cbn [strip_non_digits]; [reflexivity|].
  destruct (is_digit c) eqn:Hc; [|exact IH].
  cbn [all_digits]. rewrite Hc. exact IH.
Qed.

Lemma strip_all_digits (s : string) :
  all_digits s = true -> strip_non_digits s = s.
Proof.
  induction s as [|c s IH]; cbn [all_digits strip_non_digits]; [reflexivity|].
  intros H. apply andb_true_iff in H. destruct H as [Hc Hs].
  rewrite Hc, (IH Hs). reflexivity.
Qed.


Lemma all_digits_app (a b : string) :
  all_digits (a ++ b) = all_digits a && all_digits b.
Proof.
  induction a as [|c a IH]; cbn [all_digits append]; [reflexivity|].
  rewrite IH. apply andb_assoc.
Qed.

Lemma length_app (a b : string) :
  String.length (a ++ b) = (String.length a + String.length b)%nat.
Proof.
  induction a as [|c a IH]; cbn [String.length append]; [reflexivity|].
  rewrite IH. reflexivity.
Qed.

Lemma prefix_nil (s : string) : String.prefix "" s = true.
Proof. destruct s; reflexivity. Qed.

(** *** Phone numbers *)

Lemma formatPhoneNumber_normalize (s : string) :
  MpesaService.formatPhoneNumber (JStr s) = Return (phone_result (normalize_phone s)).
Proof.
  unfold MpesaService.formatPhoneNumber, normalize_phone.
  destruct s as [|a s]; [reflexivity|].
  change (truthy (JStr (String a s))) with true.
  cbn [negb string_receiver obind].
  remember (strip_non_digits (String a s)) as d eqn:Hd. clear Hd.
  destruct d as [|c d]; [reflexivity|].
  pose proof (all_digits_strip (String c d)) as Hall. clear Hall.
  destruct c as [b0 b1 b2 b3 b4 b5 b6 b7].
  destruct b0, b1, b2, b3, b4, b5, b6, b7;
    cbv [startsWith substring1]; cbn; rewrite ?prefix_nil; cbn;
    try reflexivity;
    repeat match goal with
           | |- context [(String.length ?x =? ?n)%nat] =>
               destruct (String.length x =? n)%nat; cbn
           | |- context [String.prefix ?p ?x] =>
               destruct (String.prefix p x); cbn
           end; reflexivity.
Qed.

Lemma normalize_phone_accepts (s r : string) :
  normalize_phone s = Some r ->
  String.length r = 12%nat /\ all_digits r = true.
Proof.
  unfold normalize_phone.
  pose proof (all_digits_strip s) as Hall.
  remember (strip_non_digits s) as d eqn:Hd. clear Hd.
  set (candidate := match d with
                    | String "0" rest => Some ("254" ++ rest)
                    | String "7" _ => Some ("254" ++ d)
                    | String "1" _ => Some ("254" ++ d)
                    | _ => if String.prefix "254" d then Some d else None
                    end).
  assert (Hc : forall c, candidate = Some c -> all_digits c = true).
  { subst candidate. intros c.
    destruct d as [|x d']; [cbn; discriminate|].
    cbn [all_digits] in Hall. apply andb_true_iff in Hall.
    destruct Hall as [Hx Hd'].
    destruct (is_digit_cases x Hx)
      as [E|[E|[E|[E|[E|[E|[E|[E|[E|E]]]]]]]]]; subst x;
      intros H;
      try (injection H as <-; cbn [append all_digits is_digit];
           cbn; exact Hd');
      try (destruct (String.prefix _ _); [|discriminate H];
           injection H as <-; cbn; exact Hd').
  }
  destruct candidate as [c|]; [|discriminate].
  destruct (String.length c =? 12)%nat eqn:Hlen; [|discriminate].
  intros H. injection H as <-.
  split; [apply Nat.eqb_eq; exact Hlen | apply Hc; reflexivity].
Qed.

Lemma phoneNumber_pattern_shape (s : string) :
  schemas.phoneNumber_pattern s = true ->
  String.length s = 12%nat /\ all_digits s = true
  /\ String.prefix "254" s = true.
Proof.
  unfold schemas.phoneNumber_pattern.
  destruct s as [|c1 [|c2 [|c3 [|c4 r]]]]; try discriminate;
    try (destruct c1 as [[] [] [] [] [] [] [] []]; discriminate);
    try (destruct c1 as [[] [] [] [] [] [] [] []]; try discriminate;
         destruct c2 as [[] [] [] [] [] [] [] []]; discriminate);
    try (destruct c1 as [[] [] [] [] [] [] [] []]; try discriminate;
         destruct c2 as [[] [] [] [] [] [] [] []]; try discriminate;
         destruct c3 as [[] [] [] [] [] [] [] []]; discriminate).
  destruct c1 as [[] [] [] [] [] [] [] []]; try discriminate.
  destruct c2 as [[] [] [] [] [] [] [] []]; try discriminate.
  destruct c3 as [[] [] [] [] [] [] [] []]; try discriminate.
  intros H. apply andb_true_iff in H. destruct H as [H Hlen].
  apply andb_true_iff in H. destruct H as [Hc4 Hr].
  apply Nat.eqb_eq in Hlen.
  split; [cbn [String.length]; rewrite Hlen; reflexivity|].
  split; [|reflexivity].
  cbn [all_digits]. rewrite Hr.
  apply orb_true_iff in Hc4.
  destruct Hc4 as [E|E]; apply Ascii.eqb_eq in E; subst c4; reflexivity.
Qed.

(** C8.  On every string, [formatPhoneNumber] strips the non-digits, turns a
    leading 0 into 254, prepends 254 to a leading 7 or 1, lets a number that
    starts with 254 through and rejects (returns null on) anything else; what
    it accepts has exactly 12 characters, all digits.  The same holds of what
    the sanitizer [cleanPhoneNumber] produces and the validator then accepts.
    "0712345678" and "712345678" give "254712345678", "254712345678" is kept,
    and "999" is rejected, by both. *)
Theorem phone_normalization :
  (forall s : string,
      MpesaService.formatPhoneNumber (JStr s)
      = Return (phone_result (normalize_phone s)))
  /\ (forall s r : string,
        MpesaService.formatPhoneNumber (JStr s) = Return (JStr r) ->
        String.length r = 12%nat /\ all_digits r = true)
  /\ (forall (s : string) (c : jsval),
        sanitize.cleanPhoneNumber (JStr s) = Return c ->
        isValid (validate.validatePhoneNumber c) = true ->
        exists r, c = JStr r /\ normalize_phone s = Some r
                  /\ String.length r = 12%nat /\ all_digits r = true)
  /\ MpesaService.formatPhoneNumber (JStr "0712345678") = Return (JStr "254712345678")
  /\ MpesaService.formatPhoneNumber (JStr "712345678") = Return (JStr "254712345678")
  /\ MpesaService.formatPhoneNumber (JStr "254712345678") = Return (JStr "254712345678")
  /\ MpesaService.formatPhoneNumber (JStr "999") = Return JNull
  /\ sanitize.cleanPhoneNumber (JStr "0712345678") = Return (JStr "254712345678")
  /\ sanitize.cleanPhoneNumber (JStr "712345678") = Return (JStr "254712345678")
  /\ sanitize.cleanPhoneNumber (JStr "254712345678") = Return (JStr "254712345678")
  /\ (exists c, sanitize.cleanPhoneNumber (JStr "999") = Return c
                /\ isValid (validate.validatePhoneNumber c) = false).
Proof.
  split; [exact formatPhoneNumber_normalize|].
  split.
  { intros s r H. rewrite formatPhoneNumber_normalize in H.
    destruct (normalize_phone s) as [p|] eqn:E; [|discriminate H].
    injection H as <-. exact (normalize_phone_accepts s p E). }
  split.
  { intros s c Hclean Hvalid.
    unfold sanitize.cleanPhoneNumber in Hclean.
    destruct s as [|a s]; [injection Hclean as <-; discriminate Hvalid|].
    change (truthy (JStr (String a s))) with true in Hclean.
    cbn [negb string_receiver obind] in Hclean.
    unfold normalize_phone. cbv zeta in Hclean |- *.
    remember (strip_non_digits (String a s)) as d eqn:Hd. clear Hd.
    injection Hclean as <-.
    match type of Hvalid with
    | context [JStr ?x] => remember x as r eqn:Hr
    end.
    unfold validate.validatePhoneNumber, schemas.phoneNumber,
      schemas.string_rule in Hvalid.
    destruct (r =? "")%string; [discriminate Hvalid|].
    destruct (schemas.phoneNumber_pattern r) eqn:Hpat; [|discriminate Hvalid].
    destruct (phoneNumber_pattern_shape r Hpat) as (Hlen & Hall & Hpre).
    exists r. split; [reflexivity|]. split; [|split; assumption].
    assert (Hcand :
      match d with
      | String "0" rest => Some ("254" ++ rest)
      | String "7" _ => Some ("254" ++ d)
      | String "1" _ => Some ("254" ++ d)
      | _ => if String.prefix "254" d then Some d else None
      end = Some r).
    { destruct d as [|x d'].
      - subst r. cbv in Hpre. discriminate Hpre.
      - destruct x as [b0 b1 b2 b3 b4 b5 b6 b7].
        destruct b0, b1, b2, b3, b4, b5, b6, b7;
          cbv [startsWith substring1] in Hr; cbn in Hr;
          rewrite ?prefix_nil in Hr; cbn in Hr;
          subst r; try reflexivity; try discriminate Hpre;
          rewrite Hpre; reflexivity. }
    rewrite Hcand. rewrite Hlen. reflexivity. }
  repeat split; try reflexivity.
  eexists. split; reflexivity.
Qed.

(** *** Amounts *)





Lemma validatePaymentRequest_amount (code phone : jsval) (a : option Z) :
  isValid (validate.validatePaymentRequest (mkPaymentRequest code phone a)) = true ->
  exists n, a = Some n /\ 50 <= n <= 100000.
Proof.
  unfold validate.validatePaymentRequest. cbn [matatu_code phone_number amount].
  destruct (schemas.matatuCode "matatu_code" code); [discriminate|].
  destruct (schemas.phoneNumber "phone_number" phone); [discriminate|].
  unfold schemas.amount. destruct a as [n|]; [|discriminate].
  destruct (schemas.MAX_SAFE_INTEGER <? Z.abs n); [discriminate|].
  destruct (n <? 50) eqn:Hlo; [discriminate|].
  destruct (100000 <? n) eqn:Hhi; [discriminate|].
  intros _. exists n. apply Z.ltb_ge in Hlo. apply Z.ltb_ge in Hhi.
  split; [reflexivity | lia].
Qed.




(** *** Running computations *)

Lemma try_catch_cases {A : Type} (c : M A) (h : Error -> M A) (s : System) :
  (exists a s', c s = (Return a, s') /\ try_catch c h s = (Return a, s'))
  \/ (exists e s', c s = (Throw e, s') /\ try_catch c h s = h e s').
Proof.
  unfold try_catch. destruct (c s) as [[a|e] s']; eauto.
Qed.

Lemma bind_ok {A B : Type} (c : M A) (k : A -> M B) (s s2 : System) (b : B) :
  bind c k s = (Return b, s2) ->
  exists a s1, c s = (Return a, s1) /\ k a s1 = (Return b, s2).
Proof.
  unfold bind. destruct (c s) as [[a|e] s1]; [eauto | discriminate].
Qed.

Lemma lift_ok {A : Type} (o : outcome A) (s s' : System) (a : A) :
  lift o s = (Return a, s') -> o = Return a /\ s' = s.
Proof. unfold lift. intros H. inversion H. auto. Qed.

Lemma ret_ok {A : Type} (a b : A) (s s' : System) :
  ret a s = (Return b, s') -> a = b /\ s' = s.
Proof. unfold ret. intros H. inversion H. auto. Qed.

Lemma await_axios_ok (w : World) (req : Request) (s s' : System) (d : jsval) :
  await_axios w req s = (Return d, s') -> axios w req = Return d.
Proof. unfold await_axios. intros H. inversion H. reflexivity. Qed.

(** Peels the binds of a computation known to return. *)
Ltac peel H :=
  repeat
    (let a := fresh "x" in
     let s := fresh "s" in
     let Hc := fresh "Hc" in
     apply bind_ok in H; destruct H as (a & s & Hc & H)).

(** A request returned although the network rejects every request. *)
Ltac rejected Hnet :=
  match goal with
  | H : await_axios _ _ _ = (Return _, _) |- _ =>
      apply await_axios_ok in H; rewrite Hnet in H; discriminate H
  end.

(** *** Gateway client *)

Lemma failure_structured (generic : string) (cause : Error) :
  structured_failure generic cause (MpesaService.failure generic cause).
Proof.
  unfold structured_failure, MpesaService.failure, provider_says, or_else.
  eexists. eexists. split; [reflexivity|].
  destruct (truthy (opt_member (opt_member (response cause) "data") "errorMessage"));
    destruct (truthy (opt_member (opt_member (response cause) "data") "errorCode"));
    repeat split; intros; congruence.
Qed.

(** A [try] whose [catch] logs a line and returns the failure object. *)
Lemma guarded_call (line : Error -> string) (generic : string)
  (c : M GatewayResult) (sys : System) :
  (exists r sys', c sys = (Return r, sys')
                  /\ try_catch c
                       (fun error => console_write (line error) ;;;
                                     ret (MpesaService.failure generic error)) sys
                     = (Return r, sys'))
  \/ (exists cause sys0 sys',
         c sys = (Throw cause, sys0)
         /\ try_catch c
              (fun error => console_write (line error) ;;;
                            ret (MpesaService.failure generic error)) sys
            = (Return (MpesaService.failure generic cause), sys')).
Proof.
  destruct (try_catch_cases c
              (fun error => console_write (line error) ;;;
                            ret (MpesaService.failure generic error)) sys)
    as [(r & s' & Hc & Ht) | (e & s' & Hc & Ht)].
  - left. eauto.
  - right. exists e, s'. eexists. split; [exact Hc|]. rewrite Ht. reflexivity.
Qed.

Lemma generateAccessToken_cached (w : World) (sys : System) (expiry : Z) :
  truthy (accessToken (mpesaService sys)) = true ->
  tokenExpiry (mpesaService sys) = Some expiry ->
  now w < expiry ->
  MpesaService.generateAccessToken w sys
  = (Return (accessToken (mpesaService sys)), sys).
Proof.
  intros Htok Hexp Hnow.
  unfold MpesaService.generateAccessToken, try_catch, bind, this, ret.
  rewrite Htok, Hexp. apply Z.ltb_lt in Hnow. rewrite Hnow. reflexivity.
Qed.

(** *** What the gateway client leaves alone *)

Lemma keeps_ret {A : Type} (a : A) : keeps_tables (ret a).
Proof. intros s o s' H. inversion H. auto. Qed.

Lemma keeps_throw {A : Type} (e : Error) : keeps_tables (@throw A e).
Proof. intros s o s' H. inversion H. auto. Qed.

Lemma keeps_lift {A : Type} (x : outcome A) : keeps_tables (lift x).
Proof. intros s o s' H. inversion H. auto. Qed.

Lemma keeps_this : keeps_tables this.
Proof. intros s o s' H. inversion H. auto. Qed.

Lemma keeps_set_this (m : MpesaService) : keeps_tables (set_this m).
Proof. intros s o s' H. inversion H. auto. Qed.

Lemma keeps_console_write (line : string) : keeps_tables (console_write line).
Proof. intros s o s' H. inversion H. auto. Qed.

Lemma keeps_await_axios (w : World) (req : Request) :
  keeps_tables (await_axios w req).
Proof. intros s o s' H. inversion H. auto. Qed.

Lemma keeps_bind {A B : Type} (c : M A) (k : A -> M B) :
  keeps_tables c -> (forall a, keeps_tables (k a)) -> keeps_tables (bind c k).
Proof.
  intros Hc Hk s o s' H. unfold bind in H.
  destruct (c s) as [[a|e] s1] eqn:E.
  - destruct (Hc _ _ _ E) as [H1 H2]. destruct (Hk a _ _ _ H) as [H3 H4].
    split; congruence.
  - inversion H; subst. exact (Hc _ _ _ E).
Qed.

Lemma keeps_try_catch {A : Type} (c : M A) (h : Error -> M A) :
  keeps_tables c -> (forall e, keeps_tables (h e)) ->
  keeps_tables (try_catch c h).
Proof.
  intros Hc Hh s o s' H. unfold try_catch in H.
  destruct (c s) as [[a|e] s1] eqn:E.
  - inversion H; subst. exact (Hc _ _ _ E).
  - destruct (Hc _ _ _ E) as [H1 H2]. destruct (Hh e _ _ _ H) as [H3 H4].
    split; congruence.
Qed.

Create HintDb keeps.

#[local] Hint Resolve keeps_ret keeps_throw keeps_lift keeps_this
  keeps_set_this keeps_console_write keeps_await_axios : keeps.

Ltac keeps :=
  repeat first
    [ match goal with
      | |- forall _, keeps_tables _ => intro
      | |- keeps_tables (if ?b then _ else _) => destruct b
      | |- keeps_tables (let '(_, _) := ?p in _) => destruct p
      | |- keeps_tables (try_catch _ _) => apply keeps_try_catch
      | |- keeps_tables (bind _ _) => apply keeps_bind
      end
    | solve [auto with keeps] ].

Lemma keeps_generateAccessToken (w : World) :
  keeps_tables (MpesaService.generateAccessToken w).
Proof. unfold MpesaService.generateAccessToken. keeps. Qed.

Lemma keeps_stkPushQuery (w : World) (checkoutRequestId : string) :
  keeps_tables (MpesaService.stkPushQuery w checkoutRequestId).
Proof.
  unfold MpesaService.stkPushQuery.
  apply keeps_try_catch; [|keeps].
  apply keeps_bind; [apply keeps_generateAccessToken|]. keeps.
Qed.

Lemma stkPushQuery_returns (w : World) (checkoutRequestId : string)
  (sys : System) :
  exists r sys',
    MpesaService.stkPushQuery w checkoutRequestId sys = (Return r, sys').
Proof.
  unfold MpesaService.stkPushQuery.
  match goal with
  | |- context [try_catch ?c (fun error => console_write (@?line error) ;;; _) sys] =>
      destruct (guarded_call line "STK Push query failed" c sys)
        as [(r & sys' & _ & Ht) | (cause & sys0 & sys' & _ & Ht)]
  end; eauto.
Qed.

(** *** The table of transactions *)

Lemma transaction_with_matatu_stored (ts : list transactions.row)
  (ms : list matatus.row) (transactionId : string) (t : transactions.row)
  (m : option matatus.row) :
  SQL.transaction_with_matatu ts ms transactionId = Some (t, m) ->
  stored ts transactionId = Some t.
Proof.
  unfold SQL.transaction_with_matatu, stored.
  destruct (find _ ts); [|discriminate]. intros H. inversion H. reflexivity.
Qed.

Lemma stored_update_status (ts : list transactions.row) (transactionId : string)
  (t : transactions.row) (newStatus : Status) (now : string) :
  stored ts transactionId = Some t ->
  stored (SQL.update_status newStatus now transactionId ts) transactionId
  = Some (transactions.set_status newStatus now t).
Proof.
  unfold stored, SQL.update_status.
  induction ts as [|r ts IH]; cbn [find map]; [discriminate|].
  destruct (transactions.transaction_id r =? transactionId)%string eqn:E.
  - intros H. inversion H; subst. cbn [transactions.set_status
      transactions.transaction_id]. rewrite E. reflexivity.
  - rewrite E. exact IH.
Qed.

(** *** Polling *)

(** C7.  For a stored transaction, the status route queries the gateway only
    when the status is PENDING and a checkout request id is recorded.  A
    transaction that is not PENDING (or has no checkout request id) is
    answered as stored and the system is left as it was: nothing is sent and
    nothing is written.  A PENDING transaction is looked up at the gateway
    with its checkout request id; when the query comes back with a result
    code, code 0 stores COMPLETED and any other code stores FAILED, and the
    answer reports the new status; when the query fails or brings no result
    code, the stored transaction is answered unchanged. *)
Theorem payment_status_polls_pending (w : World) (transactionId : string)
  (sys : System) (transaction : transactions.row) (m : option matatus.row) :
  SQL.transaction_with_matatu (db_transactions sys) (db_matatus sys)
    transactionId = Some (transaction, m) ->
  (transactions.status transaction <> PENDING
   \/ truthy (nullable (transactions.checkout_request_id transaction)) = false ->
   server.payment_status w transactionId sys
   = (Return (status_answer transaction m), sys))
  /\ (forall checkout : string,
        transactions.status transaction = PENDING ->
        transactions.checkout_request_id transaction = Some checkout ->
        checkout <> "" ->
        exists queryResult sys1,
          MpesaService.stkPushQuery w checkout sys = (Return queryResult, sys1)
          /\ match queryResult with
             | Success data =>
                 if strict_eq (prop data "resultCode") JUndefined
                 then server.payment_status w transactionId sys
                      = (Return (status_answer transaction m), sys1)
                 else
                   let newStatus :=
                     if strict_eq (prop data "resultCode") (JNum 0)
                     then COMPLETED else FAILED in
                   server.payment_status w transactionId sys
                   = (Return (status_answer
                                (server.assign_status transaction newStatus) m),
                      with_status_update w transactionId newStatus sys1)
                   /\ option_map transactions.status
                        (stored (db_transactions
                                   (with_status_update w transactionId
                                      newStatus sys1)) transactionId)
                      = Some newStatus
             | Failure _ _ =>
                 server.payment_status w transactionId sys
                 = (Return (status_answer transaction m), sys1)
             end).
Proof.
  intros Hrow. split.
  - intros Hnot.
    unfold server.payment_status, bind at 1, get_system.
    rewrite Hrow.
    assert (E : Status_eqb (transactions.status transaction) PENDING
                && truthy (nullable (transactions.checkout_request_id transaction))
                = false).
    { destruct Hnot as [Hs | Hc].
      - destruct (transactions.status transaction);
          [congruence | reflexivity | reflexivity].
      - rewrite Hc. apply andb_false_r. }
    rewrite E. reflexivity.
  - intros checkout Hpending Hcheckout Hnonempty.
    destruct (stkPushQuery_returns w checkout sys) as (queryResult & sys1 & Hq).
    exists queryResult, sys1. split; [exact Hq|].
    destruct (keeps_stkPushQuery w checkout _ _ _ Hq) as [Hts _].
    assert (E : Status_eqb (transactions.status transaction) PENDING
                && truthy (nullable (transactions.checkout_request_id transaction))
                = true).
    { rewrite Hpending, Hcheckout. cbn.
      destruct (checkout =? "")%string eqn:Hc; [|reflexivity].
      apply String.eqb_eq in Hc. contradiction. }
    unfold server.payment_status, bind, get_system.
    rewrite Hrow, E, Hcheckout, Hq.
    destruct queryResult as [data | error errorCode]; [|reflexivity].
    destruct (strict_eq (prop data "resultCode") JUndefined); [reflexivity|].
    cbv zeta. split; [reflexivity|].
    cbn [with_status_update db_transactions].
    rewrite (stored_update_status _ _ transaction).
    + reflexivity.
    + rewrite Hts.
      exact (transaction_with_matatu_stored _ _ _ _ _ Hrow).
Qed.

(** *** The callback route *)

Lemma evolves_refl (s : System) : evolves s s (db_transactions s) [].
Proof. unfold evolves. rewrite app_nil_r. auto. Qed.

(** Closes a branch of [processCallback]: the run, the state, the result. *)
Ltac finish_processCallback :=
  eexists; eexists; split;
  [ intros s; eexists; split; [reflexivity|];
    first [ apply evolves_refl
          | unfold evolves; cbn [db_transactions db_matatus mpesaService
                                 sent console]; auto ]
  | first [ left; reflexivity
          | right; intros; cbn; split; reflexivity ] ].

(** [processCallback] always returns, touches nothing but the console, and
    what it returns depends on the payload alone: either the fields of the
    payload, or the invalid-format object. *)
Lemma processCallback_returns (callbackData : jsval) :
  exists (r : CallbackResult) (lines : list string),
    (forall s, exists s',
        MpesaService.processCallback callbackData s = (Return r, s')
        /\ evolves s s' (db_transactions s) lines)
    /\ (r = invalid_format
        \/ (truthy callbackData = true ->
            truthy (prop callbackData "Body") = true ->
            checkoutRequestId r
              = prop (stkCallback_of callbackData) "CheckoutRequestID"
            /\ callbackSuccess r
               = strict_eq (prop (stkCallback_of callbackData) "ResultCode")
                   (JNum 0))).
Proof.
  unfold MpesaService.processCallback, try_catch, bind, lift, ret,
    console_write, stkCallback_of.
  destruct (member callbackData "Body") as [Body|e] eqn:EB;
    [|finish_processCallback].
  destruct (member Body "stkCallback") as [stk|e] eqn:ES;
    [|finish_processCallback].
  destruct (member stk "MerchantRequestID") as [mr|e] eqn:EM;
    [|finish_processCallback].
  assert (HB : truthy callbackData = true -> Body = prop callbackData "Body").
  { intros Ht. destruct callbackData; try discriminate Ht;
      cbn in EB; inversion EB; reflexivity. }
  assert (HS : truthy (prop callbackData "Body") = true ->
               truthy callbackData = true ->
               stk = prop (prop callbackData "Body") "stkCallback").
  { intros Ht1 Ht2. rewrite <- (HB Ht2) in *.
    destruct Body; try discriminate Ht1; cbn in ES; inversion ES; reflexivity. }
  cbn [callbackSuccess merchantRequestId checkoutRequestId resultCode resultDesc].
  destruct (strict_eq (prop stk "ResultCode") (JNum 0)
            && truthy (prop stk "CallbackMetadata")) eqn:Emeta.
  - destruct (MpesaService.metadata_Value
                (prop (prop stk "CallbackMetadata") "Item") "Amount");
      [|finish_processCallback].
    destruct (MpesaService.metadata_Value
                (prop (prop stk "CallbackMetadata") "Item") "MpesaReceiptNumber");
      [|finish_processCallback].
    destruct (MpesaService.metadata_Value
                (prop (prop stk "CallbackMetadata") "Item") "TransactionDate");
      [|finish_processCallback].
    destruct (MpesaService.metadata_Value
                (prop (prop stk "CallbackMetadata") "Item") "PhoneNumber");
      [|finish_processCallback].
    destruct (MpesaService.metadata_Value
                (prop (prop stk "CallbackMetadata") "Item") "Balance");
      [|finish_processCallback].
    eexists; eexists; split.
    + intros s; eexists; split; [reflexivity | apply evolves_refl].
    + right. intros Ht1 Ht2. cbn. rewrite <- (HS Ht2 Ht1). auto.
  - eexists; eexists; split.
    + intros s; eexists; split; [reflexivity | apply evolves_refl].
    + right. intros Ht1 Ht2. cbn. rewrite <- (HS Ht2 Ht1). auto.
Qed.

(** The three ways the callback route ends, with the state it leaves. *)
Lemma mpesa_callback_cases (req_body : jsval) :
  (callbackIsValid (MpesaService.validateCallback req_body) = false
   /\ forall w sys, exists sys' lines,
        server.mpesa_callback w req_body sys
        = (Return (bad_request (MpesaService.validateCallback req_body)), sys')
        /\ evolves sys sys' (db_transactions sys) lines)
  \/ (callbackIsValid (MpesaService.validateCallback req_body) = true
      /\ exists r : CallbackResult,
           (r = invalid_format
            \/ (checkoutRequestId r
                  = prop (stkCallback_of req_body) "CheckoutRequestID"
                /\ callbackSuccess r
                   = strict_eq (prop (stkCallback_of req_body) "ResultCode")
                       (JNum 0)))
           /\ forall w sys,
                match SQL.transaction_id_by_checkout (db_transactions sys)
                        (checkoutRequestId r) with
                | None =>
                    exists sys' lines,
                      server.mpesa_callback w req_body sys
                      = (Return not_found, sys')
                      /\ evolves sys sys' (db_transactions sys) lines
                      /\ In ("Transaction not found for checkout ID: "
                             ++ ToString (checkoutRequestId r)) lines
                | Some transaction_id =>
                    exists sys' lines,
                      server.mpesa_callback w req_body sys
                      = (Return acknowledged, sys')
                      /\ evolves sys sys'
                           (SQL.update_status_receipt (callback_status r)
                              (mpesaReceiptNumber r) (CURRENT_TIMESTAMP w)
                              transaction_id (db_transactions sys)) lines
                end).
Proof.
  destruct (callbackIsValid (MpesaService.validateCallback req_body)) eqn:Hvalid.
  - right. split; [reflexivity|].
    destruct (processCallback_returns req_body) as (r & lines & Hrun & Hr).
    exists r. split.
    { destruct Hr as [Hr | Hr]; [left; exact Hr | right].
      unfold MpesaService.validateCallback in Hvalid.
      destruct (truthy req_body) eqn:H1; [|discriminate Hvalid].
      destruct (truthy (prop req_body "Body")) eqn:H2; [|discriminate Hvalid].
      apply Hr; reflexivity. }
    intros w sys.
    unfold server.mpesa_callback, try_catch, bind, console_write, get_system,
      set_transactions, ret.
    rewrite Hvalid. cbn [negb].
    match goal with
    | |- context [MpesaService.processCallback req_body ?s0] =>
        destruct (Hrun s0) as (s1 & Hp & Hev); rewrite Hp
    end.
    destruct Hev as (Hts & Hms & Hsvc & Hsent & Hcon).
    cbn [db_transactions db_matatus mpesaService sent console] in *.
    rewrite Hts.
    destruct (SQL.transaction_id_by_checkout (db_transactions sys)
                (checkoutRequestId r)) as [tid|].
    + eexists. eexists. split; [reflexivity|].
      unfold evolves, callback_status.
      cbn [db_transactions db_matatus mpesaService sent console].
      rewrite Hcon, <- !app_assoc. auto.
    + eexists. eexists. split; [reflexivity|]. split.
      * unfold evolves.
        cbn [db_transactions db_matatus mpesaService sent console].
        rewrite Hcon, <- !app_assoc. auto.
      * apply in_or_app. right. apply in_or_app. right. left. reflexivity.
  - left. split; [reflexivity|]. intros w sys.
    unfold server.mpesa_callback, try_catch, bind, console_write, ret.
    rewrite Hvalid. cbn [negb].
    eexists. eexists. split; [reflexivity|].
    unfold evolves. cbn [db_transactions db_matatus mpesaService sent console].
    rewrite <- !app_assoc. auto.
Qed.

(** *** The routes on a small ledger *)

(** The status route on a PENDING transaction whose query comes back with
    result code 0, and on a COMPLETED one. *)
Lemma payment_status_polls_pending_witness :
  SQL.transaction_with_matatu
    (db_transactions (demo_system (demo_transaction PENDING None)))
    (db_matatus (demo_system (demo_transaction PENDING None)))
    "MOBI1703012345ABCD"
  = Some (demo_transaction PENDING None, Some demo_matatu)
  /\ (exists sys',
        server.payment_status demo_world "MOBI1703012345ABCD"
          (demo_system (demo_transaction PENDING None))
        = (Return (status_answer
                     (server.assign_status (demo_transaction PENDING None)
                        COMPLETED)
                     (Some demo_matatu)), sys')
        /\ option_map transactions.status
             (stored (db_transactions sys') "MOBI1703012345ABCD")
           = Some COMPLETED)
  /\ server.payment_status demo_world "MOBI1703012345ABCD"
       (demo_system (demo_transaction COMPLETED (Some "OKL1A2B3C4")))
     = (Return (status_answer (demo_transaction COMPLETED (Some "OKL1A2B3C4"))
                  (Some demo_matatu)),
        demo_system (demo_transaction COMPLETED (Some "OKL1A2B3C4"))).
Proof.
  split; [reflexivity|]. split.
  - destruct (proj2 (payment_status_polls_pending demo_world
                       "MOBI1703012345ABCD"
                       (demo_system (demo_transaction PENDING None))
                       (demo_transaction PENDING None) (Some demo_matatu)
                       eq_refl)
                "ws_CO_123456789" eq_refl eq_refl ltac:(discriminate))
      as (queryResult & sys1 & Hquery & Hpoll).
    vm_compute in Hquery. injection Hquery as <- <-.
    cbv beta iota zeta in Hpoll.
    change (strict_eq (prop _ "resultCode") JUndefined) with false in Hpoll.
    change (strict_eq (prop _ "resultCode") (JNum 0)) with true in Hpoll.
    cbv beta iota in Hpoll. destruct Hpoll as [Hrun Hstored].
    eexists. split; [exact Hrun | exact Hstored].
  - apply (proj1 (payment_status_polls_pending demo_world "MOBI1703012345ABCD"
                    (demo_system (demo_transaction COMPLETED (Some "OKL1A2B3C4")))
                    (demo_transaction COMPLETED (Some "OKL1A2B3C4"))
                    (Some demo_matatu) eq_refl)).
    left. discriminate.
Defined.

(** *** Unknown checkout ids *)

Lemma transaction_id_by_checkout_undefined (ts : list transactions.row) :
  SQL.transaction_id_by_checkout ts JUndefined = None.
Proof.
  unfold SQL.transaction_id_by_checkout.
  induction ts as [|t ts IH]; cbn [find]; [reflexivity|].
  unfold SQL.eq_text at 1. cbn [SQL.text].
  destruct (transactions.checkout_request_id t); exact IH.
Qed.

(** C2, as stated, fails: a well-formed callback whose CheckoutRequestID is
    not in the table is answered 404 with an error body, which is not the
    acknowledgment. *)
Lemma callback_unknown_transaction_is_not_acknowledged :
  fst (server.mpesa_callback demo_world (demo_callback "ws_CO_000000000" 0)
         (demo_system (demo_transaction PENDING None)))
  = Return not_found
  /\ http_status not_found = 404
  /\ prop (body not_found) "success" = JUndefined
  /\ not_found <> acknowledged.
Proof.
  split; [vm_compute; reflexivity|].
  split; [reflexivity|]. split; [reflexivity|]. discriminate.
Qed.

(** C2, amended.  A structurally valid callback whose CheckoutRequestID
    matches no stored transaction leaves the tables, the gateway client and
    the requests sent as they were, writes the event to the console, and is
    answered 404 with the body [{ error: 'Transaction not found' }]. *)
Theorem callback_unknown_transaction (w : World) (req_body : jsval)
  (sys : System) :
  callbackIsValid (MpesaService.validateCallback req_body) = true ->
  SQL.transaction_id_by_checkout (db_transactions sys)
    (prop (stkCallback_of req_body) "CheckoutRequestID") = None ->
  exists sys' lines,
    server.mpesa_callback w req_body sys = (Return not_found, sys')
    /\ evolves sys sys' (db_transactions sys) lines
    /\ exists id, In ("Transaction not found for checkout ID: " ++ id) lines.
Proof.
  intros Hvalid Hunknown.
  destruct (mpesa_callback_cases req_body)
    as [[Hinvalid _] | (_ & r & Hr & Hrun)]; [congruence|].
  specialize (Hrun w sys).
  assert (Hnone : SQL.transaction_id_by_checkout (db_transactions sys)
                    (checkoutRequestId r) = None).
  { destruct Hr as [-> | [-> _]].
    - apply transaction_id_by_checkout_undefined.
    - exact Hunknown. }
  rewrite Hnone in Hrun.
  destruct Hrun as (sys' & lines & Hcall & Hev & Hlog).
  exists sys', lines. split; [exact Hcall|]. split; [exact Hev|].
  eexists. exact Hlog.
Qed.

Lemma callback_unknown_transaction_witness :
  exists sys' lines,
    server.mpesa_callback demo_world (demo_callback "ws_CO_000000000" 0)
      (demo_system (demo_transaction PENDING None))
    = (Return not_found, sys')
    /\ evolves (demo_system (demo_transaction PENDING None)) sys'
         (db_transactions (demo_system (demo_transaction PENDING None))) lines
    /\ exists id, In ("Transaction not found for checkout ID: " ++ id) lines.
Proof.
  apply (callback_unknown_transaction demo_world
           (demo_callback "ws_CO_000000000" 0)
           (demo_system (demo_transaction PENDING None)));
    reflexivity.
Defined.

(** *** Settlement *)

Lemma update_status_terms (newStatus : Status) (now transactionId : string)
  (ts : list transactions.row) :
  map terms (SQL.update_status newStatus now transactionId ts) = map terms ts
  /\ map transactions.mpesa_receipt_number
       (SQL.update_status newStatus now transactionId ts)
     = map transactions.mpesa_receipt_number ts.
Proof.
  unfold SQL.update_status.
  induction ts as [|t ts [IH1 IH2]]; cbn [map]; [auto|].
  rewrite IH1, IH2.
  destruct (transactions.transaction_id t =? transactionId)%string; auto.
Qed.

Lemma update_status_receipt_terms (status : Status) (receipt : jsval)
  (now transactionId : string) (ts : list transactions.row) :
  map terms (SQL.update_status_receipt status receipt now transactionId ts)
  = map terms ts.
Proof.
  unfold SQL.update_status_receipt.
  induction ts as [|t ts IH]; cbn [map]; [reflexivity|].
  rewrite IH.
  destruct (transactions.transaction_id t =? transactionId)%string; reflexivity.
Qed.

(** Settling a transaction does not change which row a checkout id finds. *)
Lemma update_status_receipt_lookup (status : Status) (receipt : jsval)
  (now transactionId : string) (ts : list transactions.row)
  (checkoutRequestId : jsval) :
  SQL.transaction_id_by_checkout
    (SQL.update_status_receipt status receipt now transactionId ts)
    checkoutRequestId
  = SQL.transaction_id_by_checkout ts checkoutRequestId.
Proof.
  unfold SQL.transaction_id_by_checkout, SQL.update_status_receipt.
  induction ts as [|t ts IH]; cbn [map find]; [reflexivity|].
  destruct (transactions.transaction_id t =? transactionId)%string;
    cbn [transactions.set_status_receipt transactions.checkout_request_id
         transactions.transaction_id];
    destruct (SQL.eq_text (transactions.checkout_request_id t)
                (SQL.text checkoutRequestId)); auto.
Qed.

(** Settling a transaction again with the same outcome changes nothing but
    the time of the update. *)
Lemma update_status_receipt_again (status : Status) (receipt : jsval)
  (now1 now2 transactionId : string) (ts : list transactions.row) :
  map settlement
    (SQL.update_status_receipt status receipt now2 transactionId
       (SQL.update_status_receipt status receipt now1 transactionId ts))
  = map settlement
      (SQL.update_status_receipt status receipt now1 transactionId ts).
Proof.
  unfold SQL.update_status_receipt.
  induction ts as [|t ts IH]; cbn [map]; [reflexivity|].
  rewrite IH. f_equal.
  destruct (transactions.transaction_id t =? transactionId)%string eqn:E.
  - cbn [transactions.set_status_receipt transactions.transaction_id].
    rewrite E. reflexivity.
  - rewrite E. reflexivity.
Qed.

(** What the status route can do to the table. *)
Lemma payment_status_table (w : World) (transactionId : string)
  (sys sys' : System) (o : outcome Response) :
  server.payment_status w transactionId sys = (o, sys') ->
  db_transactions sys' = db_transactions sys
  \/ exists (t : transactions.row) (newStatus : Status),
       stored (db_transactions sys) transactionId = Some t
       /\ transactions.status t = PENDING
       /\ (newStatus = COMPLETED \/ newStatus = FAILED)
       /\ db_transactions sys'
          = SQL.update_status newStatus (CURRENT_TIMESTAMP w) transactionId
              (db_transactions sys).
Proof.
  unfold server.payment_status, bind, get_system.
  destruct (SQL.transaction_with_matatu (db_transactions sys) (db_matatus sys)
              transactionId) as [[t m]|] eqn:Hrow;
    [|intros H; inversion H; auto].
  destruct (Status_eqb (transactions.status t) PENDING
            && truthy (nullable (transactions.checkout_request_id t))) eqn:E;
    [|intros H; inversion H; auto].
  apply andb_true_iff in E. destruct E as [Hpending _].
  assert (Hst : transactions.status t = PENDING)
    by (destruct (transactions.status t); [reflexivity | discriminate ..]).
  match goal with
  | |- context [MpesaService.stkPushQuery w ?c sys] =>
      destruct (MpesaService.stkPushQuery w c sys) as [[qr|e] sys1] eqn:Hq;
      destruct (keeps_stkPushQuery w c _ _ _ Hq) as [Hts _]
  end; [|intros H; inversion H; subst; auto].
  destruct qr as [data | error errorCode];
    [|intros H; inversion H; subst; auto].
  destruct (strict_eq (prop data "resultCode") JUndefined);
    cbn [negb]; [intros H; inversion H; subst; auto|].
  unfold set_transactions, ret. intros H. inversion H; subst; clear H.
  right. exists t.
  exists (if strict_eq (prop data "resultCode") (JNum 0)
          then COMPLETED else FAILED).
  split; [exact (transaction_with_matatu_stored _ _ _ _ _ Hrow)|].
  split; [exact Hst|]. split.
  - destruct (strict_eq (prop data "resultCode") (JNum 0)); auto.
  - cbn [db_transactions]. rewrite Hts. reflexivity.
Qed.

(** What the callback route can do to the table. *)
Lemma mpesa_callback_table (w : World) (req_body : jsval)
  (sys sys' : System) (o : outcome Response) :
  server.mpesa_callback w req_body sys = (o, sys') ->
  db_transactions sys' = db_transactions sys
  \/ exists (transaction_id : string) (newStatus : Status) (receipt : jsval),
       (newStatus = COMPLETED \/ newStatus = FAILED)
       /\ o = Return acknowledged
       /\ db_transactions sys'
          = SQL.update_status_receipt newStatus receipt (CURRENT_TIMESTAMP w)
              transaction_id (db_transactions sys).
Proof.
  intros Hcall.
  destruct (mpesa_callback_cases req_body)
    as [[_ Hrun] | (_ & r & _ & Hrun)].
  - destruct (Hrun w sys) as (s1 & lines & Hc & Hev).
    rewrite Hc in Hcall. inversion Hcall; subst. left. apply Hev.
  - specialize (Hrun w sys).
    destruct (SQL.transaction_id_by_checkout (db_transactions sys)
                (checkoutRequestId r)) as [tid|].
    + destruct Hrun as (s1 & lines & Hc & Hev).
      rewrite Hc in Hcall. inversion Hcall; subst. right.
      exists tid, (callback_status r), (mpesaReceiptNumber r).
      split; [unfold callback_status; destruct (callbackSuccess r); auto|].
      split; [reflexivity | apply Hev].
    + destruct Hrun as (s1 & lines & Hc & Hev & _).
      rewrite Hc in Hcall. inversion Hcall; subst. left. apply Hev.
Qed.

(** The same callback delivered twice. *)
Lemma mpesa_callback_again (w1 w2 : World) (req_body : jsval)
  (sys sys1 sys2 : System) (o1 o2 : outcome Response) :
  server.mpesa_callback w1 req_body sys = (o1, sys1) ->
  server.mpesa_callback w2 req_body sys1 = (o2, sys2) ->
  o2 = o1
  /\ map settlement (db_transactions sys2)
     = map settlement (db_transactions sys1).
Proof.
  intros H1 H2.
  destruct (mpesa_callback_cases req_body)
    as [[_ Hrun] | (_ & r & _ & Hrun)].
  - destruct (Hrun w1 sys) as (s1 & l1 & Hc1 & Hev1).
    destruct (Hrun w2 sys1) as (s2 & l2 & Hc2 & Hev2).
    rewrite Hc1 in H1. rewrite Hc2 in H2.
    inversion H1; inversion H2; subst.
    split; [reflexivity|]. f_equal. apply Hev2.
  - pose proof (Hrun w1 sys) as R1. pose proof (Hrun w2 sys1) as R2.
    destruct (SQL.transaction_id_by_checkout (db_transactions sys)
                (checkoutRequestId r)) as [tid|] eqn:Hfind.
    + destruct R1 as (s1 & l1 & Hc1 & Hev1).
      rewrite Hc1 in H1. inversion H1; subst.
      destruct Hev1 as (Hts1 & _).
      rewrite Hts1, update_status_receipt_lookup, Hfind in R2.
      destruct R2 as (s2 & l2 & Hc2 & Hev2).
      rewrite Hc2 in H2. inversion H2; subst.
      split; [reflexivity|].
      destruct Hev2 as (Hts2 & _). rewrite Hts2, Hts1.
      apply update_status_receipt_again.
    + destruct R1 as (s1 & l1 & Hc1 & Hev1 & _).
      rewrite Hc1 in H1. inversion H1; subst.
      destruct Hev1 as (Hts1 & _).
      rewrite Hts1, Hfind in R2.
      destruct R2 as (s2 & l2 & Hc2 & Hev2 & _).
      rewrite Hc2 in H2. inversion H2; subst.
      split; [reflexivity|]. f_equal.
      destruct Hev2 as (Hts2 & _). congruence.
Qed.

(** C1, as stated, fails: a callback that finds its transaction COMPLETED
    is not a no-op.  Here a callback with result code 1032 arrives for a
    completed transaction: it is acknowledged, the stored status becomes
    FAILED and the stored receipt is erased. *)
Lemma callback_overwrites_terminal_status :
  let before := demo_system (demo_transaction COMPLETED (Some "OKL1A2B3C4")) in
  let run := server.mpesa_callback demo_world
               (demo_callback "ws_CO_123456789" 1032) before in
  map settlement (db_transactions before)
  = [("MOBI1703012345ABCD", COMPLETED, Some "OKL1A2B3C4", 2, 0)]
  /\ fst run = Return acknowledged
  /\ map settlement (db_transactions (snd run))
     = [("MOBI1703012345ABCD", FAILED, None, 2, 0)].
Proof. vm_compute. repeat split; reflexivity. Qed.

(** *** The exact products against binary64 *)

Lemma Math_round_comp (x y : Q) : (x == y)%Q -> Math_round x = Math_round y.
Proof. intros E. unfold Math_round. rewrite E. reflexivity. Qed.

Lemma Math_round_ratio (n : Z) (d : positive) :
  Math_round (n # d) = (2 * n + Z.pos d) / (2 * Z.pos d).
Proof.
  unfold Math_round.
  assert (E : ((n # d) + (1 # 2) == (2 * n + Z.pos d) # (2 * d))%Q).
  { unfold Qeq, Qplus. cbn [Qnum Qden]. rewrite !Pos2Z.inj_mul. ring. }
  rewrite E. reflexivity.
Qed.

Lemma calculateTransactionCharge_closed (amount : Z) :
  businessRules.calculateTransactionCharge amount
  = (2 * (amount * per_mille amount) + 1000) / 2000.
Proof.
  unfold businessRules.calculateTransactionCharge.
  rewrite (Math_round_comp _ ((amount * per_mille amount) # 1000)).
  - apply Math_round_ratio.
  - unfold businessRules.percentage, per_mille.
    repeat match goal with |- context [if ?b then _ else _] => destruct b end;
      unfold Qeq, Qmult, Qdiv, Qinv, inject_Z; cbn [Qnum Qden]; cbn; ring.
Qed.

Lemma uncorrected_developerShare_closed (charge percent : Z) :
  uncorrected_developerShare charge (inject_Z percent)
  = (2 * (charge * percent) + 100) / 200.
Proof.
  unfold uncorrected_developerShare.
  rewrite (Math_round_comp _ ((charge * percent) # 100)).
  - apply Math_round_ratio.
  - unfold Qeq, Qmult, Qdiv, Qinv, inject_Z; cbn [Qnum Qden]; cbn; ring.
Qed.

Lemma for_range_spec (check : Z -> bool) (k : nat) (n : Z) :
  Binary64.for_range k n check = true ->
  forall i, n <= i < n + Z.of_nat k -> check i = true.
Proof.
  revert n. induction k as [|k IH]; intros n H i Hi; [lia|].
  cbn [Binary64.for_range] in H. apply andb_true_iff in H.
  destruct H as [Hn Hrest].
  destruct (Z.eq_dec i n) as [->|Hne]; [exact Hn|].
  apply (IH (n + 1) Hrest). lia.
Qed.

(** Over the amounts the validation lets through (and below), the charge
    computed in binary64 is the charge of the exact model. *)
Lemma binary64_charge (amount : Z) :
  1 <= amount <= 100000 ->
  Binary64.calculateTransactionCharge amount
  = Some (businessRules.calculateTransactionCharge amount).
Proof.
  intros H.
  assert (Hall : Binary64.for_range (Z.to_nat 100000) 1 charge_agrees = true)
    by (vm_compute; reflexivity).
  pose proof (for_range_spec charge_agrees _ _ Hall amount ltac:(lia)) as Hc.
  unfold charge_agrees in Hc.
  rewrite calculateTransactionCharge_closed.
  destruct (Binary64.calculateTransactionCharge amount) as [c|];
    [|discriminate Hc].
  apply Z.eqb_eq in Hc. congruence.
Qed.

(** Over the charges the schedule produces for validated amounts (1 to 800)
    and the whole percentages, the developer share rounded in binary64 lies
    between 0 and the charge, which is all the split properties rest on; at
    the configured 10% it is the share of the exact model. *)
Lemma binary64_developerShare (charge percent : Z) :
  1 <= charge <= 800 -> 0 <= percent <= 100 ->
  exists d,
    Binary64.developerShare charge percent = Some d
    /\ 0 <= d <= charge
    /\ (percent = 10 -> d = uncorrected_developerShare charge 10).
Proof.
  intros Hc Hp.
  assert (Hall : Binary64.for_range (Z.to_nat 800) 1
                   (fun c => Binary64.for_range (Z.to_nat 101) 0
                               (share_in_range c)) = true)
    by (vm_compute; reflexivity).
  pose proof (for_range_spec _ _ _ Hall charge ltac:(lia)) as Hrow.
  cbv beta in Hrow.
  pose proof (for_range_spec _ _ _ Hrow percent ltac:(lia)) as Hcell.
  unfold share_in_range in Hcell.
  destruct (Binary64.developerShare charge percent) as [d|];
    [|discriminate Hcell].
  apply andb_true_iff in Hcell. destruct Hcell as [Hcell Hten].
  apply andb_true_iff in Hcell. destruct Hcell as [H0 H1].
  apply Z.leb_le in H0. apply Z.leb_le in H1.
  exists d. split; [reflexivity|]. split; [lia|].
  intros ->. cbn [Z.eqb Pos.eqb negb orb] in Hten.
  apply Z.eqb_eq in Hten.
  change 10%Q with (inject_Z 10).
  rewrite uncorrected_developerShare_closed. exact Hten.
Qed.

(** Elsewhere the two can differ by one at a tie: 58% of 25 is 14.5, which
    the exact model rounds to 15, while in binary64 the product falls just
    short of the tie and rounds to 14. *)
Lemma binary64_tie :
  Binary64.developerShare 25 58 = Some 14
  /\ uncorrected_developerShare 25 58 = 15.
Proof. split; vm_compute; reflexivity. Qed.

(** *** Status messages *)

Lemma decimal_int (n : Z) :
  NilZero.int_of_string (decimal n) = Some (Z.to_int n).
Proof.
  unfold decimal. apply NilZero.isi; intros H;
    pose proof (DecimalZ.of_to n) as E; rewrite H in E; cbn in E; subst n;
    discriminate H.
Qed.

Lemma decimal_inj (a b : Z) : decimal a = decimal b -> a = b.
Proof.
  intros H. apply DecimalZ.to_int_inj.
  pose proof (decimal_int a) as Ha. pose proof (decimal_int b) as Hb.
  rewrite H in Ha. congruence.
Qed.

Lemma decimal_key (n k : Z) : decimal k = decimal n -> n = k.
Proof. intros H. symmetry. apply decimal_inj. exact H. Qed.

Lemma getTransactionStatusMessage_cases (n : Z) :
  (In n known_codes /\ Mpesa.getTransactionStatusMessage n <> ""
   /\ (Mpesa.getTransactionStatusMessage n = "Success" <-> n = 0))
  \/ (~ In n known_codes
      /\ Mpesa.getTransactionStatusMessage n
         = "Transaction failed with code " ++ decimal n).
Proof.
  unfold Mpesa.getTransactionStatusMessage, Mpesa.statusMessages.
  cbn [find fst].
  repeat
    match goal with
    | |- context [String.eqb ?k (decimal n)] =>
        let E := fresh "E" in
        destruct (String.eqb_spec k (decimal n)) as [E|E];
        [ first
            [ (* the key is a numeral: the code is its number *)
              match type of E with
              | ?k = _ =>
                  let z := eval vm_compute in
                    (match NilZero.int_of_string k with
                     | Some d => Z.of_int d
                     | None => -1
                     end) in
                  assert (Hn : n = z)
                    by (apply decimal_key; rewrite <- E; vm_compute; reflexivity)
              end;
              subst n; left; split;
              [ cbv [known_codes In]; tauto
              | split; [ vm_compute; discriminate
                       | vm_compute; split; intros H;
                         first [ reflexivity | discriminate H ] ] ]
            | (* the key is no numeral *)
              pose proof (decimal_int n) as Hk; rewrite <- E in Hk;
              vm_compute in Hk; discriminate Hk ]
        | ]
    end.
  right. split; [|reflexivity].
  cbv [known_codes In]. intros H.
  repeat match goal with
         | H : _ \/ _ |- _ => destruct H as [H|H]
         | H : False |- _ => destruct H
         | H : ?z = n, E : _ <> decimal n |- _ =>
             subst n; vm_compute in *; congruence
         end.
Qed.

(** X1.  For every integral result code, [getTransactionStatusMessage]
    answers "Success" for the code 0 and for no other code; a code (within
    the integers that a double holds exactly) that is none of the ten
    numeric keys of the table gets "Transaction failed with code N", with N
    the code in decimal; and the message is never empty. *)
Theorem status_message_success_only_for_zero :
  (forall resultCode : Z,
      Mpesa.getTransactionStatusMessage resultCode = "Success"
      <-> resultCode = 0)
  /\ (forall resultCode : Z,
        Z.abs resultCode <= schemas.MAX_SAFE_INTEGER ->
        ~ In resultCode known_codes ->
        Mpesa.getTransactionStatusMessage resultCode
        = "Transaction failed with code " ++ decimal resultCode)
  /\ (forall resultCode : Z,
        Mpesa.getTransactionStatusMessage resultCode <> "").
Proof.
  split; [|split]; intros n.
  - destruct (getTransactionStatusMessage_cases n) as [(_ & _ & H)|(Hn & H)];
      [exact H|].
    rewrite H. split; [discriminate|].
    intros ->. exfalso. apply Hn. cbv [known_codes In]. tauto.
  - intros _ Hn.
    destruct (getTransactionStatusMessage_cases n) as [(H & _)|(_ & H)];
      [contradiction | exact H].
  - destruct (getTransactionStatusMessage_cases n) as [(_ & H & _)|(_ & H)];
      [exact H|].
    rewrite H. discriminate.
Qed.

(** *** The fee over the amounts the validation lets through *)

Lemma charge_closed_bounds (amount : Z) :
  let c := businessRules.calculateTransactionCharge amount in
  2 * (amount * per_mille amount) - 1000 < 2000 * c
  /\ 2000 * c <= 2 * (amount * per_mille amount) + 1000.
Proof.
  cbv zeta. rewrite calculateTransactionCharge_closed.
  pose proof (Z.div_mod (2 * (amount * per_mille amount) + 1000) 2000
                ltac:(lia)) as E.
  pose proof (Z.mod_pos_bound (2 * (amount * per_mille amount) + 1000) 2000
                ltac:(lia)) as B.
  lia.
Qed.

Lemma per_mille_cases (amount : Z) :
  (amount <= 500 /\ per_mille amount = 15)
  \/ (500 < amount <= 1000 /\ per_mille amount = 12)
  \/ (1000 < amount <= 2000 /\ per_mille amount = 10)
  \/ (2000 < amount /\ per_mille amount = 8).
Proof.
  unfold per_mille.
  destruct (Z.leb_spec amount 500); [left; lia|].
  destruct (Z.leb_spec amount 1000); [right; left; lia|].
  destruct (Z.leb_spec amount 2000); [right; right; left; lia|].
  right; right; right; lia.
Qed.

(** X2.  For an amount that the validation accepts (50 to 100000),
    [validateTransactionCharge] accepts a provided charge exactly when it is
    the number [calculateTransactionCharge] gives; that number is at least 1
    and at most 800, and never more than 1.5% of the amount plus one half. *)
Theorem validateTransactionCharge_accepts (amount : Z) (providedCharge : jsval) :
  50 <= amount <= 100000 ->
  let v := validateTransactionCharge amount providedCharge in
  (ChargeValidation.isValid v = true
   <-> providedCharge = JNum (businessRules.calculateTransactionCharge amount))
  /\ ChargeValidation.expectedCharge v
     = businessRules.calculateTransactionCharge amount
  /\ 1 <= ChargeValidation.expectedCharge v <= 800
  /\ 1000 * ChargeValidation.expectedCharge v <= 15 * amount + 500.
Proof.
  intros Hrange. cbv zeta.
  unfold validateTransactionCharge.
  cbn [ChargeValidation.isValid ChargeValidation.expectedCharge].
  split; [|split; [reflexivity|]].
  - split.
    + destruct providedCharge; cbn [strict_eq]; try discriminate.
      intros H. apply Z.eqb_eq in H. congruence.
    + intros ->. cbn [strict_eq]. apply Z.eqb_refl.
  - pose proof (charge_closed_bounds amount) as B. cbv zeta in B.
    destruct (per_mille_cases amount) as [[H E]|[[H E]|[[H E]|[H E]]]];
      rewrite E in B; lia.
Qed.

(** An amount of 100 and the charge of 2 that goes with it. *)
Lemma validateTransactionCharge_accepts_witness :
  ChargeValidation.isValid (validateTransactionCharge 100 (JNum 2)) = true
  /\ ChargeValidation.isValid (validateTransactionCharge 100 (JNum 3)) = false
  /\ ChargeValidation.isValid (validateTransactionCharge 100 (JStr "2")) = false.
Proof.
  pose proof (validateTransactionCharge_accepts 100 (JNum 2) ltac:(lia)) as H.
  cbv zeta in H. destruct H as (H & _).
  split; [apply H; reflexivity|]. split; reflexivity.
Defined.

(** X3.  Within one tier of the schedule the charge grows with the amount,
    and it never exceeds the amount; across a tier boundary it drops: one
    shilling more than 500, 1000 or 2000 costs less in charge, and less in
    total, than the boundary amount itself. *)
Theorem charge_monotone_within_tier :
  (forall a b : Z,
      a <= b ->
      businessRules.percentage a = businessRules.percentage b ->
      businessRules.calculateTransactionCharge a
      <= businessRules.calculateTransactionCharge b)
  /\ (forall a : Z,
        0 <= a -> 0 <= businessRules.calculateTransactionCharge a <= a)
  /\ (forall boundary : Z,
        In boundary [500; 1000; 2000] ->
        businessRules.calculateTransactionCharge (boundary + 1)
        < businessRules.calculateTransactionCharge boundary
        /\ (boundary + 1) + businessRules.calculateTransactionCharge (boundary + 1)
           < boundary + businessRules.calculateTransactionCharge boundary).
Proof.
  split; [|split].
  - intros a b Hab Htier.
    assert (Hpm : per_mille a = per_mille b).
    { revert Htier. unfold businessRules.percentage, per_mille.
      repeat match goal with
             | |- context [?x <=? ?y] => destruct (x <=? y)
             end; intros H; try reflexivity; discriminate H. }
    pose proof (charge_closed_bounds a) as Ba.
    pose proof (charge_closed_bounds b) as Bb. cbv zeta in Ba, Bb.
    rewrite <- Hpm in Bb.
    assert (Hpos : 0 < per_mille a)
      by (destruct (per_mille_cases a) as [[_ E]|[[_ E]|[[_ E]|[_ E]]]]; lia).
    nia.
  - intros a Ha.
    pose proof (charge_closed_bounds a) as B. cbv zeta in B.
    destruct (per_mille_cases a) as [[H E]|[[H E]|[[H E]|[H E]]]];
      rewrite E in B; lia.
  - intros boundary H. cbv [In] in H.
    destruct H as [<-|[<-|[<-|[]]]]; vm_compute; split; reflexivity.
Qed.

(** *** Phone numbers, once more *)

Lemma normalize_phone_prefix (s r : string) :
  normalize_phone s = Some r -> String.prefix "254" r = true.
Proof.
  unfold normalize_phone.
  pose proof (all_digits_strip s) as Hall.
  remember (strip_non_digits s) as d eqn:Hd. clear Hd.
  destruct d as [|x d']; [cbn; discriminate|].
  cbn [all_digits] in Hall. apply andb_true_iff in Hall.
  destruct Hall as [Hx _].
  destruct (is_digit_cases x Hx)
    as [E|[E|[E|[E|[E|[E|[E|[E|[E|E]]]]]]]]]; subst x;
    try (destruct (String.prefix "254" (String _ d')) eqn:Hp);
    try discriminate;
    match goal with
    | |- context [(String.length ?c =? 12)%nat] =>
        destruct (String.length c =? 12)%nat
    end; try discriminate;
    intros H; injection H as <-;
    first [ exact Hp | cbn; rewrite ?prefix_nil; reflexivity ].
Qed.

Lemma normalize_phone_fixed (r : string) :
  String.length r = 12%nat -> all_digits r = true ->
  String.prefix "254" r = true ->
  normalize_phone r = Some r.
Proof.
  intros Hlen Hall Hp. unfold normalize_phone.
  rewrite (strip_all_digits r Hall).
  destruct r as [|x r']; [discriminate Hp|].
  pose proof Hp as Hx. cbn [String.prefix] in Hx.
  destruct (Ascii.ascii_dec "2" x) as [<-|]; [|discriminate Hx].
  rewrite Hp. cbv beta iota. rewrite Hlen. reflexivity.
Qed.

(** X4.  [formatPhoneNumber] is idempotent: a number it returns is returned
    unchanged when formatted again.  (It returns only 12 digits that start
    with 254.) *)
Theorem formatPhoneNumber_idempotent (phoneNumber formatted : string) :
  MpesaService.formatPhoneNumber (JStr phoneNumber) = Return (JStr formatted) ->
  MpesaService.formatPhoneNumber (JStr formatted) = Return (JStr formatted)
  /\ String.prefix "254" formatted = true
  /\ String.length formatted = 12%nat.
Proof.
  rewrite !formatPhoneNumber_normalize.
  destruct (normalize_phone phoneNumber) as [r|] eqn:E; [|discriminate].
  cbn [phone_result]. intros H. injection H as <-.
  destruct (normalize_phone_accepts _ _ E) as [Hlen Hall].
  pose proof (normalize_phone_prefix _ _ E) as Hp.
  rewrite (normalize_phone_fixed r Hlen Hall Hp). auto.
Qed.

(** A local number with separators. *)
Lemma formatPhoneNumber_idempotent_witness :
  MpesaService.formatPhoneNumber (JStr "0712-345 678")
  = Return (JStr "254712345678")
  /\ MpesaService.formatPhoneNumber (JStr "254712345678")
     = Return (JStr "254712345678").
Proof.
  split; [reflexivity|].
  exact (proj1 (formatPhoneNumber_idempotent "0712-345 678" "254712345678"
                  eq_refl)).
Defined.

Lemma cleanPhoneNumber_digits (d : string) :
  all_digits d = true ->
  d <> "" ->
  (String.prefix "0" d = false /\ String.prefix "7" d = false
   /\ String.prefix "1" d = false) ->
  sanitize.cleanPhoneNumber (JStr d) = Return (JStr d).
Proof.
  intros Hall Hne (H0 & H7 & H1).
  unfold sanitize.cleanPhoneNumber.
  destruct d as [|c d']; [contradiction|].
  change (truthy (JStr (String c d'))) with true.
  cbn [negb string_receiver obind].
  rewrite (strip_all_digits _ Hall).
  unfold startsWith. rewrite H0, H7, H1. reflexivity.
Qed.

(** X5.  [sanitize.cleanPhoneNumber] is idempotent on every string from
    which it gets at least one digit: cleaning its result again changes
    nothing.  When no digit is left, the result is the empty string, and
    cleaning that gives [null]. *)
Theorem cleanPhoneNumber_idempotent (phone cleaned : string) :
  sanitize.cleanPhoneNumber (JStr phone) = Return (JStr cleaned) ->
  all_digits cleaned = true
  /\ (cleaned <> "" ->
      sanitize.cleanPhoneNumber (JStr cleaned) = Return (JStr cleaned))
  /\ (cleaned = "" ->
      strip_non_digits phone = ""
      /\ sanitize.cleanPhoneNumber (JStr cleaned) = Return JNull).
Proof.
  unfold sanitize.cleanPhoneNumber at 1.
  destruct phone as [|a phone']; [cbn; discriminate|].
  change (truthy (JStr (String a phone'))) with true.
  cbn [negb string_receiver obind].
  pose proof (all_digits_strip (String a phone')) as Hall.
  remember (strip_non_digits (String a phone')) as d eqn:Hd. clear Hd.
  destruct d as [|x d'].
  - cbn. intros H. injection H as <-.
    split; [reflexivity|]. split; [congruence|]. intros _. split; reflexivity.
  - cbn [all_digits] in Hall. apply andb_true_iff in Hall.
    destruct Hall as [Hx Hd'].
    assert (Hgoal : forall r : string,
               all_digits r = true -> r <> "" ->
               (String.prefix "0" r = false /\ String.prefix "7" r = false
                /\ String.prefix "1" r = false) ->
               Return (JStr r) = Return (JStr cleaned) ->
               all_digits cleaned = true
               /\ (cleaned <> "" ->
                   sanitize.cleanPhoneNumber (JStr cleaned) = Return (JStr cleaned))
               /\ (cleaned = "" ->
                   String x d' = ""
                   /\ sanitize.cleanPhoneNumber (JStr cleaned) = Return JNull)).
    { intros r Hr Hne Hp H. injection H as <-.
      split; [exact Hr|]. split; [|contradiction].
      intros _. apply cleanPhoneNumber_digits; assumption. }
    destruct (is_digit_cases x Hx)
      as [E|[E|[E|[E|[E|[E|[E|[E|[E|E]]]]]]]]]; subst x;
      cbv [startsWith substring1]; cbn [String.prefix Ascii.ascii_dec];
      rewrite ?prefix_nil; cbn -[sanitize.cleanPhoneNumber all_digits append];
      apply Hgoal;
      try (cbn; exact Hd');
      try discriminate;
      try (cbn; rewrite ?prefix_nil; auto).
Qed.

(** A local number, and a text without a digit. *)
Lemma cleanPhoneNumber_idempotent_witness :
  sanitize.cleanPhoneNumber (JStr "254712345678") = Return (JStr "254712345678")
  /\ sanitize.cleanPhoneNumber (JStr "") = Return JNull.
Proof.
  split.
  - apply (proj1 (proj2 (cleanPhoneNumber_idempotent "0712 345 678"
                           "254712345678" eq_refl))).
    discriminate.
  - apply (proj2 (proj2 (cleanPhoneNumber_idempotent "n/a" "" eq_refl))).
    reflexivity.
Defined.

(** *** The token cache *)

Lemma after_requests_refl (s : System) : after_requests s s [] [].
Proof. unfold after_requests. rewrite !app_nil_r. repeat split. Qed.

Lemma after_requests_trans (s1 s2 s3 : System) (r1 r2 : list Request)
  (l1 l2 : list string) :
  after_requests s1 s2 r1 l1 -> after_requests s2 s3 r2 l2 ->
  after_requests s1 s3 (r1 ++ r2) (l1 ++ l2).
Proof.
  unfold after_requests.
  intros (A1 & A2 & A3 & A4 & A5 & A6 & A7 & A8 & A9 & A10)
         (B1 & B2 & B3 & B4 & B5 & B6 & B7 & B8 & B9 & B10).
  rewrite !app_assoc, <- A3, <- A4. repeat split; congruence.
Qed.

Lemma generateAccessToken_sends (w : World) (s s' : System) (o : outcome jsval) :
  MpesaService.generateAccessToken w s = (o, s') ->
  exists reqs lines,
    after_requests s s' reqs lines
    /\ (reqs = [] \/ reqs = [token_request (mpesaService s)])
    /\ (forall token, o = Return token ->
        lines = []
        /\ (reqs = [] ->
            s' = s /\ token = accessToken (mpesaService s)
            /\ truthy token = true
            /\ exists expiry, tokenExpiry (mpesaService s) = Some expiry
                              /\ now w < expiry)
        /\ (reqs <> [] ->
            accessToken (mpesaService s') = token
            /\ tokenExpiry (mpesaService s') = Some (now w + 3300000))).
Proof.
  unfold MpesaService.generateAccessToken, try_catch, bind, this, ret, lift,
    set_this, throw, console_write, await_axios.
  destruct (truthy (accessToken (mpesaService s))) eqn:Htok; cbn [andb].
  2:{ destruct (axios w _) as [data|e] eqn:Hnet.
      - destruct (member data "access_token") as [token|e] eqn:Hm;
          intros H; inversion H; subst; clear H;
          eexists; eexists;
          (split; [unfold after_requests; cbn; repeat split; try reflexivity;
                   rewrite ?app_nil_r; reflexivity|]);
          (split; [right; reflexivity|]); intros t Ht; inversion Ht; subst.
        split; [reflexivity|]. split; [discriminate|].
        intros _. split; reflexivity.
      - intros H; inversion H; subst; clear H.
        eexists; eexists.
        split; [unfold after_requests; cbn; repeat split; reflexivity|].
        split; [right; reflexivity|]. intros t Ht. discriminate Ht. }
  destruct (tokenExpiry (mpesaService s)) as [expiry|] eqn:Hexp.
  - destruct (now w <? expiry) eqn:Hnow.
    + intros H; inversion H; subst; clear H.
      exists [], []. split; [apply after_requests_refl|].
      split; [left; reflexivity|]. intros t Ht. inversion Ht; subst.
      split; [reflexivity|]. split; [|congruence].
      intros _. repeat split; try assumption.
      exists expiry. split; [reflexivity|]. apply Z.ltb_lt. exact Hnow.
    + destruct (axios w _) as [data|e] eqn:Hnet.
      * destruct (member data "access_token") as [token|e] eqn:Hm;
          intros H; inversion H; subst; clear H;
          eexists; eexists;
          (split; [unfold after_requests; cbn; repeat split; try reflexivity;
                   rewrite ?app_nil_r; reflexivity|]);
          (split; [right; reflexivity|]); intros t Ht; inversion Ht; subst.
        split; [reflexivity|]. split; [discriminate|].
        intros _. split; reflexivity.
      * intros H; inversion H; subst; clear H.
        eexists; eexists.
        split; [unfold after_requests; cbn; repeat split; reflexivity|].
        split; [right; reflexivity|]. intros t Ht. discriminate Ht.
  - destruct (axios w _) as [data|e] eqn:Hnet.
    + destruct (member data "access_token") as [token|e] eqn:Hm;
        intros H; inversion H; subst; clear H;
        eexists; eexists;
        (split; [unfold after_requests; cbn; repeat split; try reflexivity;
                 rewrite ?app_nil_r; reflexivity|]);
        (split; [right; reflexivity|]); intros t Ht; inversion Ht; subst.
      split; [reflexivity|]. split; [discriminate|].
      intros _. split; reflexivity.
    + intros H; inversion H; subst; clear H.
      eexists; eexists.
      split; [unfold after_requests; cbn; repeat split; reflexivity|].
      split; [right; reflexivity|]. intros t Ht. discriminate Ht.
Qed.

(** X6.  A token that [generateAccessToken] has returned is kept and used
    again: as long as the clock is before the expiry stored with it (55
    minutes after the request that fetched it), the next call returns the
    same token, sends no request and changes nothing.  A call sends at most
    one request, and none when it answers from the cache. *)
Theorem access_token_reused (w : World) (sys sys1 : System) (token : jsval) :
  MpesaService.generateAccessToken w sys = (Return token, sys1) ->
  truthy token = true ->
  exists expiry : Z,
    accessToken (mpesaService sys1) = token
    /\ tokenExpiry (mpesaService sys1) = Some expiry
    /\ now w < expiry
    /\ (sent sys1 = sent sys
        \/ (sent sys1 = (sent sys ++ [token_request (mpesaService sys)])%list
            /\ expiry = now w + 55 * 60 * 1000))
    /\ forall w' : World,
         now w' < expiry ->
         MpesaService.generateAccessToken w' sys1 = (Return token, sys1).
Proof.
  intros Hrun Htruthy.
  destruct (generateAccessToken_sends _ _ _ _ Hrun)
    as (reqs & lines & Hafter & Hreqs & Hret).
  destruct (Hret token eq_refl) as (_ & Hcached & Hfetched).
  destruct Hafter as (_ & _ & Hsent & _).
  destruct Hreqs as [->| ->].
  - destruct (Hcached eq_refl) as (-> & -> & _ & expiry & Hexp & Hnow).
    exists expiry. repeat split; try assumption.
    + left. reflexivity.
    + intros w' Hw'. apply generateAccessToken_cached with (expiry := expiry);
        assumption.
  - destruct (Hfetched ltac:(discriminate)) as (Htok & Hexp).
    exists (now w + 3300000). repeat split; try assumption.
    + lia.
    + right. split; [exact Hsent | reflexivity].
    + intros w' Hw'. rewrite <- Htok.
      apply generateAccessToken_cached with (expiry := now w + 3300000);
        [rewrite Htok; exact Htruthy | exact Hexp | exact Hw'].
Qed.

(** The cache of a fresh client is empty: the first call fetches a token,
    the second one answers from the cache. *)
Lemma access_token_reused_witness :
  exists sys1 : System,
    MpesaService.generateAccessToken demo_world
      (demo_system (demo_transaction PENDING None))
    = (Return (JStr "token-1"), sys1)
    /\ List.length (sent sys1) = 1%nat
    /\ MpesaService.generateAccessToken demo_world sys1
       = (Return (JStr "token-1"), sys1).
Proof.
  eexists. split; [reflexivity|]. split; [reflexivity|].
  destruct (access_token_reused demo_world
              (demo_system (demo_transaction PENDING None)) _
              (JStr "token-1") eq_refl eq_refl)
    as (expiry & _ & Hexp & _ & _ & Hnext).
  apply Hnext. injection Hexp as <-. reflexivity.
Defined.

(** *** The STK push request *)

Lemma after_console (s : System) (line : string) :
  after_requests s
    {| db_transactions := db_transactions s;
       db_matatus := db_matatus s;
       mpesaService := mpesaService s;
       console := console s ++ [line];
       sent := sent s |} [] [line].
Proof. unfold after_requests. cbn. rewrite app_nil_r. repeat split. Qed.

Lemma after_axios (s : System) (req : Request) :
  after_requests s
    {| db_transactions := db_transactions s;
       db_matatus := db_matatus s;
       mpesaService := mpesaService s;
       console := console s;
       sent := sent s ++ [req] |} [req] [].
Proof. unfold after_requests. cbn. rewrite app_nil_r. repeat split. Qed.

Lemma stkPush_sends (w : World) (phoneNumber : jsval) (amount : Z)
  (accountReference transactionDesc : string) (s s' : System)
  (o : outcome GatewayResult) :
  MpesaService.stkPush w phoneNumber amount accountReference transactionDesc s
  = (o, s') ->
  exists (r : GatewayResult) (reqs : list Request) (lines : list string),
    o = Return r
    /\ after_requests s s' reqs lines
    /\ ((reqs = [] \/ reqs = [token_request (mpesaService s)])
        \/ exists push,
             is_stk_push (mpesaService s) amount accountReference push
             /\ (reqs = [push] \/ reqs = [token_request (mpesaService s); push]))
    /\ match r with
       | Success _ =>
           lines = []
           /\ (exists phone, phoneNumber = JStr phone)
           /\ exists push,
                is_stk_push (mpesaService s) amount accountReference push
                /\ (reqs = [push]
                    \/ reqs = [token_request (mpesaService s); push])
       | Failure _ _ => lines <> []
       end.
Proof.
  unfold MpesaService.stkPush.
  unfold try_catch at 1. unfold bind at 1.
  destruct (MpesaService.generateAccessToken w s) as [[token|e] s1] eqn:Hg;
    destruct (generateAccessToken_sends _ _ _ _ Hg)
      as (reqs & lines & Hafter & Hreqs & Hret).
  2:{ unfold bind, console_write, ret. intros H. inversion H; subst; clear H.
      eexists. exists (reqs ++ [])%list. eexists.
      split; [reflexivity|].
      split; [eapply after_requests_trans;
              [exact Hafter | refine (after_console _ _)]|].
      rewrite app_nil_r. split; [left; exact Hreqs|].
      unfold MpesaService.failure. intros Hl.
      apply app_eq_nil in Hl. destruct Hl as [_ Hl]. discriminate Hl. }
  destruct (Hret token eq_refl) as (-> & _). clear Hret.
  unfold bind, this, lift, ret, await_axios, console_write,
    MpesaService.generatePassword.
  destruct (string_receiver phoneNumber "startsWith") as [phone|e] eqn:Hphone.
  2:{ intros H. inversion H; subst; clear H.
      eexists. exists (reqs ++ [])%list. eexists.
      split; [reflexivity|].
      split; [eapply after_requests_trans;
              [exact Hafter | refine (after_console _ _)]|].
      rewrite app_nil_r. split; [left; exact Hreqs|].
      unfold MpesaService.failure. cbn. discriminate. }
  match goal with |- context [axios w ?req] => set (push := req) in * end.
  assert (Hpush : is_stk_push (mpesaService s) amount accountReference push).
  { destruct Hafter as (_ & _ & _ & _ & _ & _ & Hshort & _ & _ & Hbase).
    subst push. unfold is_stk_push. cbn. rewrite Hshort, Hbase.
    repeat split.
    eexists. split; [reflexivity|]. split; [reflexivity|].
    unfold startsWith. destruct (String.prefix "254" phone) eqn:Hp;
      [exact Hp | cbn; rewrite ?prefix_nil; reflexivity]. }
  assert (Hshape : (reqs ++ [push] = [push]
                    \/ reqs ++ [push] = [token_request (mpesaService s); push])%list)
    by (destruct Hreqs as [->| ->]; [left|right]; reflexivity).
  assert (Hstr : exists p, phoneNumber = JStr p).
  { destruct phoneNumber; try discriminate Hphone. eexists. reflexivity. }
  clearbody push.
  destruct (axios w push) as [data|e].
  - destruct (pick data _) as [fields|e];
      intros H; inversion H; subst; clear H.
    + eexists. exists (reqs ++ [push])%list. exists ([] ++ [])%list.
      split; [reflexivity|].
      split; [eapply after_requests_trans; [exact Hafter | apply after_axios]|].
      split; [right; eauto|]. split; [reflexivity|]. split; [exact Hstr|]. eauto.
    + eexists. exists (reqs ++ [push] ++ [])%list. eexists.
      split; [reflexivity|].
      split; [eapply after_requests_trans; [exact Hafter|];
              eapply after_requests_trans;
              [apply after_axios | refine (after_console _ _)]|].
      rewrite app_nil_r. split; [right; eauto|].
      unfold MpesaService.failure. cbn. discriminate.
  - intros H; inversion H; subst; clear H.
    eexists. exists (reqs ++ [push] ++ [])%list. eexists.
    split; [reflexivity|].
    split; [eapply after_requests_trans; [exact Hafter|];
            eapply after_requests_trans;
            [apply after_axios | refine (after_console _ _)]|].
    rewrite app_nil_r. split; [right; eauto|].
    unfold MpesaService.failure. cbn. discriminate.
Qed.

(** X7.  One call of [stkPush] sends at most one STK push, after at most one
    request for a token, and touches no table.  The push, when sent, is for
    exactly the amount and the account reference given, names the short code
    as receiver, and carries one phone number, starting with 254, as both
    payer and phone.  A success is returned only after the push was sent,
    and only for a phone number that is a string. *)
Theorem stkPush_sends_one_push (w : World) (phoneNumber : jsval) (amount : Z)
  (accountReference transactionDesc : string) (sys sys' : System)
  (o : outcome GatewayResult) :
  MpesaService.stkPush w phoneNumber amount accountReference transactionDesc sys
  = (o, sys') ->
  exists (r : GatewayResult) (requests : list Request),
    o = Return r
    /\ db_transactions sys' = db_transactions sys
    /\ db_matatus sys' = db_matatus sys
    /\ sent sys' = (sent sys ++ requests)%list
    /\ ((requests = [] \/ requests = [token_request (mpesaService sys)])
        \/ exists push : Request,
             is_stk_push (mpesaService sys) amount accountReference push
             /\ (requests = [push]
                 \/ requests = [token_request (mpesaService sys); push]))
    /\ (success r = true ->
        (exists phone : string, phoneNumber = JStr phone)
        /\ exists push : Request,
             is_stk_push (mpesaService sys) amount accountReference push
             /\ (requests = [push]
                 \/ requests = [token_request (mpesaService sys); push])).
Proof.
  intros Hrun.
  destruct (stkPush_sends _ _ _ _ _ _ _ _ Hrun)
    as (r & reqs & lines & -> & Hafter & Hreqs & Hr).
  destruct Hafter as (Hts & Hms & Hsent & _).
  exists r, reqs.
  split; [reflexivity|]. split; [exact Hts|]. split; [exact Hms|].
  split; [exact Hsent|]. split; [exact Hreqs|].
  destruct r; [|discriminate]. intros _. tauto.
Qed.

(** A push of 102 shillings from a fresh client: the token request, then
    the push. *)
Lemma stkPush_sends_one_push_witness :
  exists (token push : Request) (sys' : System) (r : GatewayResult),
    MpesaService.stkPush demo_world (JStr "0712345678") 102
      "MOBI1703012345ABCD" "MOBIPAY Payment - Matatu 3025"
      (demo_system (demo_transaction PENDING None)) = (Return r, sys')
    /\ sent sys' = [token; push]
    /\ prop (req_data push) "Amount" = JNum 102
    /\ prop (req_data push) "PhoneNumber" = JStr "254712345678".
Proof.
  set (run := MpesaService.stkPush demo_world (JStr "0712345678") 102
                "MOBI1703012345ABCD" "MOBIPAY Payment - Matatu 3025"
                (demo_system (demo_transaction PENDING None))).
  destruct (stkPush_sends_one_push demo_world (JStr "0712345678") 102
              "MOBI1703012345ABCD" "MOBIPAY Payment - Matatu 3025"
              (demo_system (demo_transaction PENDING None))
              (snd run) (fst run) (surjective_pairing run))
    as (r & requests & Hr & _).
  eexists. eexists. exists (snd run), r.
  split; [rewrite <- Hr; apply surjective_pairing|].
  split; [reflexivity|]. split; reflexivity.
Defined.

(** *** System settings *)

Lemma find_filter {A : Type} (p f : A -> bool) (l : list A) :
  (forall x, p x = true -> f x = true) ->
  find p (filter f l) = find p l.
Proof.
  intros Hpf. induction l as [|x l IH]; [reflexivity|].
  cbn [filter find]. destruct (f x) eqn:Hf.
  - cbn [find]. rewrite IH. reflexivity.
  - destruct (p x) eqn:Hp; [|exact IH].
    rewrite (Hpf x Hp) in Hf. discriminate Hf.
Qed.

Lemma setting_selected (rows : list system_settings.row) (key : string) :
  (key = "developer_percentage" \/ key = "min_amount") ->
  moneySplitter.setting
    (filter (fun r =>
               (system_settings.setting_key r =? "developer_percentage")%string
               || (system_settings.setting_key r =? "min_amount")%string) rows)
    key
  = moneySplitter.setting rows key.
Proof.
  intros Hkey. unfold moneySplitter.setting.
  rewrite <- filter_rev. rewrite find_filter; [reflexivity|].
  intros x Hx. apply String.eqb_eq in Hx. rewrite Hx.
  destruct Hkey as [->| ->]; reflexivity.
Qed.

Lemma developerPercentage_configured (d : Directory) :
  Settings.developerPercentage (moneySplitter.getSystemSettings d)
  = match parseFloat (ToString (configured d "developer_percentage")) with
    | NaN => Percent 10
    | Num q => if Qeq_bool q 0 then Percent 10 else Percent q
    | Infinity negative => Unbounded negative
    end.
Proof.
  unfold moneySplitter.getSystemSettings, configured.
  cbn [Settings.developerPercentage].
  rewrite setting_selected by (left; reflexivity). reflexivity.
Qed.

Lemma minAmount_configured (d : Directory) :
  Settings.minAmount (moneySplitter.getSystemSettings d)
  = match parseInt (ToString (configured d "min_amount")) with
    | None => 50
    | Some n => if n =? 0 then 50 else n
    end.
Proof.
  unfold moneySplitter.getSystemSettings, configured.
  cbn [Settings.minAmount].
  rewrite setting_selected by (right; reflexivity). reflexivity.
Qed.

(** X8.  The settings that [getSystemSettings] gives never hold a developer
    percentage of zero nor a minimum amount of zero: a stored text whose
    number is zero, one that is no number, and a missing row all give the
    defaults, 10 and 50.  A whole percentage from 1 to 100, stored in
    decimal, is taken as written. *)
Theorem settings_never_zero (d : Directory) :
  nonzero_percentage
    (Settings.developerPercentage (moneySplitter.getSystemSettings d))
  /\ Settings.minAmount (moneySplitter.getSystemSettings d) <> 0
  /\ (configured d "developer_percentage" = JUndefined
      \/ configured d "developer_percentage" = JStr "0"
      \/ configured d "developer_percentage" = JStr "0.0"
      \/ configured d "developer_percentage" = JStr ""
      \/ configured d "developer_percentage" = JStr "ten" ->
      Settings.developerPercentage (moneySplitter.getSystemSettings d)
      = Percent 10)
  /\ (configured d "min_amount" = JUndefined
      \/ configured d "min_amount" = JStr "0"
      \/ configured d "min_amount" = JStr "" ->
      Settings.minAmount (moneySplitter.getSystemSettings d) = 50)
  /\ (forall n : Z,
        1 <= n <= 100 ->
        configured d "developer_percentage" = JStr (decimal n) ->
        Settings.developerPercentage (moneySplitter.getSystemSettings d)
        = Percent (inject_Z n)).
Proof.
  rewrite developerPercentage_configured, minAmount_configured.
  split; [|split; [|split; [|split]]].
  - destruct (parseFloat _) as [| |q]; cbn; try discriminate; try exact I.
    destruct (Qeq_bool q 0) eqn:Hq; cbn; [discriminate|].
    intros H. apply Qeq_bool_iff in H. congruence.
  - destruct (parseInt _) as [n|]; [|discriminate].
    destruct (Z.eqb_spec n 0); [discriminate | assumption].
  - intros [->|[->|[->|[->| ->]]]]; vm_compute; reflexivity.
  - intros [->|[->| ->]]; vm_compute; reflexivity.
  - intros n Hn ->. cbn [ToString].
    assert (Hall : Binary64.for_range 100 1 whole_percentage_read = true)
      by (vm_compute; reflexivity).
    pose proof (for_range_spec _ _ _ Hall n ltac:(lia)) as Hread.
    unfold whole_percentage_read in Hread.
    destruct (parseFloat (decimal n)) as [| |[qn qd]]; try discriminate Hread.
    destruct (Qeq_bool (qn # qd) 0); [discriminate Hread|].
    cbn [Qnum Qden andb negb] in Hread.
    destruct (Z.eqb_spec qn n); [|discriminate Hread].
    destruct (Z.eqb_spec (Z.pos qd) 1) as [E|]; [|discriminate Hread].
    injection E as ->. subst qn. reflexivity.
Qed.

(** *** The split of a transaction *)

Lemma calculateSplit_in_range (charge : Z) (p : Percentage) :
  (charge < 1
   /\ moneySplitter.calculateSplit charge p = Throw MoneySplitter.charge_error)
  \/ (1 <= charge /\ ~ in_range p
      /\ moneySplitter.calculateSplit charge p
         = Throw MoneySplitter.percentage_error)
  \/ (1 <= charge /\ in_range p
      /\ exists r, moneySplitter.calculateSplit charge p = Return r
         /\ transactionCharge r = charge
         /\ ownerShare r + developerShare r = charge
         /\ 0 <= developerShare r
         /\ 0 <= ownerShare r
         /\ (1 < charge -> 1 <= ownerShare r)).
Proof.
  destruct p as [q|negative]; cbn [moneySplitter.calculateSplit in_range].
  - destruct (calculateSplit_cases charge q)
      as [(Hc & E)|[(Hc & Hq & E)|(Hc & H0 & H100 & r & E & Ht & Hd & Ho)]].
    + left. auto.
    + right. left. split; [exact Hc|]. split; [|exact E].
      intros [A B]. destruct Hq as [Hq|Hq].
      * apply (Qlt_not_le _ _ Hq). exact A.
      * apply (Qlt_not_le _ _ Hq). exact B.
    + right. right. split; [exact Hc|]. split; [split; assumption|].
      exists r. split; [exact E|]. split; [exact Ht|].
      pose proof (uncorrected_developerShare_bounds charge q ltac:(lia) H0 H100)
        as B.
      rewrite Ho, Hd.
      destruct ((charge - uncorrected_developerShare charge q <? 1)
                && (1 <? charge)) eqn:Hfix.
      * apply andb_true_iff in Hfix. destruct Hfix as [Hlt Hgt].
        apply Z.ltb_lt in Hlt. apply Z.ltb_lt in Hgt. lia.
      * apply andb_false_iff in Hfix.
        destruct Hfix as [Hge|Hle];
          [apply Z.ltb_ge in Hge | apply Z.ltb_ge in Hle]; lia.
  - destruct (Z.ltb_spec charge 1).
    + left. auto.
    + right. left. split; [assumption|]. split; [tauto | reflexivity].
Qed.

(** [executeSplit] step by step: it returns, leaves the system as it was,
    and fails at the first of the owner lookup, the developer lookup and the
    calculation that fails. *)
Lemma executeSplit_steps (h : Host) (d : Directory) (matatuCode : jsval)
  (fareAmount transactionCharge : Z) (s : System) :
  exists r : SplitResult,
    moneySplitter.executeSplit h d matatuCode fareAmount transactionCharge s
    = (Return r, s)
    /\ match owner_account d s matatuCode with
       | None => r = NotExecuted "Matatu owner account not found or inactive"
       | Some (m, a) =>
           match developer_account d with
           | None => r = NotExecuted "Developer account not found or inactive"
           | Some dev =>
               match moneySplitter.calculateSplit transactionCharge
                       (Settings.developerPercentage
                          (moneySplitter.getSystemSettings d)) with
               | Throw e => r = NotExecuted (message e)
               | Return split =>
                   r = Executed (split_execution h matatuCode fareAmount
                                   transactionCharge m a dev split)
                   /\ moneySplitter.totalSplit split = transactionCharge
               end
           end
       end.
Proof.
  unfold moneySplitter.executeSplit, moneySplitter.getMatatuOwnerAccount,
    moneySplitter.getDeveloperAccount, owner_account, developer_account,
    try_catch, bind, get_system, throw, ret, lift.
  destruct (moneySplitter.owner_account_row _ _ _) as [[m a]|];
    [|eexists; split; reflexivity].
  destruct (find _ (db_accounts d)) as [dev|];
    [|eexists; split; reflexivity].
  destruct (calculateSplit_in_range transactionCharge
              (Settings.developerPercentage (moneySplitter.getSystemSettings d)))
    as [(_ & E)|[(_ & _ & E)|(_ & _ & r & E & Ht & _)]]; rewrite E;
    eexists; (split; [reflexivity|]); try reflexivity.
  unfold split_execution, moneySplitter.totalSplit.
  cbn [Account.accountNumber Account.accountName].
  rewrite Ht. split; reflexivity.
Qed.

(** X9.  [executeSplit] never throws and changes nothing.  It reports: the
    owner account not found or inactive, or the developer account not found
    or inactive (one of the two when both are missing); then a charge below
    1; then a configured percentage outside 0 to 100 (the infinities
    included); and otherwise it executes the split. *)
Theorem executeSplit_failures (h : Host) (d : Directory) (matatuCode : jsval)
  (fareAmount transactionCharge : Z) (sys : System) :
  exists r : SplitResult,
    moneySplitter.executeSplit h d matatuCode fareAmount transactionCharge sys
    = (Return r, sys)
    /\ (owner_account d sys matatuCode = None ->
        developer_account d <> None ->
        r = NotExecuted "Matatu owner account not found or inactive")
    /\ (owner_account d sys matatuCode = None ->
        developer_account d = None ->
        r = NotExecuted "Matatu owner account not found or inactive"
        \/ r = NotExecuted "Developer account not found or inactive")
    /\ (owner_account d sys matatuCode <> None ->
        developer_account d = None ->
        r = NotExecuted "Developer account not found or inactive")
    /\ (owner_account d sys matatuCode <> None ->
        developer_account d <> None ->
        transactionCharge < 1 ->
        r = NotExecuted "Transaction charge must be at least KSh 1")
    /\ (owner_account d sys matatuCode <> None ->
        developer_account d <> None ->
        1 <= transactionCharge ->
        ~ in_range (Settings.developerPercentage
                      (moneySplitter.getSystemSettings d)) ->
        r = NotExecuted "Developer percentage must be between 0 and 100")
    /\ (owner_account d sys matatuCode <> None ->
        developer_account d <> None ->
        1 <= transactionCharge ->
        in_range (Settings.developerPercentage
                    (moneySplitter.getSystemSettings d)) ->
        exists data, r = Executed data).
Proof.
  destruct (executeSplit_steps h d matatuCode fareAmount transactionCharge sys)
    as (r & Hrun & Hr).
  exists r. split; [exact Hrun|].
  destruct (owner_account d sys matatuCode) as [[m a]|].
  2:{ repeat split; intros; try congruence. left. exact Hr. }
  destruct (developer_account d) as [dev|].
  2:{ repeat split; intros; try congruence. }
  destruct (calculateSplit_in_range transactionCharge
              (Settings.developerPercentage (moneySplitter.getSystemSettings d)))
    as [(Hc & E)|[(Hc & Hp & E)|(Hc & Hp & split & E & _)]];
    rewrite E in Hr.
  - repeat split; intros; try congruence; try lia; exact Hr.
  - repeat split; intros; try congruence; try lia; try contradiction;
      exact Hr.
  - destruct Hr as [-> _].
    repeat split; intros; try congruence; try lia; try contradiction.
    eexists. reflexivity.
Qed.


(** *** The initiate route *)

Lemma string_rule_accepts (p : string -> bool) (key : string) (v : jsval) :
  schemas.string_rule p key v = None ->
  exists s, v = JStr s /\ p s = true.
Proof.
  unfold schemas.string_rule.
  destruct v as [| | | |s| |]; try discriminate.
  destruct (s =? "")%string; [discriminate|].
  destruct (p s) eqn:Hp; [|discriminate].
  intros _. exists s. auto.
Qed.

Lemma validatePaymentRequest_valid (code phone : jsval) (a : option Z) :
  isValid (validate.validatePaymentRequest (mkPaymentRequest code phone a)) = true ->
  exists (c p : string) (n : Z),
    code = JStr c /\ schemas.matatuCode_pattern c = true
    /\ phone = JStr p /\ schemas.phoneNumber_pattern p = true
    /\ a = Some n /\ 50 <= n <= 100000.
Proof.
  intros Hvalid.
  destruct (validatePaymentRequest_amount _ _ _ Hvalid) as (n & -> & Hn).
  revert Hvalid. unfold validate.validatePaymentRequest.
  cbn [matatu_code phone_number amount].
  destruct (schemas.matatuCode "matatu_code" code) eqn:Hc; [discriminate|].
  destruct (schemas.phoneNumber "phone_number" phone) eqn:Hp; [discriminate|].
  intros _.
  destruct (string_rule_accepts _ _ _ Hc) as (c & -> & Hcp).
  destruct (string_rule_accepts _ _ _ Hp) as (p & -> & Hpp).
  exists c, p, n. auto 10.
Qed.

(** The route up to the charge: it always returns; it sends nothing and
    writes to no table; it answers 400 or 500, or goes on with a matatu code
    and a phone number that match their patterns, an amount from 50 to
    100000, its charge and their sum, for a matatu that is active. *)
Lemma payment_initiate_quote_cases (req_body : jsval) (s s' : System)
  (o : outcome (Response + server.Quote)) :
  server.payment_initiate_quote req_body s = (o, s') ->
  exists (r : Response + server.Quote) (lines : list string),
    o = Return r
    /\ after_requests s s' [] lines
    /\ match r with
       | inl response =>
           http_status response = 400 \/ http_status response = 500
       | inr q =>
           s' = s
           /\ exists (c p : string) (n : Z) (m : matatus.row),
                q = server.mkQuote (JStr c) (JStr p) (Some n)
                      (Some (businessRules.calculateTransactionCharge n))
                      (Some (n + businessRules.calculateTransactionCharge n))
                /\ schemas.matatuCode_pattern c = true
                /\ schemas.phoneNumber_pattern p = true
                /\ 50 <= n <= 100000
                /\ SQL.active_matatu (db_matatus s) (JStr c) = Some m
       end.
Proof.
  unfold server.payment_initiate_quote, try_catch, bind, lift, ret,
    get_system, console_write.
  assert (Hcaught : forall (resp : Response) (line : string),
             http_status resp = 500 ->
             exists (r : Response + server.Quote) (lines : list string),
               Return (inl resp) = Return r
               /\ after_requests s
                    {| db_transactions := db_transactions s;
                       db_matatus := db_matatus s;
                       mpesaService := mpesaService s;
                       console := console s ++ [line];
                       sent := sent s |} [] lines
               /\ match r with
                  | inl response =>
                      http_status response = 400 \/ http_status response = 500
                  | inr q =>
                      {| db_transactions := db_transactions s;
                         db_matatus := db_matatus s;
                         mpesaService := mpesaService s;
                         console := console s ++ [line];
                         sent := sent s |} = s
                      /\ exists (c p : string) (n : Z) (m : matatus.row),
                           q = server.mkQuote (JStr c) (JStr p) (Some n)
                                 (Some (businessRules.calculateTransactionCharge n))
                                 (Some (n + businessRules.calculateTransactionCharge n))
                           /\ schemas.matatuCode_pattern c = true
                           /\ schemas.phoneNumber_pattern p = true
                           /\ 50 <= n <= 100000
                           /\ SQL.active_matatu (db_matatus s) (JStr c) = Some m
                  end).
  { intros resp line Hresp. eexists. eexists. split; [reflexivity|].
    split; [refine (after_console _ _)|]. right. exact Hresp. }
  destruct (member req_body "matatu_code") as [code|e];
    [|intros H; inversion H; subst; apply Hcaught; reflexivity].
  destruct (sanitize.cleanMatatuCode code) as [cm|e];
    [|intros H; inversion H; subst; apply Hcaught; reflexivity].
  destruct (sanitize.cleanPhoneNumber (prop req_body "phone_number")) as [cp|e];
    [|intros H; inversion H; subst; apply Hcaught; reflexivity].
  destruct (isValid (validate.validatePaymentRequest
                       (mkPaymentRequest cm cp
                          (sanitize.cleanAmount (prop req_body "amount")))))
    eqn:Hvalid; cbn [negb].
  2:{ intros H; inversion H; subst. eexists. eexists. split; [reflexivity|].
      split; [apply after_requests_refl|]. left. reflexivity. }
  destruct (validatePaymentRequest_valid _ _ _ Hvalid)
    as (c & p & n & -> & Hc & -> & Hp & Ha & Hn).
  rewrite Ha. cbn [option_map server.plus].
  destruct (SQL.active_matatu (db_matatus s) (JStr c)) as [m|] eqn:Hm;
    intros H; inversion H; subst; eexists; eexists;
    (split; [reflexivity|]); (split; [apply after_requests_refl|]).
  - split; [reflexivity|]. exists c, p, n, m. auto 10.
  - left. reflexivity.
Qed.

Lemma update_shares_absent (o dv : Z) (now id : string)
  (ts : list transactions.row) :
  stored ts id = None -> moneySplitter.update_shares o dv now id ts = ts.
Proof.
  unfold stored, moneySplitter.update_shares.
  induction ts as [|t ts IH]; [reflexivity|].
  cbn [find map].
  destruct (transactions.transaction_id t =? id)%string; [discriminate|].
  intros H. rewrite (IH H). reflexivity.
Qed.

Lemma existsb_stored (ts : list transactions.row) (id : string) :
  existsb (fun t => (transactions.transaction_id t =? id)%string) ts = false ->
  stored ts id = None.
Proof.
  unfold stored. induction ts as [|t ts IH]; [reflexivity|].
  cbn [existsb find].
  destruct (transactions.transaction_id t =? id)%string; [discriminate|].
  exact IH.
Qed.

Lemma stored_existsb (ts : list transactions.row) (id : string) :
  existsb (fun t => (transactions.transaction_id t =? id)%string) ts = true ->
  stored ts id <> None.
Proof.
  unfold stored. induction ts as [|t ts IH]; [discriminate|].
  cbn [existsb find].
  destruct (transactions.transaction_id t =? id)%string; [discriminate|].
  exact IH.
Qed.

Lemma stored_appended (ts : list transactions.row) (row : transactions.row) :
  stored ts (transactions.transaction_id row) = None ->
  stored (ts ++ [row]) (transactions.transaction_id row) = Some row.
Proof.
  unfold stored. induction ts as [|t ts IH].
  - intros _. cbn. rewrite String.eqb_refl. reflexivity.
  - cbn [find app].
    destruct (transactions.transaction_id t =? transactions.transaction_id row)%string;
      [discriminate | exact IH].
Qed.

(** The route from the charge on, for a matatu code and a phone number that
    are strings: it always answers, with 500 and the table of transactions
    as it was, or with 200 and one row more. *)
Lemma payment_initiate_charged_cases (w : World) (h : Host) (d : Directory)
  (code phone : string) (amount charge total : Z) (s s' : System)
  (o : outcome Response) :
  app.payment_initiate_charged w h d (JStr code) (JStr phone) amount charge
    total s = (o, s') ->
  exists (resp : Response) (reqs : list Request),
    o = Return resp
    /\ db_matatus s' = db_matatus s
    /\ sent s' = (sent s ++ reqs)%list
    /\ ((http_status resp = 500
         /\ db_transactions s' = db_transactions s
         /\ ((exists data, fst (moneySplitter.executeSplit h d (JStr code) amount
                                  charge s) = Return (Executed data))
             \/ reqs = []))
        \/ (exists (data : SplitExecution.t) (pushed : jsval) (push : Request),
              moneySplitter.executeSplit h d (JStr code) amount charge s
              = (Return (Executed data), s)
              /\ is_stk_push (mpesaService s) total (app.new_transactionId h) push
              /\ (reqs = [push] \/ reqs = [token_request (mpesaService s); push])
              /\ stored (db_transactions s) (app.new_transactionId h) = None
              /\ db_transactions s'
                 = (db_transactions s
                    ++ [pending_row w h code phone amount charge total data pushed])%list
              /\ resp = {| http_status := 200;
                           body :=
                             JObj [("success", JBool true);
                                   ("message", JStr "Payment initiated successfully");
                                   ("data", initiated h code phone amount charge
                                              total data pushed)] |})).
Proof.
  unfold app.payment_initiate_charged.
  unfold try_catch at 1. unfold bind at 1.
  destruct (executeSplit_steps h d (JStr code) amount charge s)
    as (r & Hsplit & _).
  rewrite Hsplit. destruct r as [data|error].
  2:{ unfold ret. intros H. inversion H; subst; clear H.
      eexists. exists []. split; [reflexivity|].
      split; [reflexivity|]. split; [rewrite app_nil_r; reflexivity|].
      left. split; [reflexivity|]. split; [reflexivity|]. right. reflexivity. }
  unfold bind at 1.
  destruct (MpesaService.stkPush w (JStr phone) total (app.new_transactionId h) _ s)
    as [o1 s1] eqn:Hpush.
  destruct (stkPush_sends _ _ _ _ _ _ _ _ Hpush)
    as (g & reqs & lines & -> & Hafter & Hreqs & Hg).
  destruct Hafter as (Hts & Hms & Hsent & _).
  destruct g as [pushed|error errorCode].
  2:{ unfold ret. intros H. inversion H; subst; clear H.
      eexists. exists reqs. split; [reflexivity|].
      split; [exact Hms|]. split; [exact Hsent|].
      left. split; [reflexivity|]. split; [exact Hts|].
      left. exists data. reflexivity. }
  destruct Hg as (_ & _ & push & Hpushed & Hshape).
  unfold app.logTransaction, moneySplitter.logSplitExecution, bind,
    get_system, lift, set_transactions, ret, console_write.
  unfold app.insert_transaction.
  cbn [SQL.text ToString TransactionData.matatuCode TransactionData.phoneNumber
       TransactionData.transactionId].
  destruct (existsb _ (db_transactions s1)) eqn:Hfresh.
  - intros H. inversion H; subst; clear H.
    eexists. exists reqs. split; [reflexivity|].
    split; [exact Hms|]. split; [exact Hsent|].
    left. split; [reflexivity|]. split; [exact Hts|].
    left. exists data. reflexivity.
  - intros H. inversion H; subst; clear H.
    cbn [db_transactions db_matatus sent].
    apply existsb_stored in Hfresh.
    eexists. exists reqs. split; [reflexivity|].
    split; [exact Hms|]. split; [exact Hsent|].
    right. exists data, pushed, push.
    split; [reflexivity|]. split; [exact Hpushed|]. split; [exact Hshape|].
    rewrite Hts in Hfresh. split; [exact Hfresh|].
    split; [|reflexivity].
    unfold moneySplitter.update_shares. rewrite map_app.
    fold (moneySplitter.update_shares
            (Share.shareAmount (SplitExecution.owner data))
            (Share.shareAmount (SplitExecution.developer data))
            (CURRENT_TIMESTAMP w) (app.new_transactionId h) (db_transactions s1)).
    rewrite update_shares_absent by (rewrite Hts; exact Hfresh).
    rewrite Hts. cbn [map]. unfold pending_row.
    cbn [transactions.transaction_id TransactionData.transactionId].
    rewrite String.eqb_refl. reflexivity.
Qed.

(** What an executed split says about the shares and about the directory. *)
Lemma executed_split (h : Host) (d : Directory) (matatuCode : jsval)
  (fareAmount charge : Z) (s s' : System) (data : SplitExecution.t) :
  moneySplitter.executeSplit h d matatuCode fareAmount charge s
  = (Return (Executed data), s') ->
  Share.shareAmount (SplitExecution.owner data)
  + Share.shareAmount (SplitExecution.developer data) = charge
  /\ 0 <= Share.shareAmount (SplitExecution.developer data)
  /\ 0 <= Share.shareAmount (SplitExecution.owner data)
  /\ (1 < charge -> 1 <= Share.shareAmount (SplitExecution.owner data))
  /\ in_range (Settings.developerPercentage (moneySplitter.getSystemSettings d))
  /\ owner_account d s matatuCode <> None
  /\ developer_account d <> None.
Proof.
  intros Hrun.
  destruct (executeSplit_steps h d matatuCode fareAmount charge s)
    as (r & Hrun' & Hr).
  rewrite Hrun in Hrun'. injection Hrun' as <- _.
  destruct (owner_account d s matatuCode) as [[m a]|]; [|discriminate Hr].
  destruct (developer_account d) as [dev|]; [|discriminate Hr].
  destruct (calculateSplit_in_range charge
              (Settings.developerPercentage (moneySplitter.getSystemSettings d)))
    as [(Hc & E)|[(Hc & Hp & E)|(Hc & Hp & split & E & Ht & Hsum & Hd & Ho & Hmin)]];
    rewrite E in Hr; try discriminate Hr.
  destruct Hr as [Hr _]. injection Hr as ->.
  unfold split_execution.
  cbn [SplitExecution.owner SplitExecution.developer Share.shareAmount].
  repeat (split; [first [assumption | discriminate]|]). discriminate.
Qed.

(** The whole route: it always answers; without a 200 the table of
    transactions is as it was; with a 200 it has one row more. *)
Lemma payment_initiate_cases (w : World) (h : Host) (d : Directory)
  (req_body : jsval) (s s' : System) (o : outcome Response) :
  app.payment_initiate w h d req_body s = (o, s') ->
  exists (resp : Response) (reqs : list Request),
    o = Return resp
    /\ db_matatus s' = db_matatus s
    /\ sent s' = (sent s ++ reqs)%list
    /\ ((db_transactions s' = db_transactions s
         /\ ((http_status resp = 400 /\ reqs = [])
             \/ (http_status resp = 500
                 /\ ((exists c n data,
                        fst (moneySplitter.executeSplit h d (JStr c) n
                               (businessRules.calculateTransactionCharge n) s)
                        = Return (Executed data))
                     \/ reqs = []))))
        \/ (exists (c p : string) (n : Z) (m : matatus.row)
                   (data : SplitExecution.t) (pushed : jsval) (push : Request),
              schemas.matatuCode_pattern c = true
              /\ schemas.phoneNumber_pattern p = true
              /\ 50 <= n <= 100000
              /\ SQL.active_matatu (db_matatus s) (JStr c) = Some m
              /\ moneySplitter.executeSplit h d (JStr c) n
                   (businessRules.calculateTransactionCharge n) s
                 = (Return (Executed data), s)
              /\ is_stk_push (mpesaService s)
                   (n + businessRules.calculateTransactionCharge n)
                   (app.new_transactionId h) push
              /\ (reqs = [push] \/ reqs = [token_request (mpesaService s); push])
              /\ stored (db_transactions s) (app.new_transactionId h) = None
              /\ db_transactions s'
                 = (db_transactions s
                    ++ [pending_row w h c p n
                          (businessRules.calculateTransactionCharge n)
                          (n + businessRules.calculateTransactionCharge n)
                          data pushed])%list
              /\ resp = {| http_status := 200;
                           body :=
                             JObj [("success", JBool true);
                                   ("message", JStr "Payment initiated successfully");
                                   ("data",
                                    initiated h c p n
                                      (businessRules.calculateTransactionCharge n)
                                      (n + businessRules.calculateTransactionCharge n)
                                      data pushed)] |})).
Proof.
  unfold app.payment_initiate. unfold bind at 1.
  destruct (server.payment_initiate_quote req_body s) as [oq sq] eqn:Hq.
  destruct (payment_initiate_quote_cases _ _ _ _ Hq)
    as (r & lines & -> & Hafter & Hr).
  destruct r as [response|q].
  - unfold ret. intros H. inversion H; subst; clear H.
    destruct Hafter as (Hts & Hms & Hsent & _).
    exists response, []. split; [reflexivity|]. split; [exact Hms|].
    split; [exact Hsent|]. left. split; [exact Hts|].
    destruct Hr as [Hr|Hr]; [left | right]; auto.
  - destruct Hr as (-> & c & p & n & m & -> & Hc & Hp & Hn & Hm).
    intros Hrun.
    destruct (payment_initiate_charged_cases _ _ _ _ _ _ _ _ _ _ _ Hrun)
      as (resp & reqs & -> & Hms & Hsent & Hcases).
    exists resp, reqs. split; [reflexivity|]. split; [exact Hms|].
    split; [exact Hsent|].
    destruct Hcases
      as [(H500 & Hts & Hwhy)
         |(data & pushed & push & Hsplit & Hpush & Hshape & Hfresh & Hts & ->)].
    + left. split; [exact Hts|]. right. split; [exact H500|].
      destruct Hwhy as [(data & Hdata)|Hnone]; [left|right; exact Hnone].
      exists c, n, data. exact Hdata.
    + right. exists c, p, n, m, data, pushed, push. auto 12.
Qed.

(** X11.  When the initiate route answers 200, the table of transactions has
    exactly one row more, and no other table has changed.  The row is
    PENDING, without a receipt and under an id that was not in use; it is
    the row found under that id afterwards.  Its amount lies between 50 and
    100000, its charge is the charge of the schedule for that amount, its
    total is their sum, its two shares add up to the charge and neither is
    negative; its phone number matches 254[17] and eight digits, and its
    matatu code is that of an active matatu. *)
Theorem payment_initiate_stores_pending (w : World) (h : Host) (d : Directory)
  (req_body : jsval) (sys sys' : System) (resp : Response) :
  app.payment_initiate w h d req_body sys = (Return resp, sys') ->
  http_status resp = 200 ->
  exists row : transactions.row,
    db_transactions sys' = (db_transactions sys ++ [row])%list
    /\ db_matatus sys' = db_matatus sys
    /\ stored (db_transactions sys) (transactions.transaction_id row) = None
    /\ stored (db_transactions sys') (transactions.transaction_id row) = Some row
    /\ transactions.transaction_id row = app.new_transactionId h
    /\ transactions.status row = PENDING
    /\ transactions.mpesa_receipt_number row = None
    /\ 50 <= transactions.amount row <= 100000
    /\ transactions.transaction_charge row
       = businessRules.calculateTransactionCharge (transactions.amount row)
    /\ transactions.total_amount row
       = transactions.amount row + transactions.transaction_charge row
    /\ transactions.owner_share row + transactions.developer_share row
       = transactions.transaction_charge row
    /\ 0 <= transactions.developer_share row
    /\ 0 <= transactions.owner_share row
    /\ schemas.phoneNumber_pattern (transactions.phone_number row) = true
    /\ (exists m : matatus.row,
          In m (db_matatus sys)
          /\ matatus.matatu_code m = transactions.matatu_code row
          /\ matatus.is_active m = true)
    /\ transactions.created_at row = CURRENT_TIMESTAMP w.
Proof.
  intros Hrun H200.
  destruct (payment_initiate_cases _ _ _ _ _ _ _ Hrun)
    as (resp' & reqs & Hresp & Hms & Hsent & Hcases).
  injection Hresp as <-.
  destruct Hcases
    as [(_ & [(H400 & _)|(H500 & _)])
       |(c & p & n & m & data & pushed & push & Hc & Hp & Hn & Hm & Hsplit
         & Hpush & Hshape & Hfresh & Hts & _)];
    [rewrite H400 in H200; discriminate H200
    |rewrite H500 in H200; discriminate H200|].
  destruct (executed_split _ _ _ _ _ _ _ _ Hsplit)
    as (Hsum & Hdev & Hown & _).
  eexists. split; [exact Hts|]. split; [exact Hms|].
  split; [exact Hfresh|].
  split; [rewrite Hts; apply stored_appended; exact Hfresh|].
  cbn [pending_row transactions.transaction_id transactions.status
       transactions.mpesa_receipt_number transactions.amount
       transactions.transaction_charge transactions.total_amount
       transactions.owner_share transactions.developer_share
       transactions.phone_number transactions.matatu_code
       transactions.created_at].
  repeat (split; [first [reflexivity | assumption | lia]|]).
  split; [|reflexivity].
  unfold SQL.active_matatu in Hm. apply find_some in Hm.
  destruct Hm as [Hin Hm]. apply andb_true_iff in Hm. destruct Hm as [Hcode Hact].
  cbn [SQL.eq_text SQL.text ToString] in Hcode. apply String.eqb_eq in Hcode.
  exists m. auto.
Qed.

(** X12.  When the initiate route answers 200, it has sent exactly one STK
    push (after at most one request for a token), as its last request: for
    the total amount of the row stored, with the id of that row as account
    reference, to a phone number starting with 254.  The answer names that
    id, that total and the shares stored. *)
Theorem payment_initiate_pushes_total (w : World) (h : Host) (d : Directory)
  (req_body : jsval) (sys sys' : System) (resp : Response) :
  app.payment_initiate w h d req_body sys = (Return resp, sys') ->
  http_status resp = 200 ->
  exists (row : transactions.row) (push : Request),
    stored (db_transactions sys') (app.new_transactionId h) = Some row
    /\ (sent sys' = (sent sys ++ [push])%list
        \/ sent sys'
           = (sent sys ++ [token_request (mpesaService sys); push])%list)
    /\ is_stk_push (mpesaService sys) (transactions.total_amount row)
         (transactions.transaction_id row) push
    /\ prop (prop (body resp) "data") "transactionId"
       = JStr (transactions.transaction_id row)
    /\ prop (prop (body resp) "data") "totalAmount"
       = JNum (transactions.total_amount row)
    /\ prop (prop (body resp) "data") "amount"
       = JNum (transactions.amount row)
    /\ prop (prop (body resp) "data") "transactionCharge"
       = JNum (transactions.transaction_charge row)
    /\ prop (prop (prop (body resp) "data") "split") "ownerShare"
       = JNum (transactions.owner_share row)
    /\ prop (prop (prop (body resp) "data") "split") "developerShare"
       = JNum (transactions.developer_share row)
    /\ SQL.text (or_else (prop (prop (body resp) "data") "checkoutRequestId")
                   JNull)
       = transactions.checkout_request_id row.
Proof.
  intros Hrun H200.
  destruct (payment_initiate_cases _ _ _ _ _ _ _ Hrun)
    as (resp' & reqs & Hresp & Hms & Hsent & Hcases).
  injection Hresp as <-.
  destruct Hcases
    as [(_ & [(H400 & _)|(H500 & _)])
       |(c & p & n & m & data & pushed & push & Hc & Hp & Hn & Hm & Hsplit
         & Hpush & Hshape & Hfresh & Hts & ->)];
    [rewrite H400 in H200; discriminate H200
    |rewrite H500 in H200; discriminate H200|].
  eexists. exists push.
  split; [rewrite Hts;
          apply (stored_appended (db_transactions sys)
                   (pending_row w h c p n _ _ data pushed));
          exact Hfresh|].
  split; [rewrite Hsent; destruct Hshape as [->| ->]; [left|right]; reflexivity|].
  split; [exact Hpush|].
  repeat split.
Qed.

(** X13.  The initiate route never throws: whatever the request, the tables,
    the settings and the network, it answers, with 200, 400 or 500.  It
    never writes to the table of matatus; unless it answers 200, the table
    of transactions is as it was; with a 400 no request has been sent; and
    when the id it generates is already in use, it does not answer 200. *)
Theorem payment_initiate_answers (w : World) (h : Host) (d : Directory)
  (req_body : jsval) (sys sys' : System) (o : outcome Response) :
  app.payment_initiate w h d req_body sys = (o, sys') ->
  exists resp : Response,
    o = Return resp
    /\ (http_status resp = 200 \/ http_status resp = 400
        \/ http_status resp = 500)
    /\ db_matatus sys' = db_matatus sys
    /\ (http_status resp <> 200 -> db_transactions sys' = db_transactions sys)
    /\ (http_status resp = 400 -> sent sys' = sent sys)
    /\ (stored (db_transactions sys) (app.new_transactionId h) <> None ->
        http_status resp <> 200).
Proof.
  intros Hrun.
  destruct (payment_initiate_cases _ _ _ _ _ _ _ Hrun)
    as (resp & reqs & -> & Hms & Hsent & Hcases).
  exists resp. split; [reflexivity|].
  destruct Hcases
    as [(Hts & [(H400 & ->)|(H500 & _)])
       |(c & p & n & m & data & pushed & push & _ & _ & _ & _ & _
         & _ & _ & Hfresh & _ & ->)].
  - rewrite app_nil_r in Hsent. rewrite H400.
    repeat split; auto; intros; discriminate.
  - rewrite H500. repeat split; auto; intros; discriminate.
  - cbn [http_status]. repeat split; auto; intros; try congruence;
      try discriminate.
Qed.

(** X14.  A payment is initiated only when the split can be executed: the
    initiate route answers 200 only if the configured developer percentage
    lies between 0 and 100 and an active developer account exists.  When
    that is not so, no request leaves the service and no table is
    written, whatever the request. *)
Theorem payment_initiate_needs_split (w : World) (h : Host) (d : Directory)
  (req_body : jsval) (sys sys' : System) (resp : Response) :
  app.payment_initiate w h d req_body sys = (Return resp, sys') ->
  (http_status resp = 200 ->
   in_range (Settings.developerPercentage (moneySplitter.getSystemSettings d))
   /\ developer_account d <> None)
  /\ (~ in_range (Settings.developerPercentage
                    (moneySplitter.getSystemSettings d))
      \/ developer_account d = None ->
      http_status resp <> 200
      /\ sent sys' = sent sys
      /\ db_transactions sys' = db_transactions sys
      /\ db_matatus sys' = db_matatus sys).
Proof.
  intros Hrun.
  destruct (payment_initiate_cases _ _ _ _ _ _ _ Hrun)
    as (resp' & reqs & Hresp & Hms & Hsent & Hcases).
  injection Hresp as <-.
  destruct Hcases
    as [(Hts & [(H400 & ->)|(H500 & Hwhy)])
       |(c & p & n & m & data & pushed & push & _ & _ & _ & _ & Hsplit
         & _ & _ & _ & _ & ->)].
  - rewrite app_nil_r in Hsent. rewrite H400.
    split; [discriminate|]. intros _. repeat split; auto. discriminate.
  - rewrite H500. split; [discriminate|]. intros Hbad.
    split; [discriminate|]. split; [|split; assumption].
    destruct Hwhy as [(c & n & data & Hdata)| ->];
      [|rewrite app_nil_r in Hsent; exact Hsent].
    exfalso.
    destruct (moneySplitter.executeSplit h d (JStr c) n
                (businessRules.calculateTransactionCharge n) sys)
      as [o1 s1] eqn:Hsplit.
    cbn [fst] in Hdata. subst o1.
    destruct (executed_split _ _ _ _ _ _ _ _ Hsplit)
      as (_ & _ & _ & _ & Hrange & _ & Hdev).
    destruct Hbad as [Hbad|Hbad]; contradiction.
  - destruct (executed_split _ _ _ _ _ _ _ _ Hsplit)
      as (_ & _ & _ & _ & Hrange & _ & Hdev).
    split; [intros _; split; assumption|].
    intros [Hbad|Hbad]; contradiction.
Qed.

(** *** The USSD route *)

Lemma split_nonempty (c : ascii) (s : string) : split c s <> [].
Proof.
  destruct s as [|a r]; cbn [split]; [discriminate|].
  destruct (a =? c)%char; [discriminate|].
  destruct (split c r); discriminate.
Qed.

Lemma split_free (c : ascii) (s : string) :
  free_of c s = true -> split c s = [s].
Proof.
  induction s as [|a r IH]; [reflexivity|].
  cbn [free_of split]. intros H. apply andb_true_iff in H.
  destruct H as [Ha Hr]. apply negb_true_iff in Ha. rewrite Ha.
  rewrite (IH Hr). reflexivity.
Qed.

Lemma split_app (c : ascii) (a b : string) :
  free_of c a = true -> split c (a ++ String c b) = a :: split c b.
Proof.
  induction a as [|x a IH]; cbn [free_of append split].
  - intros _. rewrite Ascii.eqb_refl. reflexivity.
  - intros H. apply andb_true_iff in H. destruct H as [Hx Ha].
    apply negb_true_iff in Hx. rewrite Hx. rewrite (IH Ha). reflexivity.
Qed.

Lemma ussd_steps (req_body : jsval) (s : System) :
  (exists (sessionId cleanPhone : jsval) (text : string),
      member req_body "sessionId" = Return sessionId
      /\ sanitize.cleanPhoneNumber (prop req_body "phoneNumber")
         = Return cleanPhone
      /\ ussd_answer (prop req_body "text") = Return text
      /\ app.ussd req_body s = (Return text, s))
  \/ (exists s' line,
        app.ussd req_body s = (Return unavailable, s')
        /\ after_requests s s' [] [line]
        /\ (member req_body "sessionId" = Return (prop req_body "sessionId") ->
            (exists cleanPhone,
                sanitize.cleanPhoneNumber (prop req_body "phoneNumber")
                = Return cleanPhone) ->
            exists e, ussd_answer (prop req_body "text") = Throw e)).
Proof.
  unfold app.ussd, try_catch, bind, lift, ret, console_write.
  destruct (member req_body "sessionId") as [sessionId|e] eqn:Hbody.
  2:{ right. eexists. eexists. split; [reflexivity|].
      split; [refine (after_console _ _)|]. intros H. discriminate H. }
  destruct (sanitize.cleanPhoneNumber (prop req_body "phoneNumber"))
    as [cleanPhone|e] eqn:Hphone.
  2:{ right. eexists. eexists. split; [reflexivity|].
      split; [refine (after_console _ _)|].
      intros _ [c Hc]. discriminate Hc. }
  unfold ussd_answer.
  destruct (strict_eq (prop req_body "text") (JStr "")).
  { left. eexists. eexists. eexists. repeat split; reflexivity. }
  destruct (strict_eq (prop req_body "text") (JStr "1")).
  { left. eexists. eexists. eexists. repeat split; reflexivity. }
  destruct (string_receiver (prop req_body "text") "startsWith") as [t|e].
  2:{ right. eexists. eexists. split; [reflexivity|].
      split; [refine (after_console _ _)|]. intros _ _. eexists. reflexivity. }
  cbn [obind].
  destruct (startsWith t "1*").
  - pose proof (split_nonempty "*" t) as Hne.
    destruct (split "*" t) as [|a [|b [|c [|x l]]]]; [contradiction| | | |];
      cbn [List.length Nat.eqb nth];
      try (left; eexists; eexists; eexists; repeat split; reflexivity).
    unfold validate.validateMatatuCode.
    destruct (schemas.matatuCode "value" (JStr b)) as [e|];
      cbn [validate.report isValid errors negb];
      left; eexists; eexists; eexists; repeat split; reflexivity.
  - destruct (strict_eq (prop req_body "text") (JStr "2")).
    { left. eexists. eexists. eexists. repeat split; reflexivity. }
    destruct (strict_eq (prop req_body "text") (JStr "3"));
      left; eexists; eexists; eexists; repeat split; reflexivity.
Qed.

Lemma ussd_answer_shape (text : jsval) (answer : string) :
  ussd_answer text = Return answer ->
  (String.prefix "CON " answer = true \/ String.prefix "END " answer = true)
  \/ (answer = ""
      /\ exists t, text = JStr t /\ startsWith t "1*" = true
                   /\ (4 <= List.length (split "*" t))%nat).
Proof.
  unfold ussd_answer.
  destruct (strict_eq text (JStr ""));
    [intros H; injection H as <-; left; left; reflexivity|].
  destruct (strict_eq text (JStr "1"));
    [intros H; injection H as <-; left; left; reflexivity|].
  destruct text as [| | | |t| |]; cbn [string_receiver obind]; try discriminate.
  destruct (startsWith t "1*") eqn:Hstart.
  - pose proof (split_nonempty "*" t) as Hne.
    assert (Hlen : (2 <= List.length (split "*" t))%nat).
    { unfold startsWith in Hstart.
      destruct t as [|a t']; [discriminate Hstart|].
      cbn [String.prefix] in Hstart.
      destruct (Ascii.ascii_dec "1" a) as [<-|]; [|discriminate Hstart].
      destruct t' as [|b r]; [discriminate Hstart|].
      cbn [String.prefix] in Hstart.
      destruct (Ascii.ascii_dec "*" b) as [<-|]; [|discriminate Hstart].
      cbn [split Ascii.eqb Bool.eqb]. cbn.
      pose proof (split_nonempty "*" r) as Hr.
      destruct (split "*" r); [contradiction | cbn; lia]. }
    destruct (split "*" t) as [|a [|b [|c [|x l]]]] eqn:Hsplit;
      [contradiction | cbn in Hlen; lia | | |].
    + destruct (schemas.matatuCode "value" (JStr b));
        intros H; injection H as <-; left; [right|left];
        first [reflexivity | cbn; rewrite ?prefix_nil; reflexivity].
    + intros H; injection H as <-. left. right. reflexivity.
    + intros H; injection H as <-. right. split; [reflexivity|].
      exists t. split; [reflexivity|]. split; [exact Hstart|].
      rewrite Hsplit. cbn. lia.
  - destruct (strict_eq (JStr t) (JStr "2"));
      [intros H; injection H as <-; left; left; reflexivity|].
    destruct (strict_eq (JStr t) (JStr "3"));
      intros H; injection H as <-; left; right; reflexivity.
Qed.

(** X15.  The USSD route always answers, and writes to no table and sends no
    request.  Its answer starts with CON or END, with one exception: a text
    that starts with [1*] and has four parts or more (three stars or more)
    is answered with the empty text. *)
Theorem ussd_always_answers (req_body : jsval) (sys : System) :
  exists (answer : string) (sys' : System),
    app.ussd req_body sys = (Return answer, sys')
    /\ db_transactions sys' = db_transactions sys
    /\ db_matatus sys' = db_matatus sys
    /\ sent sys' = sent sys
    /\ ((String.prefix "CON " answer = true \/ String.prefix "END " answer = true)
        \/ (answer = ""
            /\ exists t : string,
                 prop req_body "text" = JStr t
                 /\ startsWith t "1*" = true
                 /\ (4 <= List.length (split "*" t))%nat)).
Proof.
  destruct (ussd_steps req_body sys)
    as [(sessionId & cleanPhone & text & _ & _ & Hanswer & Hrun)
       |(s' & line & Hrun & Hafter & _)].
  - exists text, sys. split; [exact Hrun|]. repeat (split; [reflexivity|]).
    apply (ussd_answer_shape _ _ Hanswer).
  - exists unavailable, s'. split; [exact Hrun|].
    destruct Hafter as (Hts & Hms & Hsent & _).
    rewrite app_nil_r in Hsent.
    repeat (split; [assumption|]). left. right. reflexivity.
Qed.

(** X16.  The last step of the USSD payment flow validates nothing: a text
    [1*code*amount] is answered "Payment request sent!" with the fare that
    [parseInt] reads from the amount (a number up to 100000, or NaN), the
    charge of the schedule for it and their total, whatever the matatu code
    and also when the amount is below the minimum of 50 or is no number.
    (The step before does validate the code: [1*code] is answered with the
    request for the amount exactly when the code is one to four digits.) *)
Theorem ussd_payment_not_validated (req_body : jsval) (code amount : string)
  (sys : System) :
  (exists cleanPhone : jsval,
      sanitize.cleanPhoneNumber (prop req_body "phoneNumber")
      = Return cleanPhone) ->
  free_of "*" code = true ->
  free_of "*" amount = true ->
  (prop req_body "text" = JStr ("1*" ++ code ++ "*" ++ amount) ->
   match parseInt amount with
   | Some n => 0 <= n <= 100000
   | None => True
   end ->
   app.ussd req_body sys
   = (Return (app.payment_request_sent (parseInt amount)
                (option_map businessRules.calculateTransactionCharge
                   (parseInt amount))
                (server.plus (parseInt amount)
                   (option_map businessRules.calculateTransactionCharge
                      (parseInt amount)))), sys))
  /\ (prop req_body "text" = JStr ("1*" ++ code) ->
      (schemas.matatuCode_pattern code = true ->
       app.ussd req_body sys = (Return "CON Enter amount (Min KSh 50):", sys))
      /\ (schemas.matatuCode_pattern code = false ->
          exists reason : string,
            app.ussd req_body sys = (Return ("END " ++ reason), sys))).
Proof.
  intros [cleanPhone Hphone] Hcode Hamount.
  assert (Hbody : forall t, prop req_body "text" = JStr t ->
                  member req_body "sessionId"
                  = Return (prop req_body "sessionId")).
  { intros t Ht. destruct req_body; try reflexivity; discriminate Ht. }
  assert (Hrun : forall t answer,
             prop req_body "text" = JStr t ->
             ussd_answer (JStr t) = Return answer ->
             app.ussd req_body sys = (Return answer, sys)).
  { intros t answer Ht Hanswer.
    destruct (ussd_steps req_body sys)
      as [(sessionId & c & text & _ & _ & Ha & Hrun)
         |(s' & line & _ & _ & Hthrows)].
    - rewrite Ht, Hanswer in Ha. injection Ha as <-. exact Hrun.
    - destruct (Hthrows (Hbody t Ht) (ex_intro _ cleanPhone Hphone)) as [e He].
      rewrite Ht, Hanswer in He. discriminate He. }
  split.
  - intros Ht _. apply (Hrun _ _ Ht).
    unfold ussd_answer. cbn [strict_eq String.eqb Ascii.eqb Bool.eqb append].
    destruct code as [|x code']; cbn [strict_eq String.eqb Ascii.eqb Bool.eqb
                                      append andb string_receiver obind].
    + change (startsWith (String "1" (String "*" (String "*" amount))) "1*")
        with true. cbv iota.
      change (String "1" (String "*" (String "*" amount)))
        with ("1" ++ String "*" ("" ++ String "*" amount)).
      rewrite !split_app by reflexivity. rewrite (split_free _ _ Hamount).
      reflexivity.
    + assert (Hne : (String "1" (String "*" (String x (code' ++ String "*" amount)))
                     =? "1")%string = false) by reflexivity.
      assert (He : (String "1" (String "*" (String x (code' ++ String "*" amount)))
                     =? "")%string = false) by reflexivity.
      cbn [strict_eq] in *.
      change (startsWith
                (String "1" (String "*" (String x (code' ++ String "*" amount))))
                "1*") with true. cbv iota.
      change (String "1" (String "*" (String x (code' ++ String "*" amount))))
        with ("1" ++ String "*" (String x code' ++ String "*" amount)).
      rewrite !split_app by (first [reflexivity | exact Hcode]).
      rewrite (split_free _ _ Hamount). reflexivity.
  - intros Ht.
    assert (Hanswer : ussd_answer (JStr ("1*" ++ code))
                      = match schemas.matatuCode "value" (JStr code) with
                        | Some e => Return ("END " ++ matatuCode_message e)
                        | None => Return "CON Enter amount (Min KSh 50):"
                        end).
    { unfold ussd_answer.
      cbn [strict_eq String.eqb Ascii.eqb Bool.eqb append string_receiver obind].
      assert (Hs : startsWith (String "1" (String "*" code)) "1*" = true)
        by (unfold startsWith; cbn; apply prefix_nil).
      rewrite Hs.
      change (String "1" (String "*" code)) with ("1" ++ String "*" code).
      rewrite split_app by reflexivity. rewrite (split_free _ _ Hcode).
      reflexivity. }
    unfold schemas.matatuCode, schemas.string_rule in Hanswer.
    split; intros Hp; rewrite Hp in Hanswer.
    + apply (Hrun _ _ Ht). rewrite Hanswer.
      destruct (code =? "")%string eqn:He; [|reflexivity].
      apply String.eqb_eq in He. subst code. discriminate Hp.
    + destruct (code =? "")%string; eexists; apply (Hrun _ _ Ht);
        rewrite Hanswer; reflexivity.
Qed.

(** *** The metadata of a callback *)

Lemma member_truthy (v : jsval) (k : string) :
  truthy v = true -> member v k = Return (prop v k).
Proof. destruct v; cbn; intros H; try discriminate H; reflexivity. Qed.

Lemma member_value (v : jsval) (k : string) :
  is_value v -> member v k = Return (prop v k).
Proof. intros [H1 H2]. destruct v; cbn; try reflexivity; congruence. Qed.

Lemma valid_callback (callbackData : jsval) :
  callbackIsValid (MpesaService.validateCallback callbackData) = true ->
  truthy callbackData = true
  /\ truthy (prop callbackData "Body") = true
  /\ truthy (stkCallback_of callbackData) = true.
Proof.
  unfold MpesaService.validateCallback, stkCallback_of.
  destruct (truthy callbackData); [|discriminate].
  destruct (truthy (prop callbackData "Body")); [|discriminate].
  destruct (truthy (prop (prop callbackData "Body") "stkCallback"));
    [|discriminate].
  auto.
Qed.

Lemma metadata_Value_named (items : list jsval) (name : string) :
  Forall is_value items ->
  MpesaService.metadata_Value (JArr items) name
  = Return (named_value items name).
Proof.
  intros Hitems. unfold MpesaService.metadata_Value, named_value.
  assert (H : MpesaService.find_Name items name
              = Return (find (fun item => strict_eq (prop item "Name") (JStr name))
                          items)).
  { induction Hitems as [|item items Hitem _ IH]; [reflexivity|].
    cbn [MpesaService.find_Name find].
    rewrite (member_value _ _ Hitem). cbn [obind].
    destruct (strict_eq (prop item "Name") (JStr name)); [reflexivity | exact IH]. }
  rewrite H. reflexivity.
Qed.

(** X17.  For a callback that passes the validation, reports the result code
    0 and carries a list of metadata items none of which is [null] or
    [undefined], [processCallback] returns without an error and without a
    line on the console: the payment counts as successful, and the amount,
    the receipt number, the date, the phone number and the balance are each
    the [Value] of the first item of that name, wherever it stands in the
    list, and [undefined] when no item has the name. *)
Theorem processCallback_reads_metadata (callbackData : jsval)
  (items : list jsval) (sys : System) :
  callbackIsValid (MpesaService.validateCallback callbackData) = true ->
  prop (stkCallback_of callbackData) "ResultCode" = JNum 0 ->
  prop (prop (stkCallback_of callbackData) "CallbackMetadata") "Item"
  = JArr items ->
  Forall is_value items ->
  exists r : CallbackResult,
    MpesaService.processCallback callbackData sys = (Return r, sys)
    /\ callbackSuccess r = true
    /\ processingError r = JUndefined
    /\ merchantRequestId r
       = prop (stkCallback_of callbackData) "MerchantRequestID"
    /\ checkoutRequestId r
       = prop (stkCallback_of callbackData) "CheckoutRequestID"
    /\ callbackAmount r = named_value items "Amount"
    /\ mpesaReceiptNumber r = named_value items "MpesaReceiptNumber"
    /\ transactionDate r = named_value items "TransactionDate"
    /\ callbackPhoneNumber r = named_value items "PhoneNumber"
    /\ balance r = named_value items "Balance".
Proof.
  intros Hvalid Hcode Hitem Hitems.
  destruct (valid_callback _ Hvalid) as (H1 & H2 & H3).
  unfold stkCallback_of in *.
  unfold MpesaService.processCallback, try_catch, bind, lift, ret.
  rewrite (member_truthy _ _ H1), (member_truthy _ _ H2),
    (member_truthy _ _ H3).
  cbn [callbackSuccess]. rewrite Hcode. cbn [strict_eq Z.eqb andb].
  assert (Hmeta : truthy (prop (prop (prop callbackData "Body") "stkCallback")
                            "CallbackMetadata") = true).
  { destruct (prop (prop (prop callbackData "Body") "stkCallback")
                "CallbackMetadata"); try discriminate Hitem; reflexivity. }
  rewrite Hmeta, Hitem.
  rewrite !(metadata_Value_named items _ Hitems).
  eexists. split; [reflexivity|]. cbn. repeat split; reflexivity.
Qed.

(** X18.  A callback that passes the validation and reports the result code
    0, but whose metadata holds no list of items, is not processed: the
    route answers 404 "Transaction not found" and leaves every table as it
    was, whether or not a transaction with its checkout id is stored. *)
Theorem callback_without_items_not_found (w : World) (req_body : jsval)
  (sys : System) :
  callbackIsValid (MpesaService.validateCallback req_body) = true ->
  prop (stkCallback_of req_body) "ResultCode" = JNum 0 ->
  truthy (prop (stkCallback_of req_body) "CallbackMetadata") = true ->
  (forall items : list jsval,
      prop (prop (stkCallback_of req_body) "CallbackMetadata") "Item"
      <> JArr items) ->
  exists sys' : System,
    server.mpesa_callback w req_body sys = (Return not_found, sys')
    /\ db_transactions sys' = db_transactions sys
    /\ db_matatus sys' = db_matatus sys
    /\ sent sys' = sent sys.
Proof.
  intros Hvalid Hcode Hmeta Hitem.
  destruct (valid_callback _ Hvalid) as (H1 & H2 & H3).
  unfold stkCallback_of in *.
  unfold server.mpesa_callback, MpesaService.processCallback, try_catch, bind,
    lift, ret, console_write, get_system, set_transactions.
  rewrite Hvalid. cbn [negb].
  rewrite (member_truthy _ _ H1), (member_truthy _ _ H2),
    (member_truthy _ _ H3).
  cbn [callbackSuccess]. rewrite Hcode. cbn [strict_eq Z.eqb andb].
  rewrite Hmeta.
  assert (Hthrow : exists e,
             MpesaService.metadata_Value
               (prop (prop (prop (prop req_body "Body") "stkCallback")
                        "CallbackMetadata") "Item") "Amount" = Throw e).
  { destruct (prop (prop (prop (prop req_body "Body") "stkCallback")
                      "CallbackMetadata") "Item") as [| | | | |items|] eqn:E;
      cbn [MpesaService.metadata_Value]; try (eexists; reflexivity).
    exfalso. exact (Hitem items eq_refl). }
  destruct Hthrow as [e He]. rewrite He.
  cbn [checkoutRequestId db_transactions].
  rewrite transaction_id_by_checkout_undefined.
  eexists. split; [reflexivity|]. cbn. auto.
Qed.

(** *** From the initiate route to the other routes *)

Lemma transaction_with_matatu_of_stored (ts : list transactions.row)
  (ms : list matatus.row) (transactionId : string) (t : transactions.row) :
  stored ts transactionId = Some t ->
  exists m, SQL.transaction_with_matatu ts ms transactionId = Some (t, m).
Proof.
  unfold stored, SQL.transaction_with_matatu. intros ->. eexists. reflexivity.
Qed.

(** The status route on a transaction that is stored: it answers 200 with
    the transaction as stored, or with the status the gateway has just
    reported for it. *)
Lemma payment_status_found (w : World) (transactionId : string) (s : System)
  (t : transactions.row) (m : option matatus.row) :
  SQL.transaction_with_matatu (db_transactions s) (db_matatus s) transactionId
  = Some (t, m) ->
  exists (t' : transactions.row) (s' : System),
    server.payment_status w transactionId s = (Return (status_answer t' m), s')
    /\ (t' = t
        \/ exists newStatus,
             t' = server.assign_status t newStatus
             /\ (newStatus = COMPLETED \/ newStatus = FAILED)
             /\ transactions.status t = PENDING).
Proof.
  intros Hrow.
  unfold server.payment_status, bind, get_system. rewrite Hrow.
  destruct (Status_eqb (transactions.status t) PENDING) eqn:Hpending;
    cbn [andb].
  2:{ unfold ret. exists t. eexists. split; [reflexivity|]. left. reflexivity. }
  assert (Hstatus : transactions.status t = PENDING)
    by (destruct (transactions.status t); try discriminate Hpending; reflexivity).
  destruct (truthy (nullable (transactions.checkout_request_id t))).
  2:{ unfold ret. exists t. eexists. split; [reflexivity|]. left. reflexivity. }
  match goal with
  | |- context [MpesaService.stkPushQuery w ?c s] =>
      destruct (stkPushQuery_returns w c s) as (r & s1 & Hq); rewrite Hq
  end.
  destruct r as [data|error errorCode].
  2:{ unfold ret. exists t. eexists. split; [reflexivity|]. left. reflexivity. }
  destruct (strict_eq (prop data "resultCode") JUndefined); cbn [negb].
  { unfold ret. exists t. eexists. split; [reflexivity|]. left. reflexivity. }
  unfold set_transactions, ret.
  eexists. eexists. split; [reflexivity|]. right.
  eexists. split; [reflexivity|]. split; [|exact Hstatus].
  destruct (strict_eq (prop data "resultCode") (JNum 0)); auto.
Qed.

(** X19.  A payment that the initiate route has answered with 200 is found
    by the status route under the id of that answer: whatever the gateway
    says when polled, the status route answers 200 with that id, the same
    amount, charge, total and shares as the answer of the initiate route,
    and a status that is PENDING, COMPLETED or FAILED. *)
Theorem initiated_payment_is_found (w w' : World) (h : Host) (d : Directory)
  (req_body : jsval) (sys sys1 : System) (resp : Response) :
  app.payment_initiate w h d req_body sys = (Return resp, sys1) ->
  http_status resp = 200 ->
  exists (transactionId : string) (answer : Response) (sys2 : System),
    prop (prop (body resp) "data") "transactionId" = JStr transactionId
    /\ server.payment_status w' transactionId sys1 = (Return answer, sys2)
    /\ http_status answer = 200
    /\ prop (prop (body answer) "data") "transactionId" = JStr transactionId
    /\ prop (prop (body answer) "data") "amount"
       = prop (prop (body resp) "data") "amount"
    /\ prop (prop (body answer) "data") "transactionCharge"
       = prop (prop (body resp) "data") "transactionCharge"
    /\ prop (prop (body answer) "data") "totalAmount"
       = prop (prop (body resp) "data") "totalAmount"
    /\ prop (prop (body answer) "data") "phoneNumber"
       = prop (prop (body resp) "data") "phoneNumber"
    /\ prop (prop (body answer) "data") "matatuCode"
       = prop (prop (body resp) "data") "matatuCode"
    /\ prop (prop (body answer) "data") "ownerShare"
       = prop (prop (prop (body resp) "data") "split") "ownerShare"
    /\ prop (prop (body answer) "data") "developerShare"
       = prop (prop (prop (body resp) "data") "split") "developerShare"
    /\ In (prop (prop (body answer) "data") "status")
          [JStr "PENDING"; JStr "COMPLETED"; JStr "FAILED"].
Proof.
  intros Hrun H200.
  destruct (payment_initiate_cases _ _ _ _ _ _ _ Hrun)
    as (resp' & reqs & Hresp & Hms & Hsent & Hcases).
  injection Hresp as <-.
  destruct Hcases
    as [(_ & [(H400 & _)|(H500 & _)])
       |(c & p & n & m & data & pushed & push & Hc & Hp & Hn & Hm & Hsplit
         & Hpush & Hshape & Hfresh & Hts & ->)];
    [rewrite H400 in H200; discriminate H200
    |rewrite H500 in H200; discriminate H200|].
  set (row := pending_row w h c p n
                (businessRules.calculateTransactionCharge n)
                (n + businessRules.calculateTransactionCharge n) data pushed)
    in *.
  assert (Hstored : stored (db_transactions sys1) (app.new_transactionId h)
                    = Some row).
  { rewrite Hts. apply (stored_appended (db_transactions sys) row).
    exact Hfresh. }
  destruct (transaction_with_matatu_of_stored _ (db_matatus sys1) _ _ Hstored)
    as [found Hfound].
  destruct (payment_status_found w' _ _ _ _ Hfound)
    as (t' & sys2 & Hstatus & Ht').
  exists (app.new_transactionId h), (status_answer t' found), sys2.
  split; [reflexivity|]. split; [exact Hstatus|].
  destruct Ht' as [->|(st & -> & Hst & _)].
  - repeat split. cbn. auto.
  - repeat split. cbn. destruct Hst as [->| ->]; cbn; auto.
Qed.

Lemma transaction_id_by_checkout_appended (ts : list transactions.row)
  (row : transactions.row) (c : string) :
  (forall t, In t ts -> transactions.checkout_request_id t <> Some c) ->
  transactions.checkout_request_id row = Some c ->
  SQL.transaction_id_by_checkout (ts ++ [row]) (JStr c)
  = Some (transactions.transaction_id row).
Proof.
  intros Hother Hrow. unfold SQL.transaction_id_by_checkout.
  cbn [SQL.text ToString].
  induction ts as [|t ts IH]; cbn [app find].
  - rewrite Hrow. cbn [SQL.eq_text]. rewrite String.eqb_refl. reflexivity.
  - assert (Ht : SQL.eq_text (transactions.checkout_request_id t) (Some c) = false).
    { pose proof (Hother t (or_introl eq_refl)) as Hne.
      destruct (transactions.checkout_request_id t) as [x|]; [|reflexivity].
      cbn [SQL.eq_text]. apply String.eqb_neq. congruence. }
    rewrite Ht. apply IH. intros t' Hin. apply Hother. right. exact Hin.
Qed.

Lemma update_status_receipt_absent (st : Status) (receipt : jsval)
  (now id : string) (ts : list transactions.row) :
  stored ts id = None -> SQL.update_status_receipt st receipt now id ts = ts.
Proof.
  unfold stored, SQL.update_status_receipt.
  induction ts as [|t ts IH]; [reflexivity|].
  cbn [find map].
  destruct (transactions.transaction_id t =? id)%string; [discriminate|].
  intros H. rewrite (IH H). reflexivity.
Qed.

(** X20.  From the initiate route to the callback route.  Take a payment that
    the initiate route has answered with 200 and a checkout id that no
    earlier transaction carries, and a callback that passes the validation
    and from which [processCallback] reads, without an error, that checkout
    id.  Then the callback route acknowledges, and the table of
    transactions is what it was before the payment, followed by the row of
    the payment with the status of the callback (COMPLETED for a success,
    FAILED otherwise), its receipt, and the time of the update. *)
Theorem initiated_payment_is_settled (w w2 : World) (h : Host) (d : Directory)
  (req_body callback : jsval) (sys sys1 : System) (resp : Response)
  (checkout : string) (r : CallbackResult) :
  app.payment_initiate w h d req_body sys = (Return resp, sys1) ->
  http_status resp = 200 ->
  prop (prop (body resp) "data") "checkoutRequestId" = JStr checkout ->
  checkout <> "" ->
  (forall t, In t (db_transactions sys) ->
             transactions.checkout_request_id t <> Some checkout) ->
  callbackIsValid (MpesaService.validateCallback callback) = true ->
  (forall s, MpesaService.processCallback callback s = (Return r, s)) ->
  checkoutRequestId r = JStr checkout ->
  exists (row : transactions.row) (sys2 : System),
    db_transactions sys1 = (db_transactions sys ++ [row])%list
    /\ transactions.status row = PENDING
    /\ server.mpesa_callback w2 callback sys1 = (Return acknowledged, sys2)
    /\ db_transactions sys2
       = (db_transactions sys
          ++ [transactions.set_status_receipt
                (if callbackSuccess r then COMPLETED else FAILED)
                (SQL.text (mpesaReceiptNumber r)) (CURRENT_TIMESTAMP w2) row])%list
    /\ db_matatus sys2 = db_matatus sys.
Proof.
  intros Hrun H200 Hcheckout Hne Hother Hvalid Hprocess Hr.
  destruct (payment_initiate_cases _ _ _ _ _ _ _ Hrun)
    as (resp' & reqs & Hresp & Hms & Hsent & Hcases).
  injection Hresp as <-.
  destruct Hcases
    as [(_ & [(H400 & _)|(H500 & _)])
       |(c & p & n & m & data & pushed & push & Hc & Hp & Hn & Hm & Hsplit
         & Hpush & Hshape & Hfresh & Hts & ->)];
    [rewrite H400 in H200; discriminate H200
    |rewrite H500 in H200; discriminate H200|].
  set (row := pending_row w h c p n
                (businessRules.calculateTransactionCharge n)
                (n + businessRules.calculateTransactionCharge n) data pushed)
    in *.
  cbn in Hcheckout.
  assert (Hrow : transactions.checkout_request_id row = Some checkout).
  { subst row. cbn [pending_row transactions.checkout_request_id].
    rewrite Hcheckout. unfold or_else. cbn [truthy].
    destruct (checkout =? "")%string eqn:E;
      [apply String.eqb_eq in E; contradiction|]. reflexivity. }
  assert (Hid : SQL.transaction_id_by_checkout (db_transactions sys1)
                  (checkoutRequestId r)
                = Some (app.new_transactionId h)).
  { rewrite Hts, Hr.
    apply (transaction_id_by_checkout_appended _ row checkout Hother Hrow). }
  exists row.
  unfold server.mpesa_callback, try_catch, bind, console_write, get_system,
    set_transactions, ret.
  rewrite Hvalid. cbn [negb]. rewrite Hprocess.
  cbn [db_transactions]. rewrite Hid.
  eexists. split; [exact Hts|]. split; [reflexivity|].
  split; [reflexivity|]. cbn [db_transactions db_matatus].
  split; [|exact Hms].
  rewrite Hts. unfold SQL.update_status_receipt. rewrite map_app.
  fold (SQL.update_status_receipt
          (if callbackSuccess r then COMPLETED else FAILED)
          (mpesaReceiptNumber r) (CURRENT_TIMESTAMP w2)
          (app.new_transactionId h) (db_transactions sys)).
  rewrite update_status_receipt_absent by exact Hfresh.
  cbn [map]. subst row.
  cbn [pending_row transactions.transaction_id].
  rewrite String.eqb_refl. reflexivity.
Qed.

(** *** The routes on the default data *)

(** Runs a route on concrete data: the pair it returns, in normal form. *)
Ltac run_as Hrun :=
  match goal with
  | |- context [app.payment_initiate ?w ?h ?d ?b ?s] =>
      destruct (app.payment_initiate w h d b s) as [?o ?s'] eqn:Hrun
  | |- context [moneySplitter.executeSplit ?h ?d ?c ?f ?t ?s] =>
      destruct (moneySplitter.executeSplit h d c f t s) as [?o ?s'] eqn:Hrun
  end;
  let Hval := fresh "Hval" in
  pose proof Hrun as Hval; vm_compute in Hval; injection Hval as <- <-.


(** The default data and a provider that accepts the push: the payment is
    stored. *)
Lemma payment_initiate_stores_pending_witness :
  exists (resp : Response) (sys' : System),
    app.payment_initiate demo_world demo_host demo_directory demo_request
      demo_fresh_system = (Return resp, sys')
    /\ http_status resp = 200
    /\ map settlement (db_transactions sys')
       = [("MOBI17041032000004FZYO", PENDING, None, 18, 2)]
    /\ map transactions.total_amount (db_transactions sys') = [2020].
Proof.
  run_as Hrun.
  destruct (payment_initiate_stores_pending _ _ _ _ _ _ _ Hrun eq_refl)
    as (row & _).
  eexists. eexists. split; [reflexivity|]. repeat split.
Defined.

Lemma payment_initiate_pushes_total_witness :
  exists (resp : Response) (sys' : System) (token push : Request),
    app.payment_initiate demo_world demo_host demo_directory demo_request
      demo_fresh_system = (Return resp, sys')
    /\ sent sys' = [token; push]
    /\ prop (req_data push) "Amount" = JNum 2020
    /\ prop (req_data push) "AccountReference" = JStr "MOBI17041032000004FZYO"
    /\ prop (req_data push) "PhoneNumber" = JStr "254712345678".
Proof.
  run_as Hrun.
  destruct (payment_initiate_pushes_total _ _ _ _ _ _ _ Hrun eq_refl)
    as (row & push & _).
  eexists. eexists. eexists. eexists.
  split; [reflexivity|]. split; [reflexivity|]. repeat split.
Defined.

(** A request without a phone number is answered 400 and changes nothing. *)
Lemma payment_initiate_answers_witness :
  exists (resp : Response) (sys' : System),
    app.payment_initiate demo_world demo_host demo_directory
      (JObj [("matatu_code", JStr "3025"); ("amount", JNum 100)])
      demo_fresh_system = (Return resp, sys')
    /\ http_status resp = 400
    /\ db_transactions sys' = []
    /\ sent sys' = [].
Proof.
  run_as Hrun.
  destruct (payment_initiate_answers _ _ _ _ _ _ _ Hrun) as (resp & _).
  eexists. eexists. split; [reflexivity|]. repeat split.
Defined.

(** With the percentage set to 150 the same request is answered 500, and
    no request is sent. *)
Lemma payment_initiate_needs_split_witness :
  exists (resp : Response) (sys' : System),
    app.payment_initiate demo_world demo_host demo_directory_150 demo_request
      demo_fresh_system = (Return resp, sys')
    /\ http_status resp = 500
    /\ prop (body resp) "error"
       = JStr "Developer percentage must be between 0 and 100"
    /\ sent sys' = [].
Proof.
  run_as Hrun.
  destruct (payment_initiate_needs_split _ _ _ _ _ _ _ Hrun) as [_ Hbad].
  assert (Hsetting : ~ in_range (Settings.developerPercentage
                                   (moneySplitter.getSystemSettings
                                      demo_directory_150))).
  { vm_compute. intros [_ H]. apply H. reflexivity. }
  destruct (Hbad (or_introl Hsetting)) as (_ & Hsent & _).
  eexists. eexists. split; [reflexivity|].
  split; [reflexivity|]. split; [reflexivity | exact Hsent].
Defined.

(** A fare of 10 shillings for a matatu code that is not one; the request
    for the amount; and a fare of 50 shillings typed after a no-break
    space, which [parseInt] skips. *)
Lemma ussd_payment_not_validated_witness :
  app.ussd (demo_ussd_request "1*99999*10") demo_fresh_system
  = (Return "END Payment request sent!
Fare: KSh 10
Service Fee: KSh 0
Total: KSh 10
You will receive STK push shortly.", demo_fresh_system)
  /\ app.ussd (demo_ussd_request "1*3025") demo_fresh_system
     = (Return "CON Enter amount (Min KSh 50):", demo_fresh_system)
  /\ app.ussd (demo_ussd_request ("1*3025*" ++ no_break_space ++ "50"))
       demo_fresh_system
     = (Return "END Payment request sent!
Fare: KSh 50
Service Fee: KSh 1
Total: KSh 51
You will receive STK push shortly.", demo_fresh_system).
Proof.
  destruct (ussd_payment_not_validated (demo_ussd_request "1*99999*10")
              "99999" "10" demo_fresh_system
              (ex_intro _ (JStr "254712345678") eq_refl) eq_refl eq_refl)
    as [Hpay _].
  destruct (ussd_payment_not_validated (demo_ussd_request "1*3025")
              "3025" "" demo_fresh_system
              (ex_intro _ (JStr "254712345678") eq_refl) eq_refl eq_refl)
    as [_ Hcode].
  destruct (ussd_payment_not_validated
              (demo_ussd_request ("1*3025*" ++ no_break_space ++ "50"))
              "3025" (no_break_space ++ "50") demo_fresh_system
              (ex_intro _ (JStr "254712345678") eq_refl) eq_refl eq_refl)
    as [Hspace _].
  split; [|split].
  - apply (Hpay eq_refl). vm_compute. split; discriminate.
  - exact (proj1 (Hcode eq_refl) eq_refl).
  - apply (Hspace eq_refl). vm_compute. split; discriminate.
Defined.

(** The receipt stands second in the list of the callback. *)
Lemma processCallback_reads_metadata_witness :
  exists r : CallbackResult,
    MpesaService.processCallback (demo_callback "ws_CO_123456789" 0)
      demo_fresh_system = (Return r, demo_fresh_system)
    /\ mpesaReceiptNumber r = JStr "OKL1A2B3C4"
    /\ callbackAmount r = JNum 102
    /\ balance r = JUndefined.
Proof.
  destruct (processCallback_reads_metadata (demo_callback "ws_CO_123456789" 0)
              [JObj [("Name", JStr "Amount"); ("Value", JNum 102)];
               JObj [("Name", JStr "MpesaReceiptNumber");
                     ("Value", JStr "OKL1A2B3C4")];
               JObj [("Name", JStr "PhoneNumber");
                     ("Value", JNum 254712345678)]]
              demo_fresh_system eq_refl eq_refl eq_refl)
    as (r & Hrun & _ & _ & _ & _ & Hamount & Hreceipt & _ & _ & Hbalance).
  - repeat constructor; discriminate.
  - exists r. split; [exact Hrun|].
    split; [exact Hreceipt|]. split; [exact Hamount | exact Hbalance].
Defined.

(** The transaction of the callback is stored and pending, and stays so. *)
Lemma callback_without_items_not_found_witness :
  exists sys' : System,
    server.mpesa_callback demo_world demo_callback_without_items
      (demo_system (demo_transaction PENDING None))
    = (Return not_found, sys')
    /\ SQL.transaction_id_by_checkout
         (db_transactions (demo_system (demo_transaction PENDING None)))
         (JStr "ws_CO_123456789") = Some "MOBI1703012345ABCD"
    /\ map settlement (db_transactions sys')
       = [("MOBI1703012345ABCD", PENDING, None, 2, 0)].
Proof.
  destruct (callback_without_items_not_found demo_world
              demo_callback_without_items
              (demo_system (demo_transaction PENDING None))
              eq_refl eq_refl eq_refl)
    as (sys' & Hrun & Hts & _).
  - intros items H. discriminate H.
  - exists sys'. split; [exact Hrun|]. split; [reflexivity|].
    rewrite Hts. reflexivity.
Defined.

(** The payment of the default data, looked up at once. *)
Lemma initiated_payment_is_found_witness :
  exists (resp answer : Response) (sys1 sys2 : System),
    app.payment_initiate demo_world demo_host demo_directory demo_request
      demo_fresh_system = (Return resp, sys1)
    /\ server.payment_status demo_world "MOBI17041032000004FZYO" sys1
       = (Return answer, sys2)
    /\ http_status answer = 200
    /\ prop (prop (body answer) "data") "totalAmount" = JNum 2020.
Proof.
  run_as Hrun.
  destruct (initiated_payment_is_found demo_world demo_world _ _ _ _ _ _
              Hrun eq_refl)
    as (id & answer & sys2 & Hid & Hstatus & Hanswer & _ & _ & _ & Htotal & _).
  injection Hid as <-.
  eexists. exists answer. eexists. exists sys2.
  split; [reflexivity|]. split; [exact Hstatus|]. split; [exact Hanswer|].
  exact Htotal.
Defined.

(** The payment of the default data, then the callback of its success. *)
Lemma initiated_payment_is_settled_witness :
  exists (resp : Response) (sys1 sys2 : System),
    app.payment_initiate demo_world demo_host demo_directory demo_request
      demo_fresh_system = (Return resp, sys1)
    /\ server.mpesa_callback demo_world (demo_callback "ws_CO_123456789" 0) sys1
       = (Return acknowledged, sys2)
    /\ map settlement (db_transactions sys2)
       = [("MOBI17041032000004FZYO", COMPLETED, Some "OKL1A2B3C4", 18, 2)].
Proof.
  run_as Hrun.
  assert (Hprocess : exists r,
             (forall s, MpesaService.processCallback
                          (demo_callback "ws_CO_123456789" 0) s = (Return r, s))
             /\ checkoutRequestId r = JStr "ws_CO_123456789"
             /\ callbackSuccess r = true
             /\ mpesaReceiptNumber r = JStr "OKL1A2B3C4")
    by (eexists; split; [intros s; reflexivity | repeat split]).
  destruct Hprocess as (r & Hprocess & Hr & Hsuccess & Hreceipt).
  destruct (initiated_payment_is_settled demo_world demo_world _ _ _
              (demo_callback "ws_CO_123456789" 0) _ _ _ "ws_CO_123456789" r
              Hrun eq_refl eq_refl ltac:(discriminate) ltac:(intros t [])
              eq_refl Hprocess Hr)
    as (row & sys2 & Hts1 & _ & Hcall & Hts2 & _).
  eexists. eexists. exists sys2.
  split; [reflexivity|]. split; [exact Hcall|].
  rewrite Hts2, Hsuccess, Hreceipt.
  injection Hts1 as <-. reflexivity.
Defined.

(** *** The listing of the dashboard *)

Lemma parseInt_or_nonzero (v : jsval) (fallback : Z) :
  fallback <> 0 -> dashboard.parseInt_or v fallback <> 0.
Proof.
  intros H. unfold dashboard.parseInt_or.
  destruct (parseInt (ToString v)) as [n|]; [|exact H].
  destruct (Z.eqb_spec n 0); assumption.
Qed.

(** X21.  Whatever the query string of [GET /transactions] holds, the WHERE
    clause that the route splices into its two statements is one of eight
    fixed texts: no text of the request enters a statement.  The clause has
    as many placeholders as the COUNT statement gets parameters, and the
    SELECT gets the same parameters followed by the limit and the offset.
    Neither the page nor the limit is ever zero, a missing, unreadable or
    zero value giving 1 and 50. *)
Theorem transactions_listing_placeholders (query : jsval) :
  let l := dashboard.transactions_listing query in
  In (Listing.whereClause l) where_clauses
  /\ occurrences "?" (Listing.whereClause l) = List.length (Listing.countParams l)
  /\ Listing.params l
     = (Listing.countParams l
        ++ [JNum (Listing.limit l); JNum (Listing.offset l)])%list
  /\ Listing.page l <> 0
  /\ Listing.limit l <> 0
  /\ (prop query "page" = JUndefined -> Listing.page l = 1)
  /\ (prop query "limit" = JUndefined \/ prop query "limit" = JStr "0"
      \/ prop query "limit" = JStr "all" -> Listing.limit l = 50).
Proof.
  cbv zeta. unfold dashboard.transactions_listing.
  destruct (truthy (prop query "status"));
    destruct (truthy (prop query "matatu_code"));
    destruct (truthy (prop query "search"));
    cbn -[dashboard.parseInt_or Z.mul Z.sub];
    (split; [tauto|]); (split; [reflexivity|]); (split; [reflexivity|]);
    (split; [apply parseInt_or_nonzero; discriminate|]);
    (split; [apply parseInt_or_nonzero; discriminate|]);
    (split; [intros ->; reflexivity|]);
    intros [->|[->| ->]]; reflexivity.
Qed.

(** *** parseFloat against binary64 *)

(** The rounding of [parseFloat] is that of binary64: on the quotients of
    the integers from 1 to 64 by 3, 7, 10 and 100 it gives, digit for digit,
    the double that the division of the kernel gives. *)
Lemma round64_binary64 (d n : Z) :
  In d [3; 7; 10; 100] -> 1 <= n <= 64 ->
  exists v : Q,
    round64 (n # Z.to_pos d) = Num v
    /\ float_value (Binary64.of_Z n / Binary64.of_Z d)%float = Some v.
Proof.
  intros Hd Hn.
  assert (Hall : forallb (fun d => Binary64.for_range 64 1 (quotient_agrees d))
                   [3; 7; 10; 100] = true) by (vm_compute; reflexivity).
  rewrite forallb_forall in Hall. specialize (Hall d Hd).
  pose proof (for_range_spec _ _ _ Hall n ltac:(lia)) as H.
  unfold quotient_agrees in H.
  destruct (round64 (n # Z.to_pos d)) as [| |[qn qd]]; try discriminate H.
  destruct (float_value _) as [[vn vd]|]; [|discriminate H].
  cbn [Qnum Qden] in H. apply andb_true_iff in H. destruct H as [H1 H2].
  apply Z.eqb_eq in H1. apply Z.eqb_eq in H2. injection H2 as ->. subst.
  eexists. split; reflexivity.
Qed.

(** *** Rounding to binary64 *)

Lemma two_power_pos (e : Z) : (0 < Qpower 2 e)%Q.
Proof. apply Qpower_0_lt. reflexivity. Qed.

Lemma two_power_plus (a b : Z) :
  (Qpower 2 (a + b) == Qpower 2 a * Qpower 2 b)%Q.
Proof. apply Qpower_plus. discriminate. Qed.

Lemma two_power_cancel (e : Z) : (Qpower 2 e * Qpower 2 (- e) == 1)%Q.
Proof.
  rewrite <- two_power_plus. replace (e + - e) with 0 by lia. reflexivity.
Qed.

Lemma two_power_Z (e : Z) : 0 <= e -> (Qpower 2 e == inject_Z (2 ^ e))%Q.
Proof. intros H. symmetry. apply (Zpower_Qpower 2 e H). Qed.



(** Nor is it more than one below it: [Qlog2 q] is the exponent of the
    power of two that [q] starts at. *)
Lemma Qlog2_lt (q : Q) : (0 < q)%Q -> (q < Qpower 2 (Qlog2 q + 1))%Q.
Proof.
  intros Hq. unfold Qlog2.
  destruct (Qle_bool (Qpower 2 (Z.log2 (Qnum q) - Z.log2 (Z.pos (Qden q)))) q)
    eqn:E.
  - clear E. destruct q as [n d].
    assert (Hn : 0 < n) by (unfold Qlt in Hq; cbn in Hq; lia).
    cbn [Qnum Qden].
    pose proof (Z.log2_spec n Hn) as [_ Hn2].
    pose proof (Z.log2_spec (Z.pos d) (Pos2Z.is_pos d)) as [Hd1 _].
    pose proof (Z.log2_nonneg n) as Ln.
    pose proof (Z.log2_nonneg (Z.pos d)) as Ld.
    set (ln := Z.log2 n) in *. set (ld := Z.log2 (Z.pos d)) in *.
    replace (ln - ld + 1) with ((ln + 1) + - ld) by lia.
    rewrite two_power_plus.
    apply Qmult_lt_r with (z := Qpower 2 ld); [apply two_power_pos|].
    rewrite <- Qmult_assoc.
    rewrite (Qmult_comm (Qpower 2 (- ld))), two_power_cancel, Qmult_1_r.
    rewrite (two_power_Z ld Ld), (two_power_Z (ln + 1)) by lia.
    unfold Qlt, Qmult, inject_Z. cbn [Qnum Qden].
    rewrite Z.mul_1_r, Pos.mul_1_r.
    replace (Z.succ ln) with (ln + 1) in Hn2 by lia.
    nia.
  - replace (Z.log2 (Qnum q) - Z.log2 (Z.pos (Qden q)) - 1 + 1)
      with (Z.log2 (Qnum q) - Z.log2 (Z.pos (Qden q))) by lia.
    apply Qnot_le_lt. intros H. apply Qle_bool_iff in H. congruence.
Qed.










(** *** The split in binary64 *)





(** Over the charges from 1 to 50 and the whole percentages, the share
    rounded as [round64] rounds is the one that the floating-point unit
    gives. *)
Lemma rounded_developerShare_binary64 (charge percent : Z) :
  1 <= charge <= 50 -> 0 <= percent <= 100 ->
  exists d : Z,
    rounded_developerShare charge (inject_Z percent) = Num (inject_Z d)
    /\ Binary64.developerShare charge percent = Some d.
Proof.
  intros Hc Hp.
  assert (Hall : Binary64.for_range (Z.to_nat 50) 1
                   (fun c => Binary64.for_range (Z.to_nat 101) 0
                               (share_agrees c)) = true)
    by (vm_compute; reflexivity).
  pose proof (for_range_spec _ _ _ Hall charge ltac:(lia)) as Hrow.
  cbv beta in Hrow.
  pose proof (for_range_spec _ _ _ Hrow percent ltac:(lia)) as Hcell.
  unfold share_agrees in Hcell.
  destruct (rounded_developerShare charge (inject_Z percent))
    as [| |[qn qd]]; try discriminate Hcell.
  destruct (Binary64.developerShare charge percent) as [d|];
    [|discriminate Hcell].
  cbn [Qnum Qden] in Hcell. apply andb_true_iff in Hcell.
  destruct Hcell as [H1 H2].
  apply Z.eqb_eq in H1. apply Z.eqb_eq in H2. injection H2 as ->. subst qn.
  exists d. split; reflexivity.
Qed.



(** *** The schedule in binary64 *)

(** C3, as stated, fails: the charge is the rounded product of two doubles,
    which for an amount of sixteen digits is not the rate times the amount
    rounded half up.  The amount 4503599627370437 is an integer that a
    number holds exactly, and 0.8% of it is 36028797018963.496; the program
    computes 36028797018964. *)
Lemma charge_of_a_sixteen_digit_amount :
  0 < 4503599627370437 <= schemas.MAX_SAFE_INTEGER
  /\ Binary64.calculateTransactionCharge 4503599627370437
     = Some 36028797018964
  /\ round_half_up
       (inject_Z 4503599627370437 * tier_rate 4503599627370437)
       36028797018963
  /\ ~ round_half_up
         (inject_Z 4503599627370437 * tier_rate 4503599627370437)
         36028797018964.
Proof.
  split; [unfold schemas.MAX_SAFE_INTEGER; lia|].
  split; [vm_compute; reflexivity|].
  assert (H : round_half_up
                (inject_Z 4503599627370437 * tier_rate 4503599627370437)
                36028797018963).
  { pose proof (exact_charge_tiers 4503599627370437) as H.
    assert (E : businessRules.calculateTransactionCharge 4503599627370437
                = 36028797018963) by (vm_compute; reflexivity).
    rewrite E in H. exact H. }
  split; [exact H|].
  intros H'. pose proof (round_half_up_unique _ _ _ H H') as E.
  discriminate E.
Qed.

(** C3, amended.  For every fare amount from 1 to 100000, the largest the
    validation lets through, the charge that the program computes in binary64
    is the tier's rate times the amount, rounded to the nearest integer with
    ties going up: 1.5% up to 500, 1.2% up to 1000, 1.0% up to 2000 and 0.8%
    above; 100 is charged 2, 1000 is charged 12 and 3000 is charged 24. *)
Theorem calculateTransactionCharge_tiers :
  (forall fareAmount : Z,
      1 <= fareAmount <= 100000 ->
      exists charge : Z,
        Binary64.calculateTransactionCharge fareAmount = Some charge
        /\ round_half_up (inject_Z fareAmount * tier_rate fareAmount) charge)
  /\ Binary64.calculateTransactionCharge 100 = Some 2
  /\ Binary64.calculateTransactionCharge 1000 = Some 12
  /\ Binary64.calculateTransactionCharge 3000 = Some 24.
Proof.
  split; [|repeat split; vm_compute; reflexivity].
  intros a Ha.
  exists (businessRules.calculateTransactionCharge a).
  split; [apply binary64_charge; exact Ha | apply exact_charge_tiers].
Qed.

(** 1.2% of 625 is 7.5, a tie: the charge is 8. *)
Lemma calculateTransactionCharge_tiers_witness :
  exists charge : Z,
    Binary64.calculateTransactionCharge 625 = Some charge
    /\ round_half_up (inject_Z 625 * tier_rate 625) charge
    /\ charge = 8.
Proof.
  destruct (proj1 calculateTransactionCharge_tiers 625 ltac:(lia))
    as (charge & Hc & Hr).
  exists charge. split; [exact Hc|]. split; [exact Hr|].
  vm_compute in Hc. injection Hc as <-. reflexivity.
Defined.

(** *** What a failure of the gateway client says *)

Lemma failure_without_response (generic : string) (e : Error) :
  response e = JUndefined ->
  MpesaService.failure generic e = generic_failure generic.
Proof. intros H. unfold MpesaService.failure. rewrite H. reflexivity. Qed.

Lemma generateAccessToken_throws (w : World) (s s' : System) (e : Error) :
  MpesaService.generateAccessToken w s = (Throw e, s') ->
  e = new_Error "Failed to generate M-Pesa access token".
Proof.
  unfold MpesaService.generateAccessToken, try_catch, bind, this, ret, lift,
    set_this, throw, console_write, await_axios.
  destruct (truthy (accessToken (mpesaService s))
            && match tokenExpiry (mpesaService s) with
               | Some expiry => now w <? expiry
               | None => false
               end).
  - intros H. discriminate H.
  - destruct (axios w _) as [data|e0].
    + destruct (member data "access_token") as [token|e1];
        intros H; inversion H; reflexivity.
    + intros H. inversion H. reflexivity.
Qed.

Lemma generateAccessToken_rejected (w : World) (s : System) (rejection : Error) :
  cached_token w (mpesaService s) = false ->
  axios w (token_request (mpesaService s)) = Throw rejection ->
  exists s' : System,
    MpesaService.generateAccessToken w s
    = (Throw (new_Error "Failed to generate M-Pesa access token"), s')
    /\ sent s' = (sent s ++ [token_request (mpesaService s)])%list
    /\ db_transactions s' = db_transactions s
    /\ db_matatus s' = db_matatus s.
Proof.
  unfold cached_token, token_request. intros Hc Hnet.
  unfold MpesaService.generateAccessToken, try_catch, bind, this, ret, lift,
    set_this, throw, console_write, await_axios.
  rewrite Hc, Hnet. eexists. split; [reflexivity|]. cbn. auto.
Qed.

Lemma string_receiver_throws (v : jsval) (method : string) (e : Error) :
  string_receiver v method = Throw e -> response e = JUndefined.
Proof.
  destruct v; cbn; intros H; inversion H; reflexivity.
Qed.

Lemma pick_throws (v : jsval) (fields : list (string * string)) (e : Error) :
  pick v fields = Throw e -> response e = JUndefined.
Proof.
  induction fields as [|[k f] rest IH]; cbn [pick]; [discriminate|].
  destruct (member v f) as [x|e0] eqn:Hm; cbn [obind].
  - destruct (pick v rest) as [o|e1]; cbn [obind]; [discriminate|].
    intros H. inversion H; subst. apply IH. reflexivity.
  - intros H. inversion H; subst.
    destruct v; cbn in Hm; inversion Hm; reflexivity.
Qed.

Lemma stkPush_outcome (w : World) (phoneNumber : jsval) (amount : Z)
  (accountReference transactionDesc : string) (sys : System) :
  exists (r : GatewayResult) (sys' : System),
    MpesaService.stkPush w phoneNumber amount accountReference
      transactionDesc sys = (Return r, sys')
    /\ gateway_outcome w "STK Push request failed" sys' r.
Proof.
  unfold MpesaService.stkPush, try_catch. unfold bind at 1.
  destruct (MpesaService.generateAccessToken w sys) as [[token|e] s1] eqn:Hg.
  2:{ pose proof (generateAccessToken_throws _ _ _ _ Hg) as ->.
      unfold bind, console_write, ret. eexists. eexists.
      split; [reflexivity|]. right. left. reflexivity. }
  unfold bind, this, lift, ret, await_axios, console_write,
    MpesaService.generatePassword.
  destruct (string_receiver phoneNumber "startsWith") as [phone|e] eqn:Hphone.
  2:{ eexists. eexists. split; [reflexivity|]. right. left.
      apply failure_without_response.
      exact (string_receiver_throws _ _ _ Hphone). }
  match goal with |- context [axios w ?req] => set (push := req) in * end.
  destruct (axios w push) as [data|rejection] eqn:Hnet.
  - destruct (pick data _) as [fields|e] eqn:Hpick.
    + eexists. eexists. split; [reflexivity|]. left. eexists. reflexivity.
    + eexists. eexists. split; [reflexivity|]. right. left.
      apply failure_without_response. exact (pick_throws _ _ _ Hpick).
  - eexists. eexists. split; [reflexivity|]. right. right.
    exists (sent s1), push, rejection. cbn [sent].
    split; [reflexivity|]. split; [reflexivity|]. split; [exact Hnet|].
    reflexivity.
Qed.

Lemma stkPushQuery_outcome (w : World) (checkoutRequestId : string)
  (sys : System) :
  exists (r : GatewayResult) (sys' : System),
    MpesaService.stkPushQuery w checkoutRequestId sys = (Return r, sys')
    /\ gateway_outcome w "STK Push query failed" sys' r.
Proof.
  unfold MpesaService.stkPushQuery, try_catch. unfold bind at 1.
  destruct (MpesaService.generateAccessToken w sys) as [[token|e] s1] eqn:Hg.
  2:{ pose proof (generateAccessToken_throws _ _ _ _ Hg) as ->.
      unfold bind, console_write, ret. eexists. eexists.
      split; [reflexivity|]. right. left. reflexivity. }
  unfold bind, this, lift, ret, await_axios, console_write,
    MpesaService.generatePassword.
  match goal with |- context [axios w ?req] => set (query := req) in * end.
  destruct (axios w query) as [data|rejection] eqn:Hnet.
  - destruct (pick data _) as [fields|e] eqn:Hpick.
    + eexists. eexists. split; [reflexivity|]. left. eexists. reflexivity.
    + eexists. eexists. split; [reflexivity|]. right. left.
      apply failure_without_response. exact (pick_throws _ _ _ Hpick).
  - eexists. eexists. split; [reflexivity|]. right. right.
    exists (sent s1), query, rejection. cbn [sent].
    split; [reflexivity|]. split; [reflexivity|]. split; [exact Hnet|].
    reflexivity.
Qed.

(** C9, as stated, fails: the failure does not carry the provider's message
    whenever there is one.  Here the cache holds no token and the provider
    rejects the request for one with the message "Invalid Authentication
    passed" and the code 400.008.01: [stkPush] sends that one request and
    returns the generic message and UNKNOWN_ERROR. *)
Lemma token_rejection_is_reported_as_generic :
  let before := demo_system (demo_transaction PENDING None) in
  let run := MpesaService.stkPush demo_world_without_token
               (JStr "254712345678") 102 "MOBI1703012345ABCD"
               "MOBIPAY Payment - Matatu 3025" before in
  fst run = Return (Failure (JStr "STK Push request failed")
                            (JStr "UNKNOWN_ERROR"))
  /\ sent (snd run) = [token_request (mpesaService before)]
  /\ axios demo_world_without_token (token_request (mpesaService before))
     = Throw demo_token_rejection
  /\ provider_says demo_token_rejection "errorMessage"
     = JStr "Invalid Authentication passed"
  /\ provider_says demo_token_rejection "errorCode" = JStr "400.008.01".
Proof. vm_compute. repeat split; reflexivity. Qed.

(** C9, amended.  Neither [stkPush] nor [stkPushQuery] lets an exception
    out: whatever the arguments, the cached state and the behaviour of the
    network, each returns a success object or a failure object
    [{ success: false, error, errorCode }].  The failure carries the
    provider's message and code only when it is the push or the query itself
    that the provider rejected, and then when the rejection has them (the
    generic message and UNKNOWN_ERROR stand in for what it lacks).  When no
    token can be had, the failure is the generic one whatever the provider
    said about the token; so it is for every other error. *)
Theorem gateway_never_throws :
  (forall (w : World) (phoneNumber : jsval) (amount : Z)
          (accountReference transactionDesc : string) (sys : System),
      exists (r : GatewayResult) (sys' : System),
        MpesaService.stkPush w phoneNumber amount accountReference
          transactionDesc sys = (Return r, sys')
        /\ gateway_outcome w "STK Push request failed" sys' r)
  /\ (forall (w : World) (checkoutRequestId : string) (sys : System),
        exists (r : GatewayResult) (sys' : System),
          MpesaService.stkPushQuery w checkoutRequestId sys = (Return r, sys')
          /\ gateway_outcome w "STK Push query failed" sys' r)
  /\ (forall (w : World) (rejection : Error) (phoneNumber : jsval) (amount : Z)
             (accountReference transactionDesc checkoutRequestId : string)
             (sys : System),
        cached_token w (mpesaService sys) = false ->
        axios w (token_request (mpesaService sys)) = Throw rejection ->
        (exists sys' : System,
            MpesaService.stkPush w phoneNumber amount accountReference
              transactionDesc sys
            = (Return (generic_failure "STK Push request failed"), sys')
            /\ sent sys' = (sent sys ++ [token_request (mpesaService sys)])%list)
        /\ (exists sys' : System,
               MpesaService.stkPushQuery w checkoutRequestId sys
               = (Return (generic_failure "STK Push query failed"), sys')
               /\ sent sys'
                  = (sent sys ++ [token_request (mpesaService sys)])%list))
  /\ (forall (w : World) (rejection : Error) (phone : string) (amount : Z)
             (accountReference transactionDesc checkoutRequestId : string)
             (token : jsval) (sys sys1 : System),
        MpesaService.generateAccessToken w sys = (Return token, sys1) ->
        (forall req : Request,
            req_method req = "POST" -> axios w req = Throw rejection) ->
        (exists sys' : System,
            MpesaService.stkPush w (JStr phone) amount accountReference
              transactionDesc sys
            = (Return (MpesaService.failure "STK Push request failed" rejection),
               sys'))
        /\ (exists sys' : System,
               MpesaService.stkPushQuery w checkoutRequestId sys
               = (Return (MpesaService.failure "STK Push query failed" rejection),
                  sys')))
  /\ (forall (generic : string) (rejection : Error),
        structured_failure generic rejection
          (MpesaService.failure generic rejection)).
Proof.
  split; [exact stkPush_outcome|].
  split; [exact stkPushQuery_outcome|].
  split; [|split; [|exact failure_structured]].
  - intros w rejection phoneNumber amount accountReference transactionDesc
      checkoutRequestId sys Hcache Hnet.
    destruct (generateAccessToken_rejected w sys rejection Hcache Hnet)
      as (s1 & Hg & Hsent & _).
    split.
    + unfold MpesaService.stkPush, try_catch. unfold bind at 1. rewrite Hg.
      unfold bind, console_write, ret. eexists. split; [reflexivity|].
      exact Hsent.
    + unfold MpesaService.stkPushQuery, try_catch. unfold bind at 1. rewrite Hg.
      unfold bind, console_write, ret. eexists. split; [reflexivity|].
      exact Hsent.
  - intros w rejection phone amount accountReference transactionDesc
      checkoutRequestId token sys sys1 Hg Hnet.
    split.
    + unfold MpesaService.stkPush, try_catch. unfold bind at 1. rewrite Hg.
      unfold bind, this, lift, await_axios, console_write, ret.
      cbn [MpesaService.generatePassword string_receiver].
      match goal with
      | |- context [axios w ?req] => rewrite (Hnet req eq_refl)
      end.
      eexists. reflexivity.
    + unfold MpesaService.stkPushQuery, try_catch. unfold bind at 1. rewrite Hg.
      unfold bind, this, lift, await_axios, console_write, ret.
      cbn [MpesaService.generatePassword].
      match goal with
      | |- context [axios w ?req] => rewrite (Hnet req eq_refl)
      end.
      eexists. reflexivity.
Qed.

(** With a token in the cache and a provider that rejects the push with a
    message and a code, the failure carries both. *)
Lemma gateway_never_throws_witness :
  exists sys' : System,
    MpesaService.stkPush demo_world_rejecting (JStr "254712345678") 102
      "MOBI1703012345ABCD" "MOBIPAY Payment - Matatu 3025"
      (demo_system_with_token (demo_transaction PENDING None))
    = (Return (Failure (JStr "Bad Request - Invalid PhoneNumber")
                       (JStr "400.002.02")), sys').
Proof.
  destruct (proj1 (proj2 (proj2 (proj2 gateway_never_throws)))
              demo_world_rejecting demo_rejection "254712345678" 102
              "MOBI1703012345ABCD" "MOBIPAY Payment - Matatu 3025"
              "ws_CO_123456789" (JStr "token-0")
              (demo_system_with_token (demo_transaction PENDING None))
              (demo_system_with_token (demo_transaction PENDING None))
              eq_refl (fun _ _ => eq_refl)) as [[sys' H] _].
  exists sys'. exact H.
Defined.

(** *** What a callback writes *)

Lemma stored_update_status_receipt (ts : list transactions.row)
  (transactionId : string) (t : transactions.row) (newStatus : Status)
  (receipt : jsval) (now : string) :
  stored ts transactionId = Some t ->
  stored (SQL.update_status_receipt newStatus receipt now transactionId ts)
    transactionId
  = Some (transactions.set_status_receipt newStatus (SQL.text receipt) now t).
Proof.
  unfold stored, SQL.update_status_receipt.
  induction ts as [|r ts IH]; cbn [find map]; [discriminate|].
  destruct (transactions.transaction_id r =? transactionId)%string eqn:E.
  - intros H. inversion H; subst.
    cbn [transactions.set_status_receipt transactions.transaction_id].
    rewrite E. reflexivity.
  - rewrite E. exact IH.
Qed.

(** What [processCallback] returns for a callback that passes the
    validation and whose metadata can be read. *)
Lemma processCallback_readable (req_body : jsval) :
  callbackIsValid (MpesaService.validateCallback req_body) = true ->
  metadata_readable req_body ->
  exists r : CallbackResult,
    (forall s : System,
        MpesaService.processCallback req_body s = (Return r, s))
    /\ checkoutRequestId r
       = prop (stkCallback_of req_body) "CheckoutRequestID"
    /\ callback_status r = reported_status req_body
    /\ mpesaReceiptNumber r = reported_receipt req_body.
Proof.
  intros Hvalid Hread.
  destruct (valid_callback _ Hvalid) as (H1 & H2 & H3).
  unfold metadata_readable, reported_receipt, reported_status, reads_metadata,
    callback_status, stkCallback_of in *.
  unfold MpesaService.processCallback, try_catch, bind, lift, ret.
  rewrite (member_truthy _ _ H1), (member_truthy _ _ H2),
    (member_truthy _ _ H3).
  cbn [callbackSuccess].
  destruct (strict_eq (prop (prop (prop req_body "Body") "stkCallback")
                         "ResultCode") (JNum 0)
            && truthy (prop (prop (prop req_body "Body") "stkCallback")
                         "CallbackMetadata")) eqn:Emeta.
  - destruct (Hread eq_refl) as (items & Hitem & Hitems).
    rewrite Hitem. rewrite !(metadata_Value_named items _ Hitems).
    apply andb_true_iff in Emeta. destruct Emeta as [Ecode _].
    eexists. split; [intros s; reflexivity|].
    cbn. rewrite Ecode. auto.
  - eexists. split; [intros s; reflexivity|]. cbn. auto.
Qed.

(** C1, amended.  Every status an operation writes is COMPLETED or FAILED,
    and no operation changes the shares (or anything but the status, the
    receipt and the time of the update).  The status route writes a status
    only when the transaction it looked up is PENDING.  The callback route
    does not look at the status stored: for a callback that passes the
    validation, whose metadata can be read and whose checkout id finds a
    transaction, it acknowledges and gives every row of that transaction
    the status of the result code (COMPLETED for 0, FAILED otherwise) and
    the receipt of the callback (none for a failure), whatever stood there
    before.  Delivering the same payload again gets the same answer and
    leaves status, receipt and shares of every transaction as the first
    delivery left them. *)
Theorem settlement_transitions :
  (forall (w : World) (transactionId : string) (sys sys' : System)
          (o : outcome Response),
      server.payment_status w transactionId sys = (o, sys') ->
      db_transactions sys' = db_transactions sys
      \/ exists (t : transactions.row) (newStatus : Status),
           stored (db_transactions sys) transactionId = Some t
           /\ transactions.status t = PENDING
           /\ (newStatus = COMPLETED \/ newStatus = FAILED)
           /\ db_transactions sys'
              = SQL.update_status newStatus (CURRENT_TIMESTAMP w)
                  transactionId (db_transactions sys))
  /\ (forall (w : World) (req_body : jsval) (sys sys' : System)
             (o : outcome Response),
        server.mpesa_callback w req_body sys = (o, sys') ->
        db_transactions sys' = db_transactions sys
        \/ exists (transaction_id : string) (newStatus : Status)
                  (receipt : jsval),
             (newStatus = COMPLETED \/ newStatus = FAILED)
             /\ o = Return acknowledged
             /\ db_transactions sys'
                = SQL.update_status_receipt newStatus receipt
                    (CURRENT_TIMESTAMP w) transaction_id (db_transactions sys))
  /\ (forall (w : World) (req_body : jsval) (sys : System)
             (transaction_id : string),
        callbackIsValid (MpesaService.validateCallback req_body) = true ->
        metadata_readable req_body ->
        SQL.transaction_id_by_checkout (db_transactions sys)
          (prop (stkCallback_of req_body) "CheckoutRequestID")
        = Some transaction_id ->
        exists sys' : System,
          server.mpesa_callback w req_body sys = (Return acknowledged, sys')
          /\ db_transactions sys'
             = SQL.update_status_receipt (reported_status req_body)
                 (reported_receipt req_body) (CURRENT_TIMESTAMP w)
                 transaction_id (db_transactions sys)
          /\ db_matatus sys' = db_matatus sys
          /\ forall t : transactions.row,
               stored (db_transactions sys) transaction_id = Some t ->
               stored (db_transactions sys') transaction_id
               = Some (transactions.set_status_receipt
                         (reported_status req_body)
                         (SQL.text (reported_receipt req_body))
                         (CURRENT_TIMESTAMP w) t))
  /\ (forall (newStatus : Status) (receipt : jsval)
             (now transactionId : string) (ts : list transactions.row),
        map terms (SQL.update_status newStatus now transactionId ts)
        = map terms ts
        /\ map transactions.mpesa_receipt_number
             (SQL.update_status newStatus now transactionId ts)
           = map transactions.mpesa_receipt_number ts
        /\ map terms
             (SQL.update_status_receipt newStatus receipt now transactionId ts)
           = map terms ts)
  /\ (forall (w1 w2 : World) (req_body : jsval) (sys sys1 sys2 : System)
             (o1 o2 : outcome Response),
        server.mpesa_callback w1 req_body sys = (o1, sys1) ->
        server.mpesa_callback w2 req_body sys1 = (o2, sys2) ->
        o2 = o1
        /\ map settlement (db_transactions sys2)
           = map settlement (db_transactions sys1)).
Proof.
  split; [exact payment_status_table|].
  split; [exact mpesa_callback_table|].
  split; [|split].
  - intros w req_body sys transaction_id Hvalid Hread Hfind.
    destruct (processCallback_readable req_body Hvalid Hread)
      as (r & Hrun & Hck & Hst & Hrec).
    unfold server.mpesa_callback, try_catch, bind, console_write, get_system,
      set_transactions, ret.
    rewrite Hvalid. cbn [negb]. rewrite Hrun.
    cbn [db_transactions]. rewrite Hck, Hfind.
    fold (callback_status r). rewrite Hst, Hrec.
    eexists. split; [reflexivity|].
    cbn [db_transactions db_matatus].
    split; [reflexivity|]. split; [reflexivity|].
    intros t Ht. apply stored_update_status_receipt. exact Ht.
  - intros newStatus receipt now transactionId ts.
    destruct (update_status_terms newStatus now transactionId ts) as [H1 H2].
    split; [exact H1|]. split; [exact H2|].
    apply update_status_receipt_terms.
  - exact mpesa_callback_again.
Qed.

(** A cancelled payment reported for a transaction already COMPLETED, and
    the completing callback of a PENDING one delivered twice. *)
Lemma settlement_transitions_witness :
  (exists sys' : System,
      server.mpesa_callback demo_world (demo_callback "ws_CO_123456789" 1032)
        (demo_system (demo_transaction COMPLETED (Some "OKL1A2B3C4")))
      = (Return acknowledged, sys')
      /\ stored (db_transactions sys') "MOBI1703012345ABCD"
         = Some (transactions.set_status_receipt FAILED None
                   "2024-01-01 10:01:00"
                   (demo_transaction COMPLETED (Some "OKL1A2B3C4"))))
  /\ (let first := server.mpesa_callback demo_world
                     (demo_callback "ws_CO_123456789" 0)
                     (demo_system (demo_transaction PENDING None)) in
      let second := server.mpesa_callback demo_world
                      (demo_callback "ws_CO_123456789" 0) (snd first) in
      fst first = Return acknowledged
      /\ map settlement (db_transactions (snd first))
         = [("MOBI1703012345ABCD", COMPLETED, Some "OKL1A2B3C4", 2, 0)]
      /\ fst second = fst first
      /\ map settlement (db_transactions (snd second))
         = map settlement (db_transactions (snd first))).
Proof.
  split.
  - destruct (proj1 (proj2 (proj2 settlement_transitions)) demo_world
                (demo_callback "ws_CO_123456789" 1032)
                (demo_system (demo_transaction COMPLETED (Some "OKL1A2B3C4")))
                "MOBI1703012345ABCD" eq_refl
                ltac:(intros H; discriminate H) eq_refl)
      as (sys' & Hrun & _ & _ & Hrow).
    exists sys'. split; [exact Hrun|].
    exact (Hrow _ eq_refl).
  - cbv zeta.
    split; [vm_compute; reflexivity|]. split; [vm_compute; reflexivity|].
    apply (proj2 (proj2 (proj2 (proj2 settlement_transitions)))
             demo_world demo_world (demo_callback "ws_CO_123456789" 0)
             (demo_system (demo_transaction PENDING None))).
    + apply surjective_pairing.
    + apply surjective_pairing.
Defined.
